(** * The SSH communicator of packer: connection life cycle, sessions,
      remote commands and the SCP upload driver

    Shallow embedding of [communicator/ssh/communicator.go].

    The communicator talks to collaborators that are not part of the
    package: the connection factory, the SSH library, the operating
    system's files and the caller's [RemoteCmd].  Each call to one of them
    is recorded as an [Event] in the [trace] of the [World]; what the
    collaborator answers is given by an environment [Env], whose answers may
    depend on everything that happened before (the trace so far).  The code
    of the package itself is written in a state monad [M] over the world.

    Conventions:
    - a Go result pair [(v, err)] of a collaborator is a [result]: the
      collaborators follow Go's convention that the value is the zero value
      (nil) when the error is not nil;
    - pointers to collaborator objects ([net.Conn], [*ssh.ClientConn],
      [*ssh.Session], [io.Writer], [*os.File]) are opaque handles;
    - [log] output is not modelled;
    - [Download], which panics, and [scpWalkFn], the recursive walk that no
      function of the package calls, are left out. *)

From Stdlib Require Import List String Ascii ZArith Lia Bool Arith PeanoNat.
From Stdlib.Strings Require Import Byte.
From Stdlib Require Import DecimalString DecimalNat.
Import ListNotations.

Local Open Scope string_scope.
Local Open Scope list_scope.

(* ================================================================== *)
(** * Errors and results *)
(* ================================================================== *)

(** Go [error] values, as far as the package tells them apart: by identity
    with a sentinel ([io.EOF], [bufio.ErrBufferFull]), by dynamic type
    ([*ssh.ExitError]) or not at all (the text is all there is). *)
Inductive error : Type :=
| EOF                                      (* io.EOF *)
| ErrBufferFull                            (* bufio.ErrBufferFull *)
| ErrorString (s : string)                 (* errors.New(s), fmt.Errorf(...) *)
| ExitError (status : Z) (text : string)   (* *ssh.ExitError *)
| ForeignError (text : string).            (* any other error type *)

(** [err.Error()] *)
Definition Error (e : error) : string :=
  match e with
  | EOF => "EOF"
  | ErrBufferFull => "bufio: buffer full"
  | ErrorString s => s
  | ExitError _ t => t
  | ForeignError t => t
  end.

(** [errors.New] *)
Definition errors_New (s : string) : error := ErrorString s.

Inductive result (A : Type) : Type :=
| Ok (a : A)
| Err (e : error).
Arguments Ok {A} a.
Arguments Err {A} e.

(** An [io.Reader] over local or remote data: the bytes it will deliver and
    the error that ends it ([EOF] for a stream that is closed normally). *)
Record Stream : Type := mkStream {
  st_data : list byte;
  st_err : error
}.

(* ================================================================== *)
(** * [bufio.Reader] *)
(* ================================================================== *)

Module bufio.

(** The unread bytes (buffered or still to arrive), the error of the
    underlying stream once they are used up, and the buffer's size. *)
Record Reader : Type := mkReader {
  data : list byte;
  err : error;
  size : nat
}.

Definition defaultBufSize : nat := 4096.

Definition NewReader (rd : Stream) : Reader :=
  mkReader (st_data rd) (st_err rd) defaultBufSize.

Definition advance (n : nat) (b : Reader) : Reader :=
  mkReader (skipn n (data b)) (err b) (size b).

(** [(b *Reader) ReadByte() (byte, error)] *)
Definition ReadByte (b : Reader) : (byte * option error) * Reader :=
  match data b with
  | [] => ((x00, Some (err b)), b)
  | c :: _ => ((c, None), advance 1 b)
  end.

(** [bytes.IndexByte(l, '\n')] *)
Fixpoint index_LF (l : list byte) : option nat :=
  match l with
  | [] => None
  | c :: t => if Byte.eqb c x0a then Some 0 else option_map S (index_LF t)
  end.

(** [(b *Reader) ReadSlice('\n')]: up to and including the first line
    feed, if that fits the buffer; the whole buffer with [ErrBufferFull]
    if the buffer fills up first; what is left with the stream's error if
    the stream ends first. *)
Definition ReadSlice (b : Reader) : (list byte * option error) * Reader :=
  match index_LF (firstn (size b) (data b)) with
  | Some i => ((firstn (S i) (data b), None), advance (S i) b)
  | None =>
      if (size b <=? List.length (data b))%nat
      then ((firstn (size b) (data b), Some ErrBufferFull), advance (size b) b)
      else ((data b, Some (err b)), advance (List.length (data b)) b)
  end.

(** the line without its end, ["\n"] or ["\r\n"] *)
Definition drop_line_end (line : list byte) : list byte :=
  match rev line with
  | x0a :: x0d :: t => rev t
  | x0a :: t => rev t
  | _ => line
  end.

Definition ends_with_CR (line : list byte) : bool :=
  match rev line with
  | x0d :: _ => true
  | _ => false
  end.

(** [(b *Reader) ReadLine() (line []byte, isPrefix bool, err error)] *)
Definition ReadLine (b : Reader) : (list byte * bool * option error) * Reader :=
  let '((line, e), b1) := ReadSlice b in
  match e with
  | Some ErrBufferFull =>
      if ends_with_CR line
      then ((removelast line, true, None),
            mkReader (x0d :: data b1) (err b1) (size b1))
      else ((line, true, None), b1)
  | _ =>
      match line with
      | [] => (([], false, e), b1)
      | _ :: _ => ((drop_line_end line, false, None), b1)
      end
  end.

End bufio.

(* ================================================================== *)
(** * [fmt] *)
(* ================================================================== *)

(** [%v] of an [int] that is a length: its decimal digits. *)
Definition itoa (n : nat) : string := NilZero.string_of_uint (Nat.to_uint n).

Definition LF : string := String (ascii_of_byte x0a) EmptyString.

(** The text [fmt.Fprintln] makes of its operands: a space between any two
    of them and a line feed at the end. *)
Fixpoint Sprintln (operands : list string) : string :=
  match operands with
  | [] => LF
  | [a] => String.append a LF
  | a :: rest => String.append a (String.append " " (Sprintln rest))
  end.

(* ================================================================== *)
(** * Collaborators, events and the world *)
(* ================================================================== *)

Definition Conn := nat.        (* net.Conn *)
Definition ClientConn := nat.  (* *ssh.ClientConn *)
Definition Session := nat.     (* *ssh.Session *)
Definition Writer := nat.      (* io.Writer, io.WriteCloser *)

(** [*os.File]: a descriptor and, for a regular file, what reading it gives *)
Record File : Type := mkFile {
  fd : nat;
  contents : Stream
}.

(** [os.FileInfo], as far as it is consulted *)
Record FileInfo : Type := mkFileInfo {
  Name : string;
  IsDir : bool
}.

(** [ssh.TerminalModes] keys *)
Inductive TermOp : Type := ECHO | TTY_OP_ISPEED | TTY_OP_OSPEED.

Inductive Event : Type :=
| EvConnClose (k : Conn)                                  (* conn.Close() *)
| EvConnection (r : result Conn)                          (* config.Connection() *)
| EvClient (k : Conn) (r : result ClientConn)             (* ssh.Client(conn, cfg) *)
| EvNewSession (cl : ClientConn) (r : result Session)     (* client.NewSession() *)
| EvSetStdio (s : Session) (i o e : nat)                  (* session.Stdin/Stdout/Stderr = *)
| EvSetStderrBuffer (s : Session)                         (* session.Stderr = new(bytes.Buffer) *)
| EvRequestPty (s : Session) (term : string) (h w : Z)
               (modes : list (TermOp * Z)) (r : option error)
| EvStart (s : Session) (cmd : string) (r : option error) (* session.Start(cmd) *)
| EvWait (s : Session) (r : option error)                 (* session.Wait() *)
| EvSessionClose (s : Session)                            (* session.Close() *)
| EvStdinPipe (s : Session) (r : result Writer)           (* session.StdinPipe() *)
| EvStdoutPipe (s : Session) (r : result Stream)          (* session.StdoutPipe() *)
| EvPipeClose (w : Writer)                                (* stdinW.Close() *)
| EvWrite (w : Writer) (p : list byte) (r : option error) (* w.Write(p) *)
| EvReadByte (c : byte) (r : option error)                (* r.ReadByte() *)
| EvReadLine (line : list byte) (r : option error)        (* r.ReadLine() *)
| EvOpen (path : string) (r : result File)                (* os.Open(path) *)
| EvReaddir (f : File) (r : result (list FileInfo))       (* f.Readdir(-1) *)
| EvFileClose (f : File)                                  (* f.Close() *)
| EvSetExited (status : Z).                               (* cmd.SetExited(status) *)

Definition Trace := list Event.

(** What the collaborators answer.  [Config] of the source is the pair of
    [Connection] and the configuration handed to [ssh_Client]. *)
Record Env : Type := mkEnv {
  Connection : Trace -> result Conn;
  ssh_Client : Trace -> Conn -> result ClientConn;
  NewSession : Trace -> ClientConn -> result Session;
  RequestPty : Trace -> Session -> option error;
  session_Start : Trace -> Session -> string -> option error;
  session_Wait : Trace -> Session -> option error;
  StdinPipe : Trace -> Session -> result Writer;
  StdoutPipe : Trace -> Session -> result Stream;
  Write : Trace -> Writer -> list byte -> option error;
  os_Open : Trace -> string -> result File;
  Readdir : Trace -> File -> result (list FileInfo);
  filepath_Dir : string -> string;
  filepath_Base : string -> string;
  filepath_ToSlash : string -> string;
  filepath_Join : string -> string -> string
}.

(** [type comm struct] (its [config] is the environment) *)
Record comm : Type := mkComm {
  client : option ClientConn;
  conn : option Conn
}.

Record World : Type := mkWorld {
  c : comm;
  trace : Trace
}.

(** [packer.RemoteCmd] *)
Record RemoteCmd : Type := mkRemoteCmd {
  Command : string;
  Stdin : nat;
  Stdout : nat;
  Stderr : nat;
  Exited : bool;
  ExitStatus : Z
}.

(* ================================================================== *)
(** * The state monad *)
(* ================================================================== *)

Definition M (A : Type) : Type := World -> A * World.

Definition ret {A} (a : A) : M A := fun w => (a, w).

Definition bind {A B} (m : M A) (k : A -> M B) : M B :=
  fun w => let (a, w1) := m w in k a w1.

Declare Scope comm_scope.
Delimit Scope comm_scope with comm.
Notation "x <- m ;; k" := (bind m (fun x => k))
  (at level 61, m at next level, right associativity) : comm_scope.
Notation "' pat <- m ;; k" := (bind m (fun x => match x with pat => k end))
  (at level 61, pat pattern, m at next level, right associativity) : comm_scope.
Notation "m ;;; k" := (bind m (fun _ => k))
  (at level 61, right associativity) : comm_scope.
Local Open Scope comm_scope.

Definition emit (ev : Event) : M unit :=
  fun w => (tt, mkWorld (c w) (trace w ++ [ev])).

Definition get_comm : M comm := fun w => (c w, w).
Definition get_conn : M (option Conn) := fun w => (conn (c w), w).
Definition get_client : M (option ClientConn) := fun w => (client (c w), w).
Definition set_conn (k : option Conn) : M unit :=
  fun w => (tt, mkWorld (mkComm (client (c w)) k) (trace w)).
Definition set_client (cl : option ClientConn) : M unit :=
  fun w => (tt, mkWorld (mkComm cl (conn (c w))) (trace w)).

(** A call to a collaborator: ask the environment, record the answer. *)
Definition call {A} (ask : Trace -> A) (ev : A -> Event) : M A :=
  fun w => let a := ask (trace w) in (a, mkWorld (c w) (trace w ++ [ev a])).

(** Bytes that reached writer [wr], in order. *)
Fixpoint written (wr : Writer) (t : Trace) : list byte :=
  match t with
  | [] => []
  | EvWrite w' p None :: t' =>
      if Nat.eqb w' wr then p ++ written wr t' else written wr t'
  | _ :: t' => written wr t'
  end.

Definition count (p : Event -> bool) (t : Trace) : nat :=
  List.length (filter p t).

Definition is_connection (ev : Event) : bool :=
  match ev with EvConnection _ => true | _ => false end.
Definition is_open_attempt (ev : Event) : bool :=
  match ev with EvNewSession _ _ => true | _ => false end.
Definition is_pipe_close (ev : Event) : bool :=
  match ev with EvPipeClose _ => true | _ => false end.
Definition is_session_close (ev : Event) : bool :=
  match ev with EvSessionClose _ => true | _ => false end.
Definition is_set_exited (ev : Event) : bool :=
  match ev with EvSetExited _ => true | _ => false end.
Definition is_wait (ev : Event) : bool :=
  match ev with EvWait _ _ => true | _ => false end.
Definition is_remote (ev : Event) : bool :=
  match ev with
  | EvOpen _ _ | EvReaddir _ _ | EvFileClose _ => false
  | _ => true
  end.

(* ================================================================== *)
(** * The communicator *)
(* ================================================================== *)

(** [io.Copy(inputBuf, src)]: drain [src] into a fresh in-memory buffer. *)
Definition io_Copy_in (src : Stream) : result (list byte) :=
  match st_err src with
  | EOF => Ok (st_data src)
  | e => Err e
  end.

(** The exit code the goroutine of [Start] extracts from the error of
    [session.Wait()]. *)
Definition exit_status_of (err : option error) : Z :=
  match err with
  | Some (ExitError status _) => status
  | _ => 0%Z
  end.

Definition scp_unavailable : string :=
  String.append "SCP failed to start. This usually means that SCP is not"
    (String.append LF "properly installed on the remote system.").

(** What [scpSession] makes of the error of [session.Wait()]. *)
Definition wait_result (err : option error) : option error :=
  match err with
  | None => None
  | Some (ExitError 127%Z _) => Some (errors_New scp_unavailable)
  | Some e => Some e
  end.

Definition termModes : list (TermOp * Z) :=
  [(ECHO, 0%Z); (TTY_OP_ISPEED, 14400%Z); (TTY_OP_OSPEED, 14400%Z)].

(** Modelled from the spec: [packer.RemoteCmd.SetExited], of package
    [packer], is not among the sources; the spec calls it writing the
    integer into the command's completion slot.  Every write is recorded. *)
Definition SetExited (cmd : RemoteCmd) (status : Z) : M RemoteCmd :=
  emit (EvSetExited status) ;;;
  ret (mkRemoteCmd (Command cmd) (Stdin cmd) (Stdout cmd) (Stderr cmd) true status).

Section Communicator.

Variable E : Env.

(** ** Calls to collaborators *)

Definition conn_Close (k : Conn) : M unit := emit (EvConnClose k).
Definition config_Connection : M (result Conn) :=
  call (Connection E) EvConnection.
Definition ssh_Client_call (k : Conn) : M (result ClientConn) :=
  call (fun t => ssh_Client E t k) (EvClient k).
Definition client_NewSession (cl : ClientConn) : M (result Session) :=
  call (fun t => NewSession E t cl) (EvNewSession cl).
Definition session_RequestPty (s : Session) (term : string) (h w : Z)
    (modes : list (TermOp * Z)) : M (option error) :=
  call (fun t => RequestPty E t s) (EvRequestPty s term h w modes).
Definition session_Start_call (s : Session) (cmd : string) : M (option error) :=
  call (fun t => session_Start E t s cmd) (EvStart s cmd).
Definition session_Wait_call (s : Session) : M (option error) :=
  call (fun t => session_Wait E t s) (EvWait s).
Definition session_Close (s : Session) : M unit := emit (EvSessionClose s).
Definition session_StdinPipe (s : Session) : M (result Writer) :=
  call (fun t => StdinPipe E t s) (EvStdinPipe s).
Definition session_StdoutPipe (s : Session) : M (result Stream) :=
  call (fun t => StdoutPipe E t s) (EvStdoutPipe s).
Definition pipe_Close (w : Writer) : M unit := emit (EvPipeClose w).
Definition os_Open_call (path : string) : M (result File) :=
  call (fun t => os_Open E t path) (EvOpen path).
Definition file_Readdir (f : File) : M (result (list FileInfo)) :=
  call (fun t => Readdir E t f) (EvReaddir f).
Definition file_Close (f : File) : M unit := emit (EvFileClose f).

(** [w.Write(p)] *)
Definition w_Write (w : Writer) (p : list byte) : M (option error) :=
  call (fun t => Write E t w p) (EvWrite w p).

(** [fmt.Fprintln(w, operands...)], [fmt.Fprint(w, s)]: one [Write] *)
Definition fmt_Fprintln (w : Writer) (operands : list string) : M (option error) :=
  w_Write w (list_byte_of_string (Sprintln operands)).
Definition fmt_Fprint (w : Writer) (s : string) : M (option error) :=
  w_Write w (list_byte_of_string s).

(** [io.Copy(w, inputBuf)]: [bytes.Buffer.WriteTo] hands a buffer that is
    not empty to [w] in one [Write]. *)
Definition io_Copy_out (w : Writer) (buf : list byte) : M (option error) :=
  match buf with
  | [] => ret None
  | _ :: _ => w_Write w buf
  end.

Definition r_ReadByte (r : bufio.Reader) : M ((byte * option error) * bufio.Reader) :=
  let res := bufio.ReadByte r in
  emit (EvReadByte (fst (fst res)) (snd (fst res))) ;;; ret res.

Definition r_ReadLine (r : bufio.Reader)
    : M ((list byte * bool * option error) * bufio.Reader) :=
  let res := bufio.ReadLine r in
  emit (EvReadLine (fst (fst (fst res))) (snd (fst res))) ;;; ret res.

(** ** [reconnect] *)

Definition reconnect : M (option error) :=
  k0 <- get_conn ;;
  match k0 with
  | Some k => conn_Close k
  | None => ret tt
  end ;;;
  set_conn None ;;;
  set_client None ;;;
  r <- config_Connection ;;
  match r with
  | Err e => set_conn None ;;; ret (Some e)
  | Ok k =>
      set_conn (Some k) ;;;
      h <- ssh_Client_call k ;;
      match h with
      | Err e => set_client None ;;; ret (Some e)
      | Ok cl => set_client (Some cl) ;;; ret None
      end
  end.

(** ** [New] *)

(** The communicator [New] returns (nil together with an error); the new
    [comm] starts with both fields nil. *)
Definition New : M (option comm * option error) :=
  set_conn None ;;; set_client None ;;;
  err <- reconnect ;;
  match err with
  | Some e => ret (None, Some e)
  | None => result <- get_comm ;; ret (Some result, None)
  end.

(** ** [newSession] *)

Definition newSession : M (result Session) :=
  cl0 <- get_client ;;
  first <- match cl0 with
           | None => ret (Err (errors_New "client not available"))
           | Some cl => client_NewSession cl
           end ;;
  match first with
  | Err _ =>
      e <- reconnect ;;
      match e with
      | Some e => ret (Err e)
      | None =>
          cl1 <- get_client ;;
          match cl1 with
          | Some cl => client_NewSession cl
          | None => ret (Err (ForeignError "nil pointer dereference"))
          end
      end
  | Ok session => ret (Ok session)
  end.

(** ** [Start] *)

(** The goroutine that [Start] launches. *)
Definition Start_goroutine (session : Session) (cmd : RemoteCmd) : M RemoteCmd :=
  err <- session_Wait_call session ;;
  cmd' <- SetExited cmd (exit_status_of err) ;;
  session_Close session ;;;
  ret cmd'.

(** The error [Start] returns and the goroutine it launched, if any. *)
Definition Start (cmd : RemoteCmd) : M (option error * option (M RemoteCmd)) :=
  s <- newSession ;;
  match s with
  | Err e => ret (Some e, None)
  | Ok session =>
      emit (EvSetStdio session (Stdin cmd) (Stdout cmd) (Stderr cmd)) ;;;
      e1 <- session_RequestPty session "xterm" 80 40 termModes ;;
      match e1 with
      | Some e => ret (Some e, None)
      | None =>
          e2 <- session_Start_call session (String.append (Command cmd) LF) ;;
          match e2 with
          | Some e => ret (Some e, None)
          | None => ret (None, Some (Start_goroutine session cmd))
          end
      end
  end.

(** ** [checkSCPStatus] *)

Definition checkSCPStatus (r : bufio.Reader) : M (option error * bufio.Reader) :=
  '((code, err), r1) <- r_ReadByte r ;;
  match err with
  | Some e => ret (Some e, r1)
  | None =>
      if negb (Byte.eqb code x00) then
        '((message, _, err), r2) <- r_ReadLine r1 ;;
        match err with
        | Some e =>
            ret (Some (errors_New
                   (String.append "Error reading error message: " (Error e))), r2)
        | None => ret (Some (errors_New (string_of_list_byte message)), r2)
        end
      else ret (None, r1)
  end.

(** ** [scpUploadFile] *)

Definition scpUploadFile (dst : string) (src : Stream) (w : Writer)
    (r : bufio.Reader) : M (option error * bufio.Reader) :=
  match io_Copy_in src with
  | Err e => ret (Some e, r)
  | Ok inputBuf =>
      fmt_Fprintln w ["C0644"; itoa (List.length inputBuf); dst] ;;;
      '(err, r1) <- checkSCPStatus r ;;
      match err with
      | Some e => ret (Some e, r1)
      | None =>
          e <- io_Copy_out w inputBuf ;;
          match e with
          | Some e => ret (Some e, r1)
          | None =>
              fmt_Fprint w (String (ascii_of_byte x00) EmptyString) ;;;
              '(err, r2) <- checkSCPStatus r1 ;;
              match err with
              | Some e => ret (Some e, r2)
              | None => ret (None, r2)
              end
          end
      end
  end.

(** ** [scpUploadDir] *)

Fixpoint scpUploadDir (root : string) (fs : list FileInfo) (w : Writer)
    (r : bufio.Reader) : M (option error * bufio.Reader) :=
  match fs with
  | [] => ret (None, r)
  | fi :: rest =>
      if negb (IsDir fi) then
        o <- os_Open_call (filepath_Join E root (Name fi)) ;;
        match o with
        | Err e => ret (Some e, r)
        | Ok f =>
            '(err, r1) <- scpUploadFile (Name fi) (contents f) w r ;;
            file_Close f ;;;
            match err with
            | Some e => ret (Some e, r1)
            | None => scpUploadDir root rest w r1
            end
        end
      else scpUploadDir root rest w r
  end.

(** ** [scpSession] *)

(** The deferred function: close the pipe unless the variable [stdinW]
    has been set to nil. *)
Definition deferred_pipe_close (stdinW : option Writer) : M unit :=
  match stdinW with
  | Some w => pipe_Close w
  | None => ret tt
  end.

(** The part of [scpSession] that runs once the stdin pipe is there:
    the result, and the final value of the variable [stdinW]. *)
Definition scpSession_transfer (session : Session) (stdinW : Writer)
    (scpCommand : string)
    (f : Writer -> bufio.Reader -> M (option error * bufio.Reader))
    : M (option error * option Writer) :=
  q <- session_StdoutPipe session ;;
  match q with
  | Err e => ret (Some e, Some stdinW)
  | Ok stdoutPipe =>
      let stdoutR := bufio.NewReader stdoutPipe in
      emit (EvSetStderrBuffer session) ;;;
      e1 <- session_Start_call session scpCommand ;;
      match e1 with
      | Some e => ret (Some e, Some stdinW)
      | None =>
          '(e2, _) <- f stdinW stdoutR ;;
          match e2 with
          | Some e => ret (Some e, Some stdinW)
          | None =>
              pipe_Close stdinW ;;;
              err <- session_Wait_call session ;;
              ret (wait_result err, None)
          end
      end
  end.

Definition scpSession (scpCommand : string)
    (f : Writer -> bufio.Reader -> M (option error * bufio.Reader))
    : M (option error) :=
  s <- newSession ;;
  match s with
  | Err e => ret (Some e)
  | Ok session =>
      p <- session_StdinPipe session ;;
      match p with
      | Err e => session_Close session ;;; ret (Some e)
      | Ok stdinW =>
          '(res, stdinW') <- scpSession_transfer session stdinW scpCommand f ;;
          deferred_pipe_close stdinW' ;;;
          session_Close session ;;;
          ret res
      end
  end.

(** ** [Upload], [UploadDir] *)

Definition Upload (path : string) (input : Stream) : M (option error) :=
  let target_dir := filepath_Dir E path in
  let target_file := filepath_Base E path in
  let target_dir := filepath_ToSlash E target_dir in
  let scpFunc := fun w stdoutR => scpUploadFile target_file input w stdoutR in
  scpSession (String.append "scp -vt " target_dir) scpFunc.

Definition UploadDir (dst src : string) (excl : list string) : M (option error) :=
  o <- os_Open_call src ;;
  match o with
  | Err e => ret (Some e)
  | Ok f =>
      es <- file_Readdir f ;;
      match es with
      | Err e => file_Close f ;;; ret (Some e)
      | Ok entries =>
          let scpFunc := fun w r => scpUploadDir src entries w r in
          res <- scpSession (String.append "scp -rvt " dst) scpFunc ;;
          file_Close f ;;;
          ret res
      end
  end.

End Communicator.

(* ================================================================== *)
(** * Vocabulary of the statements *)
(* ================================================================== *)

(** The world after some more events. *)
Definition log (w : World) (evs : Trace) : World :=
  mkWorld (c w) (trace w ++ evs).

(** The events of [w'] that came after those of [w]. *)
Definition since (w w' : World) : Trace :=
  skipn (List.length (trace w)) (trace w').

Definition with_data (r : bufio.Reader) (l : list byte) : bufio.Reader :=
  bufio.mkReader l (bufio.err r) (bufio.size r).

(** A message line as [ReadLine] hands it out when it was sent with a line
    feed after it: a carriage return before the line feed belongs to the
    line end. *)
Definition chomp_CR (m : list byte) : list byte :=
  match rev m with
  | x0d :: t => rev t
  | _ => m
  end.

(** The number a receiver reads from the length field of a header. *)
Definition atoi (s : string) : option nat :=
  option_map Nat.of_uint (NilZero.uint_of_string s).

(** The header line of a file of [n] bytes called [name]. *)
Definition file_header (n : nat) (name : string) : list byte :=
  list_byte_of_string
    (String.append "C0644 "
       (String.append (itoa n) (String.append " " (String.append name LF)))).

(** All that the upload of one file puts on the channel. *)
Definition file_record (name : string) (content : list byte) : list byte :=
  file_header (List.length content) name ++ content ++ [x00].

(** The [Write] that carries the payload, if there is any payload. *)
Definition payload_events (wr : Writer) (content : list byte) : Trace :=
  match content with
  | [] => []
  | _ :: _ => [EvWrite wr content None]
  end.

Definition regular (fi : FileInfo) : bool := negb (IsDir fi).

Definition opened_paths (t : Trace) : list string :=
  flat_map (fun ev => match ev with EvOpen p _ => [p] | _ => [] end) t.

Definition empty_world : World := mkWorld (mkComm None None) [].

(* ================================================================== *)
(** * Concrete collaborators *)
(* ================================================================== *)

Definition bytes (s : string) : list byte := list_byte_of_string s.

(** A remote host where everything works: connection 1, client 2,
    session 3, stdin pipe 4, and a sink that acknowledges twice. *)
Definition env_ok : Env := {|
  Connection := fun _ => Ok 1;
  ssh_Client := fun _ _ => Ok 2;
  NewSession := fun _ _ => Ok 3;
  RequestPty := fun _ _ => None;
  session_Start := fun _ _ _ => None;
  session_Wait := fun _ _ => None;
  StdinPipe := fun _ _ => Ok 4;
  StdoutPipe := fun _ _ => Ok (mkStream [x00; x00] EOF);
  Write := fun _ _ _ => None;
  os_Open := fun _ _ => Err (ForeignError "no such file or directory");
  Readdir := fun _ _ => Ok [];
  filepath_Dir := fun p => p;
  filepath_Base := fun p => p;
  filepath_ToSlash := fun p => p;
  filepath_Join := fun a b => String.append a (String.append "/" b)
|}.

Definition reader_of (l : list byte) : bufio.Reader :=
  bufio.NewReader (mkStream l EOF).

(** The sink's answer [b], message [m], line feed. *)
Definition rejection (b : byte) (m : list byte) : list byte :=
  b :: m ++ [x0a].

Definition disk_full : list byte := bytes "disk full".
Definition disk_full_CR : list byte := bytes "disk full" ++ [x0d].

(** What [reconnect] does to the connection it finds. *)
Definition closing (k0 : option Conn) : Trace :=
  match k0 with
  | Some k => [EvConnClose k]
  | None => []
  end.

(** A host that accepts the connection and refuses the handshake. *)
Definition handshake_failed : error := ForeignError "handshake failed".

Definition env_no_handshake : Env := {|
  Connection := fun _ => Ok 1;
  ssh_Client := fun _ _ => Err handshake_failed;
  NewSession := NewSession env_ok;
  RequestPty := RequestPty env_ok;
  session_Start := session_Start env_ok;
  session_Wait := session_Wait env_ok;
  StdinPipe := StdinPipe env_ok;
  StdoutPipe := StdoutPipe env_ok;
  Write := Write env_ok;
  os_Open := os_Open env_ok;
  Readdir := Readdir env_ok;
  filepath_Dir := filepath_Dir env_ok;
  filepath_Base := filepath_Base env_ok;
  filepath_ToSlash := filepath_ToSlash env_ok;
  filepath_Join := filepath_Join env_ok
|}.

(** The first attempt of [newSession] to open a channel did not give a
    session and left the world [w1]: there was no client, or the client's
    [NewSession] failed. *)
Definition first_open_failed (E : Env) (w w1 : World) : Prop :=
  (client (c w) = None /\ w1 = w)
  \/ (exists cl e, client (c w) = Some cl
                   /\ NewSession E (trace w) cl = Err e
                   /\ w1 = log w [EvNewSession cl (Err e)]).

(** A communicator whose client 0 has gone stale on a host that is up. *)
Definition connection_lost : error := ForeignError "connection lost".

Definition env_stale : Env := {|
  Connection := fun _ => Ok 1;
  ssh_Client := fun _ _ => Ok 2;
  NewSession := fun _ cl => if Nat.eqb cl 0 then Err connection_lost else Ok 3;
  RequestPty := RequestPty env_ok;
  session_Start := session_Start env_ok;
  session_Wait := session_Wait env_ok;
  StdinPipe := StdinPipe env_ok;
  StdoutPipe := StdoutPipe env_ok;
  Write := Write env_ok;
  os_Open := os_Open env_ok;
  Readdir := Readdir env_ok;
  filepath_Dir := filepath_Dir env_ok;
  filepath_Base := filepath_Base env_ok;
  filepath_ToSlash := filepath_ToSlash env_ok;
  filepath_Join := filepath_Join env_ok
|}.

Definition stale_world : World := mkWorld (mkComm (Some 0) (Some 0)) [].

(** The events of getting a session: closing and making connections,
    handshakes, attempts to open a channel. *)
Definition is_session_setup (ev : Event) : bool :=
  match ev with
  | EvConnClose _ | EvConnection _ | EvClient _ _ | EvNewSession _ _ => true
  | _ => false
  end.

(** [RemoteCmd] after [SetExited(status)]. *)
Definition exited (cmd : RemoteCmd) (status : Z) : RemoteCmd :=
  mkRemoteCmd (Command cmd) (Stdin cmd) (Stdout cmd) (Stderr cmd) true status.

(** What [Start] does with a session before it launches the goroutine. *)
Definition start_events (cmd : RemoteCmd) (s : Session) (pty : option error)
    : Trace :=
  [EvSetStdio s (Stdin cmd) (Stdout cmd) (Stderr cmd);
   EvRequestPty s "xterm" 80 40 termModes pty].

Definition is_exit_error (e : error) : bool :=
  match e with
  | ExitError _ _ => true
  | _ => false
  end.

(** A command that runs and exits with status 3. *)
Definition exit_3 : error := ExitError 3 "Process exited with: 3. Reason was:  ()".

Definition env_exit_3 : Env := {|
  Connection := Connection env_ok;
  ssh_Client := ssh_Client env_ok;
  NewSession := NewSession env_ok;
  RequestPty := RequestPty env_ok;
  session_Start := session_Start env_ok;
  session_Wait := fun _ _ => Some exit_3;
  StdinPipe := StdinPipe env_ok;
  StdoutPipe := StdoutPipe env_ok;
  Write := Write env_ok;
  os_Open := os_Open env_ok;
  Readdir := Readdir env_ok;
  filepath_Dir := filepath_Dir env_ok;
  filepath_Base := filepath_Base env_ok;
  filepath_ToSlash := filepath_ToSlash env_ok;
  filepath_Join := filepath_Join env_ok
|}.

Definition cmd_false : RemoteCmd := mkRemoteCmd "exit 3" 10 11 12 false 0.

(** The events of [Start] once it has a session. *)
Definition is_start_step (ev : Event) : bool :=
  match ev with
  | EvSetStdio _ _ _ _ | EvRequestPty _ _ _ _ _ _ | EvStart _ _ _ => true
  | _ => false
  end.

(** The events of a transfer callback: writes to the pipe, reads of the
    sink's answers, local files opened and closed. *)
Definition is_transfer (ev : Event) : bool :=
  match ev with
  | EvWrite _ _ _ | EvReadByte _ _ | EvReadLine _ _
  | EvOpen _ _ | EvFileClose _ => true
  | _ => false
  end.

(** A callback of [scpSession] that only transfers: it adds transfer
    events to the trace and leaves the rest of the world alone.  (It gets
    the pipe as an [io.Writer], which has no [Close].) *)
Definition transfer_only
    (f : Writer -> bufio.Reader -> M (option error * bufio.Reader)) : Prop :=
  forall wr r w, exists evs,
    snd (f wr r w) = log w evs
    /\ Forall (fun ev => is_transfer ev = true) evs.

Definition is_stdin_pipe (ev : Event) : bool :=
  match ev with
  | EvStdinPipe _ (Ok _) => true
  | _ => false
  end.

(** The world in which [scpSession] calls its callback: session [s] of
    world [w1] has given the pipes and started the sink. *)
Definition before_transfer (w1 : World) (s : Session) (wr : Writer)
    (stream : Stream) (scpCommand : string) : World :=
  log w1 [EvStdinPipe s (Ok wr); EvStdoutPipe s (Ok stream);
          EvSetStderrBuffer s; EvStart s scpCommand None].

(** A sink that rejects the header and exits with status 1. *)
Definition exit_1 : error := ExitError 1 "Process exited with: 1. Reason was:  ()".

Definition env_rejecting : Env := {|
  Connection := Connection env_ok;
  ssh_Client := ssh_Client env_ok;
  NewSession := NewSession env_ok;
  RequestPty := RequestPty env_ok;
  session_Start := session_Start env_ok;
  session_Wait := fun _ _ => Some exit_1;
  StdinPipe := StdinPipe env_ok;
  StdoutPipe := fun _ _ => Ok (mkStream (rejection x01 disk_full) EOF);
  Write := Write env_ok;
  os_Open := os_Open env_ok;
  Readdir := Readdir env_ok;
  filepath_Dir := filepath_Dir env_ok;
  filepath_Base := filepath_Base env_ok;
  filepath_ToSlash := filepath_ToSlash env_ok;
  filepath_Join := filepath_Join env_ok
|}.

(** A host without [scp]: the shell exits with status 127 and the sink
    never answers. *)
Definition exit_127 : error :=
  ExitError 127 "Process exited with: 127. Reason was:  ()".

Definition env_no_scp : Env := {|
  Connection := Connection env_ok;
  ssh_Client := ssh_Client env_ok;
  NewSession := NewSession env_ok;
  RequestPty := RequestPty env_ok;
  session_Start := session_Start env_ok;
  session_Wait := fun _ _ => Some exit_127;
  StdinPipe := StdinPipe env_ok;
  StdoutPipe := fun _ _ => Ok (mkStream [] EOF);
  Write := Write env_ok;
  os_Open := os_Open env_ok;
  Readdir := Readdir env_ok;
  filepath_Dir := filepath_Dir env_ok;
  filepath_Base := filepath_Base env_ok;
  filepath_ToSlash := filepath_ToSlash env_ok;
  filepath_Join := filepath_Join env_ok
|}.

(** A sink whose process exits with 127 after a transfer that went well
    (and one that exits with 1). *)
Definition env_exit_127_late : Env := {|
  Connection := Connection env_ok;
  ssh_Client := ssh_Client env_ok;
  NewSession := NewSession env_ok;
  RequestPty := RequestPty env_ok;
  session_Start := session_Start env_ok;
  session_Wait := fun _ _ => Some exit_127;
  StdinPipe := StdinPipe env_ok;
  StdoutPipe := StdoutPipe env_ok;
  Write := Write env_ok;
  os_Open := os_Open env_ok;
  Readdir := Readdir env_ok;
  filepath_Dir := filepath_Dir env_ok;
  filepath_Base := filepath_Base env_ok;
  filepath_ToSlash := filepath_ToSlash env_ok;
  filepath_Join := filepath_Join env_ok
|}.

Definition hello : Stream := mkStream (bytes "hello") EOF.

(** A local directory [src] with the file [a.txt] and the directory [sub]
    (which has a file [b.txt] of its own). *)
Definition dir_src : File := mkFile 20 (mkStream [] (ForeignError "is a directory")).
Definition file_a : File := mkFile 21 (mkStream (bytes "A") EOF).
Definition file_b : File := mkFile 22 (mkStream (bytes "B") EOF).
Definition entries_src : list FileInfo :=
  [mkFileInfo "a.txt" false; mkFileInfo "sub" true].

Definition env_dir : Env := {|
  Connection := Connection env_ok;
  ssh_Client := ssh_Client env_ok;
  NewSession := NewSession env_ok;
  RequestPty := RequestPty env_ok;
  session_Start := session_Start env_ok;
  session_Wait := session_Wait env_ok;
  StdinPipe := StdinPipe env_ok;
  StdoutPipe := fun _ _ => Ok (mkStream [x00; x00; x00; x00; x00; x00] EOF);
  Write := Write env_ok;
  os_Open := fun _ p =>
    if String.eqb p "src" then Ok dir_src
    else if String.eqb p "src/a.txt" then Ok file_a
    else if String.eqb p "src/sub" then Ok dir_src
    else if String.eqb p "src/sub/b.txt" then Ok file_b
    else Err (ForeignError "no such file or directory");
  Readdir := fun _ f =>
    if Nat.eqb (fd f) 20 then Ok entries_src
    else Err (ForeignError "not a directory");
  filepath_Dir := filepath_Dir env_ok;
  filepath_Base := filepath_Base env_ok;
  filepath_ToSlash := filepath_ToSlash env_ok;
  filepath_Join := filepath_Join env_ok
|}.

(** The events of [scpSession] between getting the stdin pipe and closing
    it: the stdout pipe, the stderr buffer, the start of the sink, and what
    the callback does. *)
Definition is_session_step (ev : Event) : bool :=
  match ev with
  | EvStdoutPipe _ _ | EvSetStderrBuffer _ | EvStart _ _ _ => true
  | _ => is_transfer ev
  end.

(** The events of uploading the open file [f] under [name] to a sink that
    acknowledges, from [os.Open] to [f.Close()]. *)
Definition upload_events (path name : string) (f : File) (wr : Writer) : Trace :=
  [EvOpen path (Ok f);
   EvWrite wr (file_header (List.length (st_data (contents f))) name) None;
   EvReadByte x00 None]
  ++ payload_events wr (st_data (contents f))
  ++ [EvWrite wr [x00] None; EvReadByte x00 None; EvFileClose f].

(** Something that is not a directory where a directory is expected. *)
Definition not_a_directory : error := ForeignError "not a directory".

(* ================================================================== *)
(** * More vocabulary: kinds of events, more collaborators *)
(* ================================================================== *)

Definition is_conn_close (ev : Event) : bool :=
  match ev with EvConnClose _ => true | _ => false end.
Definition is_handshake (ev : Event) : bool :=
  match ev with EvClient _ _ => true | _ => false end.
Definition is_write (ev : Event) : bool :=
  match ev with EvWrite _ _ _ => true | _ => false end.
Definition is_read_byte (ev : Event) : bool :=
  match ev with EvReadByte _ _ => true | _ => false end.
Definition is_opened (ev : Event) : bool :=
  match ev with EvOpen _ (Ok _) => true | _ => false end.
Definition is_file_close (ev : Event) : bool :=
  match ev with EvFileClose _ => true | _ => false end.

(** Traffic on the channel to the sink: writes to the pipe and reads of
    the sink's answers. *)
Definition is_channel_io (ev : Event) : bool :=
  match ev with
  | EvWrite _ _ _ | EvReadByte _ _ | EvReadLine _ _ => true
  | _ => false
  end.

(** What is not the business of a transfer callback. *)
Definition is_session_event (ev : Event) : bool := negb (is_transfer ev).

(** An input that fails after three bytes. *)
Definition read_failed : error := ForeignError "read error".
Definition broken_input : Stream := mkStream (bytes "hel") read_failed.

(** A pipe that takes the header and breaks at the payload. *)
Definition broken_pipe : error := ForeignError "broken pipe".

Definition env_pipe_breaks : Env := {|
  Connection := Connection env_ok;
  ssh_Client := ssh_Client env_ok;
  NewSession := NewSession env_ok;
  RequestPty := RequestPty env_ok;
  session_Start := session_Start env_ok;
  session_Wait := session_Wait env_ok;
  StdinPipe := StdinPipe env_ok;
  StdoutPipe := StdoutPipe env_ok;
  Write := fun t _ _ => if Nat.leb 1 (count is_write t) then Some broken_pipe else None;
  os_Open := os_Open env_ok;
  Readdir := Readdir env_ok;
  filepath_Dir := filepath_Dir env_ok;
  filepath_Base := filepath_Base env_ok;
  filepath_ToSlash := filepath_ToSlash env_ok;
  filepath_Join := filepath_Join env_ok
|}.

(** A host whose shell cannot be started, and one that refuses the pty. *)
Definition start_refused : error := ForeignError "ssh: could not start shell".
Definition pty_refused : error := ForeignError "ssh: could not get pty".

Definition env_no_start : Env := {|
  Connection := Connection env_ok;
  ssh_Client := ssh_Client env_ok;
  NewSession := NewSession env_ok;
  RequestPty := RequestPty env_ok;
  session_Start := fun _ _ _ => Some start_refused;
  session_Wait := session_Wait env_ok;
  StdinPipe := StdinPipe env_ok;
  StdoutPipe := StdoutPipe env_ok;
  Write := Write env_ok;
  os_Open := os_Open env_ok;
  Readdir := Readdir env_ok;
  filepath_Dir := filepath_Dir env_ok;
  filepath_Base := filepath_Base env_ok;
  filepath_ToSlash := filepath_ToSlash env_ok;
  filepath_Join := filepath_Join env_ok
|}.

Definition env_no_pty : Env := {|
  Connection := Connection env_ok;
  ssh_Client := ssh_Client env_ok;
  NewSession := NewSession env_ok;
  RequestPty := fun _ _ => Some pty_refused;
  session_Start := session_Start env_ok;
  session_Wait := session_Wait env_ok;
  StdinPipe := StdinPipe env_ok;
  StdoutPipe := StdoutPipe env_ok;
  Write := Write env_ok;
  os_Open := os_Open env_ok;
  Readdir := Readdir env_ok;
  filepath_Dir := filepath_Dir env_ok;
  filepath_Base := filepath_Base env_ok;
  filepath_ToSlash := filepath_ToSlash env_ok;
  filepath_Join := filepath_Join env_ok
|}.

(** A directory listing whose second file cannot be opened. *)
Definition entries_two : list FileInfo :=
  [mkFileInfo "a.txt" false; mkFileInfo "gone.txt" false; mkFileInfo "a.txt" false].

(** A sink that answers with a long line to a reader with a buffer of
    sixteen bytes. *)
Definition long_message : list byte := bytes "no space left on device".
Definition small_reader (l : list byte) : bufio.Reader := bufio.mkReader l EOF 16.

(* ================================================================== *)
(** * [scpWalkFn] *)
(* ================================================================== *)

(** [filepath.WalkFunc].  The reader, which the closure of the source
    shares with its caller, is handed on explicitly. *)
Definition WalkFunc : Type :=
  string -> FileInfo -> option error -> bufio.Reader ->
  M (option error * bufio.Reader).

Section WalkFn.

Variable E : Env.

(** [filepath.Rel] and [filepath.Walk], of package [path/filepath]. *)
Variable filepath_Rel : string -> string -> result string.
Variable filepath_Walk :
string -> WalkFunc -> bufio.Reader -> M (option error * bufio.Reader).

(** [scpWalkFn(cur, dst, src, w, r)].  The function hands itself, made for
  the directory it is called on, to the nested [filepath.Walk]:  that
  function is the parameter [self] here. *)
Definition scpWalkFn
  (self : string -> string -> string -> Writer -> WalkFunc)
  (cur dst src : string) (w : Writer) : WalkFunc :=
fun path info err r =>
  match err with
  | Some e => ret (Some e, r)
  | None =>
      if String.eqb path cur then ret (None, r)
      else
        match filepath_Rel src path with
        | Err e => ret (Some e, r)
        | Ok relPath =>
            let targetPath := filepath_Base E relPath in
            if IsDir info then
              fmt_Fprintln E w ["D0755 0"; targetPath] ;;;
              '(err, r1) <- checkSCPStatus r ;;
              match err with
              | Some e => ret (Some e, r1)
              | None =>
                  '(err, r2) <- filepath_Walk path (self path dst src w) r1 ;;
                  match err with
                  | Some e => ret (Some e, r2)
                  | None =>
                      fmt_Fprintln E w ["E"] ;;;
                      checkSCPStatus r2
                  end
              end
            else
              o <- os_Open_call E path ;;
              match o with
              | Err e => ret (Some e, r)
              | Ok f =>
                  '(err, r1) <- scpUploadFile E targetPath (contents f) w r ;;
                  file_Close f ;;;
                  ret (err, r1)
              end
        end
  end.

End WalkFn.

(** The header of the directory [name], and the end of a directory. *)
Definition dir_header (name : string) : list byte :=
  bytes "D0755 0 " ++ bytes name ++ [x0a].
Definition dir_end : list byte := bytes "E" ++ [x0a].

(** A walk of an empty directory:  the callback is called for the
    directory itself, which it passes over. *)
Definition walk_empty_dir
    (root : string) (fn : WalkFunc) (r : bufio.Reader)
    : M (option error * bufio.Reader) :=
  fn root (mkFileInfo root true) None r.

(** [filepath.Rel] for a path that lies below [src]. *)
Definition rel_below : string -> string -> result string :=
  fun src path =>
    Ok (String.substring (S (String.length src)) (String.length path) path).

(** The function that is its own [self], two levels deep. *)
Definition scpWalkFn_2 (E : Env) : string -> string -> string -> Writer -> WalkFunc :=
  scpWalkFn E rel_below walk_empty_dir
    (scpWalkFn E rel_below walk_empty_dir (fun _ _ _ _ _ _ _ r => ret (None, r))).

(* ================================================================== *)
(** * Local files that are open *)
(* ================================================================== *)

Definition error_eq_dec (a b : error) : {a = b} + {a <> b}.
Proof. decide equality; (apply string_dec || apply Z.eq_dec). Defined.

Definition Stream_eq_dec (a b : Stream) : {a = b} + {a <> b}.
Proof.
  decide equality;
    (apply error_eq_dec || apply (list_eq_dec Byte.byte_eq_dec)).
Defined.

Definition File_eq_dec (a b : File) : {a = b} + {a <> b}.
Proof. decide equality; (apply Stream_eq_dec || apply Nat.eq_dec). Defined.

(** The local files that are open after the events [t], the one opened
    last first, when [stack] were open before:  [os.Open] that succeeds
    opens a file;  [f.Close()] must close the file that was opened last and
    is still open, or there is no answer. *)
Fixpoint open_files (stack : list File) (t : Trace) : option (list File) :=
  match t with
  | [] => Some stack
  | EvOpen _ (Ok f) :: t' => open_files (f :: stack) t'
  | EvFileClose f :: t' =>
      match stack with
      | g :: stack' =>
          if File_eq_dec f g then open_files stack' t' else None
      | [] => None
      end
  | _ :: t' => open_files stack t'
  end.

(** Events that open and close no local file. *)
Definition no_file_event (ev : Event) : bool :=
  negb (is_opened ev) && negb (is_file_close ev).

(* ================================================================== *)
(** * Lists, traces and the monad *)
(* ================================================================== *)

Lemma written_app (wr : Writer) (t1 t2 : Trace) :
  written wr (t1 ++ t2) = written wr t1 ++ written wr t2.
Proof.
  induction t1 as [|ev t1 IH]; simpl; [reflexivity|].
  destruct ev; auto.
  destruct r; auto.
  destruct (Nat.eqb w wr); auto.
  rewrite IH, app_assoc. reflexivity.
Qed.

Lemma count_app (p : Event -> bool) (t1 t2 : Trace) :
  count p (t1 ++ t2) = count p t1 + count p t2.
Proof. unfold count. rewrite filter_app, length_app. reflexivity. Qed.

Lemma since_log (w : World) (evs : Trace) : since w (log w evs) = evs.
Proof.
  unfold since, log; simpl.
  rewrite skipn_app, skipn_all, Nat.sub_diag. reflexivity.
Qed.

Lemma log_log (w : World) (e1 e2 : Trace) : log (log w e1) e2 = log w (e1 ++ e2).
Proof. unfold log; simpl. rewrite app_assoc. reflexivity. Qed.

Lemma log_nil (w : World) : log w [] = w.
Proof. destruct w; unfold log; simpl. rewrite app_nil_r. reflexivity. Qed.

(* ================================================================== *)
(** * [bufio.Reader] *)
(* ================================================================== *)

Lemma index_LF_line (m rest : list byte) (n : nat) :
  ~ In x0a m -> List.length m < n ->
  bufio.index_LF (firstn n (m ++ x0a :: rest)) = Some (List.length m).
Proof.
  revert n. induction m as [|b m IH]; intros n Hin Hlen; simpl in *.
  - destruct n; [lia|]. reflexivity.
  - destruct n; [lia|]. simpl.
    destruct (Byte.eqb b x0a) eqn:Hb.
    + apply Byte.byte_dec_bl in Hb. exfalso. apply Hin. left. exact Hb.
    + rewrite IH; [reflexivity | tauto | lia].
Qed.

Lemma index_LF_none (m : list byte) (n : nat) :
  ~ In x0a m -> bufio.index_LF (firstn n m) = None.
Proof.
  revert n. induction m as [|b m IH]; intros n Hin; destruct n; simpl in *;
    try reflexivity.
  destruct (Byte.eqb b x0a) eqn:Hb.
  - apply Byte.byte_dec_bl in Hb. exfalso. apply Hin. left. exact Hb.
  - rewrite IH; [reflexivity | tauto].
Qed.

Lemma drop_line_end_LF (m : list byte) :
  bufio.drop_line_end (m ++ [x0a]) = chomp_CR m.
Proof.
  unfold bufio.drop_line_end, chomp_CR.
  rewrite rev_app_distr. simpl.
  destruct (rev m) as [|b t] eqn:Hr.
  - simpl. apply (f_equal (@rev byte)) in Hr. rewrite rev_involutive in Hr.
    symmetry. exact Hr.
  - assert (Hm : m = rev (b :: t))
      by (rewrite <- Hr, rev_involutive; reflexivity).
    destruct b; try (rewrite Hm; reflexivity). reflexivity.
Qed.

Lemma chomp_CR_id (m : list byte) :
  bufio.ends_with_CR m = false -> chomp_CR m = m.
Proof.
  unfold bufio.ends_with_CR, chomp_CR.
  destruct (rev m) as [|b t]; [reflexivity|].
  destruct b; try reflexivity. discriminate.
Qed.

Lemma drop_line_end_no_LF (m : list byte) :
  ~ In x0a m -> bufio.drop_line_end m = m.
Proof.
  intros Hin. unfold bufio.drop_line_end.
  destruct (rev m) as [|b t] eqn:Hr; [reflexivity|].
  assert (Hb : In b m) by (apply in_rev; rewrite Hr; left; reflexivity).
  destruct b; try reflexivity. contradiction.
Qed.

(** A line that was sent whole and fits the buffer. *)
Lemma ReadLine_line (r : bufio.Reader) (m rest : list byte) :
  bufio.data r = m ++ x0a :: rest ->
  ~ In x0a m -> List.length m < bufio.size r ->
  bufio.ReadLine r = ((chomp_CR m, false, None), with_data r rest).
Proof.
  intros Hd Hin Hlen.
  unfold bufio.ReadLine, bufio.ReadSlice.
  rewrite Hd, index_LF_line by assumption.
  replace (firstn (S (List.length m)) (m ++ x0a :: rest)) with (m ++ [x0a]).
  2:{ change (x0a :: rest) with ([x0a] ++ rest). rewrite app_assoc.
      rewrite firstn_app.
      replace (S (List.length m) - List.length (m ++ [x0a])) with 0
        by (rewrite length_app; change (List.length [x0a]) with 1; lia).
      rewrite firstn_all2 by (rewrite length_app; change (List.length [x0a]) with 1; lia).
      simpl. rewrite app_nil_r. reflexivity. }
  unfold bufio.advance. rewrite Hd.
  replace (skipn (S (List.length m)) (m ++ x0a :: rest)) with rest.
  2:{ change (x0a :: rest) with ([x0a] ++ rest). rewrite app_assoc.
      rewrite skipn_app.
      replace (S (List.length m) - List.length (m ++ [x0a])) with 0
        by (rewrite length_app; change (List.length [x0a]) with 1; lia).
      rewrite skipn_all2 by (rewrite length_app; change (List.length [x0a]) with 1; lia).
      reflexivity. }
  destruct (m ++ [x0a]) as [|b l] eqn:Hm.
  - destruct m; discriminate.
  - rewrite <- Hm, drop_line_end_LF. reflexivity.
Qed.

(** A stream that ends in the middle of a line. *)
Lemma ReadLine_cut (r : bufio.Reader) (m : list byte) :
  bufio.data r = m -> m <> [] ->
  ~ In x0a m -> List.length m < bufio.size r ->
  bufio.err r <> ErrBufferFull ->
  bufio.ReadLine r = ((m, false, None), with_data r []).
Proof.
  intros Hd Hne Hin Hlen Herr.
  unfold bufio.ReadLine, bufio.ReadSlice.
  rewrite Hd, index_LF_none by assumption.
  replace (bufio.size r <=? List.length m)%nat with false
    by (symmetry; apply Nat.leb_gt; exact Hlen).
  unfold bufio.advance. rewrite Hd, skipn_all.
  destruct m as [|b l]; [contradiction|].
  rewrite drop_line_end_no_LF by assumption.
  unfold with_data.
  destruct (bufio.err r); try reflexivity. contradiction.
Qed.

(** A stream that has ended. *)
Lemma ReadLine_end (r : bufio.Reader) :
  bufio.data r = [] -> 0 < bufio.size r ->
  bufio.err r <> ErrBufferFull ->
  bufio.ReadLine r = (([], false, Some (bufio.err r)), with_data r []).
Proof.
  intros Hd Hsz Herr.
  unfold bufio.ReadLine, bufio.ReadSlice.
  rewrite Hd. rewrite firstn_nil. simpl.
  replace (bufio.size r <=? 0)%nat with false
    by (symmetry; apply Nat.leb_gt; exact Hsz).
  unfold bufio.advance. rewrite Hd. simpl.
  unfold with_data.
  destruct (bufio.err r); try reflexivity. contradiction.
Qed.

(* ================================================================== *)
(** * [checkSCPStatus] *)
(* ================================================================== *)

Section CheckStatus.

Lemma eqb_x00_false (b : byte) : b <> x00 -> Byte.eqb b x00 = false.
Proof.
  intros H. destruct (Byte.eqb b x00) eqn:Hb; [|reflexivity].
  apply Byte.byte_dec_bl in Hb. contradiction.
Qed.

Lemma checkSCPStatus_empty (r : bufio.Reader) (w : World) :
  bufio.data r = [] ->
  checkSCPStatus r w =
    ((Some (bufio.err r), r), log w [EvReadByte x00 (Some (bufio.err r))]).
Proof.
  intros Hd.
  unfold checkSCPStatus, r_ReadByte, bufio.ReadByte, bind, emit, ret, log.
  rewrite Hd. reflexivity.
Qed.

Lemma checkSCPStatus_zero (r : bufio.Reader) (rest : list byte) (w : World) :
  bufio.data r = x00 :: rest ->
  checkSCPStatus r w = ((None, with_data r rest), log w [EvReadByte x00 None]).
Proof.
  intros Hd.
  unfold checkSCPStatus, r_ReadByte, bufio.ReadByte, bufio.advance,
    bind, emit, ret, log.
  rewrite Hd. reflexivity.
Qed.

(** After a byte that is not zero: one [ReadLine], whatever it gives. *)
Lemma checkSCPStatus_nonzero (r : bufio.Reader) (b : byte) (rest : list byte)
    (w : World) :
  bufio.data r = b :: rest -> b <> x00 ->
  checkSCPStatus r w =
    let '((message, _, err), r2) := bufio.ReadLine (with_data r rest) in
    ((Some (errors_New
              match err with
              | Some e => String.append "Error reading error message: " (Error e)
              | None => string_of_list_byte message
              end), r2),
     log w [EvReadByte b None; EvReadLine message err]).
Proof.
  intros Hd Hb.
  unfold checkSCPStatus, r_ReadByte, r_ReadLine, bufio.ReadByte, bufio.advance,
    bind, emit, ret, log.
  rewrite Hd. cbn [fst snd skipn trace c].
  rewrite (eqb_x00_false b Hb). cbn [negb].
  unfold with_data.
  destruct (bufio.ReadLine _) as [[[message p] err] r2].
  cbn [fst snd trace c]. rewrite <- app_assoc.
  destruct err; reflexivity.
Qed.

Lemma checkSCPStatus_reject (r : bufio.Reader) (b : byte) (m rest : list byte)
    (w : World) :
  bufio.data r = b :: m ++ x0a :: rest -> b <> x00 ->
  ~ In x0a m -> List.length m < bufio.size r ->
  checkSCPStatus r w =
    ((Some (errors_New (string_of_list_byte (chomp_CR m))), with_data r rest),
     log w [EvReadByte b None; EvReadLine (chomp_CR m) None]).
Proof.
  intros Hd Hb Hin Hlen.
  rewrite (checkSCPStatus_nonzero r b (m ++ x0a :: rest) w Hd Hb).
  rewrite (ReadLine_line (with_data r (m ++ x0a :: rest)) m rest);
    auto.
Qed.

Lemma checkSCPStatus_cut (r : bufio.Reader) (b : byte) (m : list byte)
    (w : World) :
  bufio.data r = b :: m -> b <> x00 -> m <> [] ->
  ~ In x0a m -> List.length m < bufio.size r ->
  bufio.err r <> ErrBufferFull ->
  checkSCPStatus r w =
    ((Some (errors_New (string_of_list_byte m)), with_data r []),
     log w [EvReadByte b None; EvReadLine m None]).
Proof.
  intros Hd Hb Hne Hin Hlen Herr.
  rewrite (checkSCPStatus_nonzero r b m w Hd Hb).
  rewrite (ReadLine_cut (with_data r m) m); auto.
Qed.

Lemma checkSCPStatus_no_message (r : bufio.Reader) (b : byte) (w : World) :
  bufio.data r = [b] -> b <> x00 -> 0 < bufio.size r ->
  bufio.err r <> ErrBufferFull ->
  checkSCPStatus r w =
    ((Some (errors_New
              (String.append "Error reading error message: "
                 (Error (bufio.err r)))), with_data r []),
     log w [EvReadByte b None; EvReadLine [] (Some (bufio.err r))]).
Proof.
  intros Hd Hb Hsz Herr.
  rewrite (checkSCPStatus_nonzero r b [] w Hd Hb).
  rewrite (ReadLine_end (with_data r [])); auto.
Qed.

End CheckStatus.

(* ================================================================== *)
(** * [scpUploadFile] *)
(* ================================================================== *)

Lemma bytes_app (s1 s2 : string) :
  bytes (String.append s1 s2) = bytes s1 ++ bytes s2.
Proof.
  unfold bytes, list_byte_of_string.
  induction s1 as [|a s1 IH]; simpl; [reflexivity|].
  rewrite IH. reflexivity.
Qed.

Lemma Sprintln_header (n : nat) (name : string) :
  list_byte_of_string (Sprintln ["C0644"; itoa n; name]) = file_header n name.
Proof. reflexivity. Qed.

Lemma atoi_itoa (n : nat) : atoi (itoa n) = Some n.
Proof.
  unfold atoi, itoa.
  rewrite NilZero.usu.
  - simpl. rewrite DecimalNat.Unsigned.of_to. reflexivity.
  - intros H. destruct n.
    + vm_compute in H. discriminate H.
    + apply (f_equal Nat.of_uint) in H.
      rewrite DecimalNat.Unsigned.of_to in H. discriminate H.
Qed.

Section UploadFile.

Variable E : Env.

(** The upload that a well-behaved sink acknowledges twice. *)
Lemma scpUploadFile_run (dst : string) (content : list byte) (wr : Writer)
    (r : bufio.Reader) (rest : list byte) (w : World) :
  (forall t p, Write E t wr p = None) ->
  bufio.data r = x00 :: x00 :: rest ->
  scpUploadFile E dst (mkStream content EOF) wr r w =
    ((None, with_data r rest),
     log w ([EvWrite wr (file_header (List.length content) dst) None;
             EvReadByte x00 None]
            ++ payload_events wr content
            ++ [EvWrite wr [x00] None; EvReadByte x00 None])).
Proof.
  intros Hw Hd.
  unfold scpUploadFile, fmt_Fprintln, fmt_Fprint, io_Copy_out, w_Write,
    call, bind, ret.
  cbn [io_Copy_in st_err st_data fst snd trace c].
  rewrite Sprintln_header, Hw.
  rewrite (checkSCPStatus_zero r (x00 :: rest) _ Hd).
  destruct content as [|b content'].
  - cbn [log trace c payload_events]. rewrite Hw.
    rewrite (checkSCPStatus_zero (with_data r (x00 :: rest)) rest _ eq_refl).
    unfold log, with_data; cbn [trace c bufio.err bufio.size app].
    repeat rewrite <- app_assoc. reflexivity.
  - cbn [log trace c payload_events]. rewrite !Hw.
    rewrite (checkSCPStatus_zero (with_data r (x00 :: rest)) rest _ eq_refl).
    unfold log, with_data; cbn [trace c bufio.err bufio.size app].
    repeat rewrite <- app_assoc. reflexivity.
Qed.

(** The upload whose header the sink rejects. *)
Lemma scpUploadFile_rejected (dst : string) (src : Stream) (content : list byte)
    (wr : Writer) (r : bufio.Reader) (b : byte) (m rest : list byte) (w : World) :
  io_Copy_in src = Ok content ->
  bufio.data r = b :: m ++ x0a :: rest -> b <> x00 ->
  ~ In x0a m -> List.length m < bufio.size r ->
  scpUploadFile E dst src wr r w =
    ((Some (errors_New (string_of_list_byte (chomp_CR m))), with_data r rest),
     log w [EvWrite wr (file_header (List.length content) dst)
              (Write E (trace w) wr (file_header (List.length content) dst));
            EvReadByte b None;
            EvReadLine (chomp_CR m) None]).
Proof.
  intros Hsrc Hd Hb Hin Hlen.
  unfold scpUploadFile, fmt_Fprintln, w_Write, call, bind, ret.
  rewrite Hsrc. cbn [fst snd trace c].
  rewrite Sprintln_header.
  rewrite (checkSCPStatus_reject r b m rest _ Hd Hb Hin Hlen).
  unfold log; cbn [trace c]. rewrite <- app_assoc. reflexivity.
Qed.

End UploadFile.

(* ================================================================== *)
(** * The status protocol: claims *)
(* ================================================================== *)

(** C6, as amended.  [checkSCPStatus] reads exactly one byte.  On a stream
    that has ended it returns the reader's own error, never success.  A zero
    byte gives success and nothing more is read.  Any other byte is followed
    by exactly one [ReadLine], and the text of the returned error is the
    line that [ReadLine] hands out.  For a message that fits the reader's
    buffer (it has fewer bytes than the buffer) that line is: the bytes
    before the first line feed without a carriage return at their end, or,
    when the stream ends inside the message, the bytes that did arrive; only
    when nothing at all follows the status byte is the error
    ["Error reading error message: ..."].  All these errors are plain string
    errors. *)
Theorem checkSCPStatus_outcomes (r : bufio.Reader) (w : World) :
  (bufio.data r = [] ->
     checkSCPStatus r w =
       ((Some (bufio.err r), r), log w [EvReadByte x00 (Some (bufio.err r))]))
  /\ (forall rest, bufio.data r = x00 :: rest ->
     checkSCPStatus r w =
       ((None, with_data r rest), log w [EvReadByte x00 None]))
  /\ (forall b rest, bufio.data r = b :: rest -> b <> x00 ->
     checkSCPStatus r w =
       let '((message, _, err), r2) := bufio.ReadLine (with_data r rest) in
       ((Some (errors_New
                 match err with
                 | Some e => String.append "Error reading error message: " (Error e)
                 | None => string_of_list_byte message
                 end), r2),
        log w [EvReadByte b None; EvReadLine message err]))
  /\ (forall b m rest,
     bufio.data r = b :: m ++ x0a :: rest -> b <> x00 ->
     ~ In x0a m -> List.length m < bufio.size r ->
     checkSCPStatus r w =
       ((Some (errors_New (string_of_list_byte (chomp_CR m))), with_data r rest),
        log w [EvReadByte b None; EvReadLine (chomp_CR m) None]))
  /\ (forall b m,
     bufio.data r = b :: m -> b <> x00 -> m <> [] ->
     ~ In x0a m -> List.length m < bufio.size r ->
     bufio.err r <> ErrBufferFull ->
     checkSCPStatus r w =
       ((Some (errors_New (string_of_list_byte m)), with_data r []),
        log w [EvReadByte b None; EvReadLine m None]))
  /\ (forall b,
     bufio.data r = [b] -> b <> x00 -> 0 < bufio.size r ->
     bufio.err r <> ErrBufferFull ->
     checkSCPStatus r w =
       ((Some (errors_New
                 (String.append "Error reading error message: "
                    (Error (bufio.err r)))), with_data r []),
        log w [EvReadByte b None; EvReadLine [] (Some (bufio.err r))])).
Proof.
  split; [apply checkSCPStatus_empty|].
  split; [intros rest; apply checkSCPStatus_zero|].
  split; [intros b rest; apply checkSCPStatus_nonzero|].
  split; [intros b m rest; apply checkSCPStatus_reject|].
  split; [intros b m; apply checkSCPStatus_cut|].
  intros b; apply checkSCPStatus_no_message.
Qed.

Lemma checkSCPStatus_outcomes_witness :
  fst (fst (checkSCPStatus (reader_of []) empty_world)) = Some EOF
  /\ fst (fst (checkSCPStatus (reader_of [x00; x01]) empty_world)) = None
  /\ fst (fst (checkSCPStatus (reader_of (rejection x02 disk_full)) empty_world))
     = Some (errors_New "disk full")
  /\ fst (fst (checkSCPStatus (reader_of [x01; x61]) empty_world))
     = Some (errors_New "a")
  /\ fst (fst (checkSCPStatus (reader_of [x01]) empty_world))
     = Some (errors_New "Error reading error message: EOF").
Proof.
  split.
  { destruct (checkSCPStatus_outcomes (reader_of []) empty_world) as (H & _).
    rewrite (H eq_refl). reflexivity. }
  split.
  { destruct (checkSCPStatus_outcomes (reader_of [x00; x01]) empty_world)
      as (_ & H & _).
    rewrite (H [x01] eq_refl). reflexivity. }
  split.
  { destruct (checkSCPStatus_outcomes (reader_of (rejection x02 disk_full))
                empty_world) as (_ & _ & _ & H & _).
    rewrite (H x02 disk_full [] eq_refl).
    - reflexivity.
    - discriminate.
    - vm_compute. intuition discriminate.
    - vm_compute. lia. }
  split.
  { destruct (checkSCPStatus_outcomes (reader_of [x01; x61]) empty_world)
      as (_ & _ & _ & _ & H & _).
    rewrite (H x01 [x61] eq_refl).
    - reflexivity.
    - discriminate.
    - discriminate.
    - vm_compute. intuition discriminate.
    - vm_compute. lia.
    - discriminate. }
  destruct (checkSCPStatus_outcomes (reader_of [x01]) empty_world)
    as (_ & _ & _ & _ & _ & H).
  rewrite (H x01 eq_refl).
  - reflexivity.
  - discriminate.
  - vm_compute. lia.
  - discriminate.
Defined.

(** C6, as stated, fails: when the stream ends inside the message line, no
    line terminated by a line feed can be read, yet the result is no I/O
    error:  it is the very error that the rejection with the message that
    had arrived so far gives. *)
Lemma checkSCPStatus_end_of_stream_in_message :
  ~ In x0a (bufio.data (reader_of [x01; x61]))
  /\ fst (fst (checkSCPStatus (reader_of [x01; x61]) empty_world))
     = Some (errors_New "a")
  /\ fst (fst (checkSCPStatus (reader_of (rejection x01 [x61])) empty_world))
     = Some (errors_New "a").
Proof.
  split; [|split].
  - simpl. intuition discriminate.
  - vm_compute. reflexivity.
  - vm_compute. reflexivity.
Qed.

(** Nor can the error for an unreadable message be told from a rejection:
    the sink may send its text. *)
Example checkSCPStatus_io_error_text_as_message :
  fst (fst (checkSCPStatus (reader_of [x01]) empty_world))
  = fst (fst (checkSCPStatus
                (reader_of (rejection x01 (bytes "Error reading error message: EOF")))
                empty_world)).
Proof. vm_compute. reflexivity. Qed.

(* ================================================================== *)
(** * The upload of one file: claims *)
(* ================================================================== *)

(** C2.  Uploading [content] under the name [n] to a sink that
    acknowledges with zero bytes succeeds; what is written is the header
    line ["C0644 <length of content> n\n"], then, once the first
    acknowledgement has been read, [content] as it is, then one NUL byte and
    nothing else; and the number in the header is the number of payload
    bytes. *)
Theorem scpUploadFile_wire_format (E : Env) (n : string) (content : list byte)
    (wr : Writer) (r : bufio.Reader) (rest : list byte) (w : World) :
  (forall t p, Write E t wr p = None) ->
  bufio.data r = x00 :: x00 :: rest ->
  let run := scpUploadFile E n (mkStream content EOF) wr r w in
  fst run = (None, with_data r rest)
  /\ since w (snd run) =
       [EvWrite wr (file_header (List.length content) n) None; EvReadByte x00 None]
       ++ payload_events wr content
       ++ [EvWrite wr [x00] None; EvReadByte x00 None]
  /\ written wr (trace (snd run)) =
       written wr (trace w) ++ file_header (List.length content) n ++ content ++ [x00]
  /\ file_header (List.length content) n =
       bytes "C0644 " ++ bytes (itoa (List.length content)) ++ bytes " "
       ++ bytes n ++ [x0a]
  /\ atoi (itoa (List.length content)) = Some (List.length content).
Proof.
  intros Hw Hd run. subst run.
  rewrite (scpUploadFile_run E n content wr r rest w Hw Hd).
  cbn [fst snd].
  split; [reflexivity|].
  split; [apply since_log|].
  split.
  { unfold log; cbn [trace]. rewrite !written_app.
    f_equal. cbn [written]. rewrite Nat.eqb_refl.
    destruct content; cbn [payload_events written app];
      rewrite ?Nat.eqb_refl; cbn [written app]; rewrite ?app_nil_r;
      rewrite <- ?app_assoc; reflexivity. }
  split; [|apply atoi_itoa].
  unfold file_header. fold (bytes (String.append "C0644 "
    (String.append (itoa (List.length content))
       (String.append " " (String.append n LF))))).
  rewrite !bytes_app. reflexivity.
Qed.

Lemma scpUploadFile_wire_format_witness :
  let run := scpUploadFile env_ok "motd" (mkStream (bytes "hello") EOF) 4
               (reader_of [x00; x00]) empty_world in
  fst run = (None, reader_of [])
  /\ written 4 (trace (snd run)) = bytes "C0644 5 motd" ++ [x0a] ++ bytes "hello" ++ [x00].
Proof.
  destruct (scpUploadFile_wire_format env_ok "motd" (bytes "hello") 4
              (reader_of [x00; x00]) [] empty_world
              (fun _ _ => eq_refl) eq_refl) as (Hres & _ & Hwr & _).
  split.
  - exact Hres.
  - rewrite Hwr. reflexivity.
Defined.

(** C5, as amended.  When the sink answers the header with a byte that is
    not zero and a message [m] ended by a line feed (and the line fits the
    reader's buffer), the upload stops with an error whose text is [m]
    without a carriage return at its end, so [m] itself unless it ends in a
    carriage return; the header is all that was written: no payload and no
    terminator byte follow. *)
Theorem scpUploadFile_header_rejected (E : Env) (n : string) (src : Stream)
    (content : list byte) (wr : Writer) (r : bufio.Reader) (b : byte)
    (m rest : list byte) (w : World) :
  io_Copy_in src = Ok content ->
  bufio.data r = b :: m ++ x0a :: rest -> b <> x00 ->
  ~ In x0a m -> List.length m < bufio.size r ->
  let run := scpUploadFile E n src wr r w in
  fst (fst run) = Some (errors_New (string_of_list_byte (chomp_CR m)))
  /\ (bufio.ends_with_CR m = false ->
      fst (fst run) = Some (errors_New (string_of_list_byte m)))
  /\ since w (snd run) =
       [EvWrite wr (file_header (List.length content) n)
          (Write E (trace w) wr (file_header (List.length content) n));
        EvReadByte b None;
        EvReadLine (chomp_CR m) None]
  /\ (Write E (trace w) wr (file_header (List.length content) n) = None ->
      written wr (trace (snd run)) =
        written wr (trace w) ++ file_header (List.length content) n).
Proof.
  intros Hsrc Hd Hb Hin Hlen run. subst run.
  rewrite (scpUploadFile_rejected E n src content wr r b m rest w
             Hsrc Hd Hb Hin Hlen).
  cbn [fst snd].
  split; [reflexivity|].
  split; [intros Hcr; rewrite (chomp_CR_id m Hcr); reflexivity|].
  split; [apply since_log|].
  intros Hok. rewrite Hok.
  unfold log; cbn [trace]. rewrite written_app.
  cbn [written]. rewrite Nat.eqb_refl, app_nil_r. reflexivity.
Qed.

Lemma scpUploadFile_header_rejected_witness :
  let run := scpUploadFile env_ok "motd" (mkStream (bytes "hello") EOF) 4
               (reader_of (rejection x01 disk_full)) empty_world in
  fst (fst run) = Some (errors_New "disk full")
  /\ written 4 (trace (snd run)) = bytes "C0644 5 motd" ++ [x0a].
Proof.
  destruct (scpUploadFile_header_rejected env_ok "motd" (mkStream (bytes "hello") EOF)
              (bytes "hello") 4 (reader_of (rejection x01 disk_full)) x01
              disk_full [] empty_world) as (_ & Hmsg & _ & Hwr).
  - reflexivity.
  - reflexivity.
  - discriminate.
  - vm_compute. intuition discriminate.
  - vm_compute. lia.
  - split.
    + rewrite (Hmsg eq_refl). reflexivity.
    + rewrite (Hwr eq_refl). reflexivity.
Defined.

(** C5, as stated, fails for a message that ends in a carriage return:
    the sink sends the status byte 1, the message ["disk full\r"] and a line
    feed, and the text of the error is ["disk full"]. *)
Lemma scpUploadFile_message_loses_CR :
  let run := scpUploadFile env_ok "motd" (mkStream (bytes "hello") EOF) 4
               (reader_of (rejection x01 disk_full_CR)) empty_world in
  ~ In x0a disk_full_CR
  /\ fst (fst run) = Some (errors_New "disk full")
  /\ fst (fst run) <> Some (errors_New (string_of_list_byte disk_full_CR)).
Proof.
  split; [|split].
  - vm_compute. intuition discriminate.
  - vm_compute. reflexivity.
  - vm_compute. discriminate.
Qed.

(* ================================================================== *)
(** * [reconnect] *)
(* ================================================================== *)

Lemma since_ext (w w' : World) (evs : Trace) :
  trace w' = trace w ++ evs -> since w w' = evs.
Proof.
  intros H. unfold since. rewrite H.
  rewrite skipn_app, skipn_all, Nat.sub_diag. reflexivity.
Qed.

Section Reconnect.

Variable E : Env.

(** [reconnect], step by step. *)
Lemma reconnect_eq (w : World) :
  reconnect E w =
    let t0 := trace w ++ closing (conn (c w)) in
    match Connection E t0 with
    | Err e =>
        (Some e, mkWorld (mkComm None None) (t0 ++ [EvConnection (Err e)]))
    | Ok k =>
        let t1 := t0 ++ [EvConnection (Ok k)] in
        match ssh_Client E t1 k with
        | Err e =>
            (Some e, mkWorld (mkComm None (Some k)) (t1 ++ [EvClient k (Err e)]))
        | Ok cl =>
            (None, mkWorld (mkComm (Some cl) (Some k)) (t1 ++ [EvClient k (Ok cl)]))
        end
    end.
Proof.
  unfold reconnect, config_Connection, ssh_Client_call, conn_Close,
    get_conn, set_conn, set_client, call, emit, bind, ret.
  destruct w as [[cl0 k0] t]; cbn [c conn client trace].
  destruct k0 as [k|]; cbn [closing c conn client trace fst snd];
    rewrite ?app_nil_r.
  - destruct (Connection E (t ++ [EvConnClose k])) as [k1|e];
      cbn [c conn client trace]; [|reflexivity].
    destruct (ssh_Client E _ k1); reflexivity.
  - destruct (Connection E t) as [k1|e];
      cbn [c conn client trace]; [|reflexivity].
    destruct (ssh_Client E _ k1); reflexivity.
Qed.

(** A [reconnect] that fails. *)
Lemma reconnect_failed (w w' : World) (e : error) :
  reconnect E w = (Some e, w') ->
  client (c w') = None
  /\ ((conn (c w') = None
       /\ since w w' = closing (conn (c w)) ++ [EvConnection (Err e)])
      \/ (exists k, conn (c w') = Some k
            /\ since w w' = closing (conn (c w))
                            ++ [EvConnection (Ok k); EvClient k (Err e)])).
Proof.
  rewrite reconnect_eq. cbv zeta.
  destruct (Connection E _) as [k|e1].
  - destruct (ssh_Client E _ k) as [cl|e2]; intros H; inversion H; subst.
    cbn [c client conn]. split; [reflexivity|].
    right. exists k. split; [reflexivity|].
    apply since_ext. cbn [trace]. rewrite <- !app_assoc. reflexivity.
  - intros H; inversion H; subst.
    cbn [c client conn]. split; [reflexivity|].
    left. split; [reflexivity|].
    apply since_ext. cbn [trace]. rewrite <- !app_assoc. reflexivity.
Qed.

(** A [reconnect] that succeeds sets both fields. *)
Lemma reconnect_succeeded (w w' : World) :
  reconnect E w = (None, w') ->
  exists k cl, c w' = mkComm (Some cl) (Some k)
    /\ since w w' = closing (conn (c w))
                    ++ [EvConnection (Ok k); EvClient k (Ok cl)].
Proof.
  rewrite reconnect_eq. cbv zeta.
  destruct (Connection E _) as [k|e1].
  - destruct (ssh_Client E _ k) as [cl|e2]; intros H; inversion H; subst.
    exists k, cl. split; [reflexivity|].
    apply since_ext. cbn [trace]. rewrite <- !app_assoc. reflexivity.
  - intros H; inversion H.
Qed.

(** What [reconnect] adds to the trace: the connection factory is asked
    exactly once, and no channel is opened. *)
Lemma reconnect_trace (w : World) :
  exists evs, trace (snd (reconnect E w)) = trace w ++ evs
    /\ count is_connection evs = 1
    /\ count is_open_attempt evs = 0.
Proof.
  rewrite reconnect_eq. cbv zeta.
  destruct (Connection E _) as [k|e1].
  - destruct (ssh_Client E _ k) as [cl|e2]; cbn [snd trace];
      eexists; (split; [rewrite <- !app_assoc; reflexivity|]);
      rewrite !count_app; destruct (conn (c w)); split; reflexivity.
  - cbn [snd trace].
    eexists; (split; [rewrite <- !app_assoc; reflexivity|]).
    rewrite !count_app; destruct (conn (c w)); split; reflexivity.
Qed.

End Reconnect.

(** C1, as amended.  A [reconnect] that fails leaves the communicator
    without a client.  When the connection factory failed it also leaves it
    without a connection; when the handshake failed, the connection just
    made stays in the [conn] field (the next [reconnect] closes it). *)
Theorem reconnect_failure_state (E : Env) (w w' : World) (e : error) :
  reconnect E w = (Some e, w') ->
  client (c w') = None
  /\ ((conn (c w') = None
       /\ since w w' = closing (conn (c w)) ++ [EvConnection (Err e)])
      \/ (exists k, conn (c w') = Some k
            /\ since w w' = closing (conn (c w))
                            ++ [EvConnection (Ok k); EvClient k (Err e)])).
Proof. apply reconnect_failed. Qed.

Lemma reconnect_failure_state_witness :
  client (c (snd (reconnect env_no_handshake empty_world))) = None.
Proof.
  exact (proj1 (reconnect_failure_state env_no_handshake empty_world
                  (snd (reconnect env_no_handshake empty_world))
                  handshake_failed eq_refl)).
Defined.

(** C1, as stated, fails: after a handshake that fails the communicator
    holds the connection and no client. *)
Lemma reconnect_handshake_failure_keeps_conn :
  fst (reconnect env_no_handshake empty_world) = Some handshake_failed
  /\ conn (c (snd (reconnect env_no_handshake empty_world))) = Some 1
  /\ client (c (snd (reconnect env_no_handshake empty_world))) = None.
Proof. repeat split. Qed.

(* ================================================================== *)
(** * [newSession] *)
(* ================================================================== *)

Section NewSession.

Variable E : Env.

Lemma newSession_first_ok (w : World) (cl : ClientConn) (s : Session) :
  client (c w) = Some cl -> NewSession E (trace w) cl = Ok s ->
  newSession E w = (Ok s, log w [EvNewSession cl (Ok s)]).
Proof.
  intros Hcl Hs.
  unfold newSession, client_NewSession, get_client, call, bind, ret.
  rewrite Hcl, Hs. reflexivity.
Qed.

Lemma newSession_retry_eq (w w1 : World) :
  first_open_failed E w w1 ->
  newSession E w =
    match reconnect E w1 with
    | (Some e, w2) => (Err e, w2)
    | (None, w2) =>
        match client (c w2) with
        | Some cl =>
            (NewSession E (trace w2) cl,
             log w2 [EvNewSession cl (NewSession E (trace w2) cl)])
        | None => (Err (ForeignError "nil pointer dereference"), w2)
        end
    end.
Proof.
  intros [[Hcl Hw]|(cl & e & Hcl & He & Hw)]; subst w1;
    unfold newSession at 1; unfold client_NewSession, get_client, call, bind, ret;
    rewrite Hcl; rewrite ?He; cbv zeta.
  - destruct (reconnect E w) as [[e|] w2]; [reflexivity|].
    destruct (client (c w2)); reflexivity.
  - fold (log w [EvNewSession cl (Err e)]).
    destruct (reconnect E (log w [EvNewSession cl (Err e)])) as [[e'|] w2];
      [reflexivity|].
    destruct (client (c w2)); reflexivity.
Qed.

Lemma first_open_failed_trace (w w1 : World) :
  first_open_failed E w w1 ->
  exists evs, trace w1 = trace w ++ evs
    /\ count is_connection evs = 0
    /\ count is_open_attempt evs <= 1.
Proof.
  intros [[_ Hw]|(cl & e & _ & _ & Hw)]; subst w1.
  - exists []. rewrite app_nil_r. repeat split. unfold count; simpl; lia.
  - eexists. split; [reflexivity|]. split; [reflexivity|].
    unfold count; simpl; lia.
Qed.

(** Either the first attempt gives a session, or it fails. *)
Lemma first_open_cases (w : World) :
  (exists cl s, client (c w) = Some cl /\ NewSession E (trace w) cl = Ok s)
  \/ (exists w1, first_open_failed E w w1).
Proof.
  destruct (client (c w)) as [cl|] eqn:Hcl.
  - destruct (NewSession E (trace w) cl) as [s|e] eqn:Hs.
    + left. exists cl, s. split; [reflexivity | exact Hs].
    + right. exists (log w [EvNewSession cl (Err e)]).
      right. exists cl, e. split; [exact Hcl|]. split; [exact Hs | reflexivity].
  - right. exists w. left. split; [exact Hcl | reflexivity].
Qed.

Lemma newSession_after_failure (w w1 : World) :
  first_open_failed E w w1 ->
  (forall e w2, reconnect E w1 = (Some e, w2) ->
     newSession E w = (Err e, w2)
     /\ count is_open_attempt (since w1 w2) = 0)
  /\ (forall w2, reconnect E w1 = (None, w2) ->
     exists cl, client (c w2) = Some cl
       /\ newSession E w =
            (NewSession E (trace w2) cl,
             log w2 [EvNewSession cl (NewSession E (trace w2) cl)])
       /\ count is_open_attempt (since w1 w2) = 0).
Proof.
  intros Hf. split.
  - intros e w2 Hr. rewrite (newSession_retry_eq w w1 Hf), Hr.
    split; [reflexivity|].
    destruct (reconnect_trace E w1) as (evs & Ht & _ & Ho).
    rewrite Hr in Ht. cbn [snd] in Ht.
    rewrite (since_ext w1 w2 evs Ht). exact Ho.
  - intros w2 Hr. rewrite (newSession_retry_eq w w1 Hf), Hr.
    destruct (reconnect_succeeded E w1 w2 Hr) as (k & cl & Hc & _).
    exists cl. rewrite Hc. cbn [client].
    split; [reflexivity|]. split; [reflexivity|].
    destruct (reconnect_trace E w1) as (evs & Ht & _ & Ho).
    rewrite Hr in Ht. cbn [snd] in Ht.
    rewrite (since_ext w1 w2 evs Ht). exact Ho.
Qed.

(** The events of [newSession] after a first attempt that failed. *)
Lemma newSession_failure_trace (w w1 : World) :
  first_open_failed E w w1 ->
  exists evs, trace (snd (newSession E w)) = trace w1 ++ evs
    /\ count is_connection evs = 1
    /\ count is_open_attempt evs <= 1.
Proof.
  intros Hf. rewrite (newSession_retry_eq w w1 Hf).
  destruct (reconnect_trace E w1) as (evs & Ht & Hc & Ho).
  destruct (reconnect E w1) as [[e|] w2]; cbn [snd] in *.
  - exists evs. repeat split; [exact Ht | exact Hc | lia].
  - destruct (client (c w2)) as [cl|]; cbn [snd].
    + exists (evs ++ [EvNewSession cl (NewSession E (trace w2) cl)]).
      unfold log; cbn [trace]. rewrite Ht, <- app_assoc.
      split; [reflexivity|]. rewrite !count_app, Hc, Ho.
      split; reflexivity.
    + exists evs. repeat split; [exact Ht | exact Hc | lia].
Qed.

Lemma newSession_counts (w : World) :
  count is_connection (since w (snd (newSession E w))) <= 1
  /\ count is_open_attempt (since w (snd (newSession E w))) <= 2.
Proof.
  destruct (first_open_cases w) as [(cl & s & Hcl & Hs)|(w1 & Hf)].
  - rewrite (newSession_first_ok w cl s Hcl Hs). cbn [snd].
    rewrite since_log. unfold count; simpl; lia.
  - destruct (first_open_failed_trace w w1 Hf) as (e1 & H1 & Hc1 & Ho1).
    destruct (newSession_failure_trace w w1 Hf) as (e2 & H2 & Hc2 & Ho2).
    rewrite (since_ext w _ (e1 ++ e2))
      by (rewrite H2, H1, <- app_assoc; reflexivity).
    rewrite !count_app. lia.
Qed.

End NewSession.

(** C3.  [newSession] asks the connection factory at most once and tries to
    open a channel at most twice.  When the first attempt gives a session,
    that is the result and nothing else happens.  When there is no client
    or the first attempt fails, [reconnect] runs exactly once;  if it fails,
    its error is the result and no channel is opened after it;  if it
    succeeds, exactly one more attempt is made with the new client and its
    result, good or bad, is the result of [newSession]. *)
Theorem newSession_retries_once (E : Env) (w : World) :
  let run := newSession E w in
  count is_connection (since w (snd run)) <= 1
  /\ count is_open_attempt (since w (snd run)) <= 2
  /\ (forall cl s,
        client (c w) = Some cl -> NewSession E (trace w) cl = Ok s ->
        run = (Ok s, log w [EvNewSession cl (Ok s)]))
  /\ (forall w1, first_open_failed E w w1 ->
        count is_connection (since w1 (snd run)) = 1
        /\ (forall e w2, reconnect E w1 = (Some e, w2) ->
              run = (Err e, w2)
              /\ count is_open_attempt (since w1 (snd run)) = 0)
        /\ (forall w2, reconnect E w1 = (None, w2) ->
              exists cl, client (c w2) = Some cl
                /\ run = (NewSession E (trace w2) cl,
                          log w2 [EvNewSession cl (NewSession E (trace w2) cl)])
                /\ count is_open_attempt (since w1 (snd run)) = 1)).
Proof.
  intros run. subst run.
  destruct (newSession_counts E w) as [Hc Ho].
  split; [exact Hc|]. split; [exact Ho|].
  split; [intros cl s; apply newSession_first_ok|].
  intros w1 Hf.
  destruct (newSession_after_failure E w w1 Hf) as [Hfail Hgood].
  split.
  { destruct (newSession_failure_trace E w w1 Hf) as (evs & Ht & Hcn & _).
    rewrite (since_ext w1 _ evs Ht). exact Hcn. }
  split.
  - intros e w2 Hr. destruct (Hfail e w2 Hr) as [Hrun Hz].
    rewrite Hrun. cbn [snd]. split; [reflexivity | exact Hz].
  - intros w2 Hr. destruct (Hgood w2 Hr) as (cl & Hcl & Hrun & Hz).
    exists cl. rewrite Hrun. cbn [snd].
    split; [exact Hcl|]. split; [reflexivity|].
    destruct (reconnect_trace E w1) as (evs & Ht & _ & Hoz).
    rewrite Hr in Ht. cbn [snd] in Ht.
    rewrite (since_ext w1 _ (evs ++ [EvNewSession cl (NewSession E (trace w2) cl)]))
      by (unfold log; cbn [trace]; rewrite Ht, <- app_assoc; reflexivity).
    rewrite count_app, Hoz. reflexivity.
Qed.

Lemma newSession_retries_once_witness :
  first_open_failed env_stale stale_world
    (log stale_world [EvNewSession 0 (Err connection_lost)])
  /\ fst (newSession env_stale stale_world) = Ok 3
  /\ count is_connection (since stale_world (snd (newSession env_stale stale_world))) = 1
  /\ count is_open_attempt (since stale_world (snd (newSession env_stale stale_world))) = 2.
Proof.
  assert (Hf : first_open_failed env_stale stale_world
                 (log stale_world [EvNewSession 0 (Err connection_lost)])).
  { right. exists 0, connection_lost. repeat split. }
  split; [exact Hf|].
  destruct (newSession_retries_once env_stale stale_world)
    as (_ & _ & _ & Hretry).
  destruct (Hretry _ Hf) as (_ & _ & Hgood).
  destruct (Hgood _ eq_refl) as (cl & Hcl & Hrun & _).
  rewrite Hrun. cbn [fst snd].
  inversion Hcl; subst cl.
  repeat split.
Defined.

(** Getting a session is all that [reconnect] and [newSession] do. *)
Lemma count_class_zero (q p : Event -> bool) (evs : Trace) :
  (forall ev, q ev = true -> p ev = false) ->
  Forall (fun ev => q ev = true) evs ->
  count p evs = 0.
Proof.
  intros Hp Hall. unfold count.
  induction Hall as [|ev evs Hev _ IH]; [reflexivity|].
  simpl. rewrite (Hp ev Hev). exact IH.
Qed.

Lemma count_setup_zero (p : Event -> bool) (evs : Trace) :
  (forall ev, is_session_setup ev = true -> p ev = false) ->
  Forall (fun ev => is_session_setup ev = true) evs ->
  count p evs = 0.
Proof. apply count_class_zero. Qed.

Lemma reconnect_setup (E : Env) (w : World) :
  exists evs, trace (snd (reconnect E w)) = trace w ++ evs
    /\ Forall (fun ev => is_session_setup ev = true) evs.
Proof.
  rewrite reconnect_eq. cbv zeta.
  destruct (Connection E _) as [k|e1];
    [destruct (ssh_Client E _ k) as [cl|e2]|];
    cbn [snd trace]; eexists;
    (split; [rewrite <- !app_assoc; reflexivity|]);
    destruct (conn (c w)); cbn [closing app]; repeat constructor.
Qed.

Lemma newSession_setup (E : Env) (w : World) :
  exists evs, trace (snd (newSession E w)) = trace w ++ evs
    /\ Forall (fun ev => is_session_setup ev = true) evs.
Proof.
  destruct (first_open_cases E w) as [(cl & s & Hcl & Hs)|(w1 & Hf)].
  - rewrite (newSession_first_ok E w cl s Hcl Hs). cbn [snd].
    eexists. split; [reflexivity|]. repeat constructor.
  - assert (H1 : exists e1, trace w1 = trace w ++ e1
                   /\ Forall (fun ev => is_session_setup ev = true) e1).
    { destruct Hf as [[_ Hw]|(cl & e & _ & _ & Hw)]; subst w1.
      - exists []. rewrite app_nil_r. split; [reflexivity | constructor].
      - eexists. split; [reflexivity|]. repeat constructor. }
    destruct H1 as (e1 & Ht1 & Ha1).
    rewrite (newSession_retry_eq E w w1 Hf).
    destruct (reconnect_setup E w1) as (e2 & Ht2 & Ha2).
    destruct (reconnect E w1) as [[e|] w2]; cbn [snd] in *.
    + exists (e1 ++ e2). rewrite Ht2, Ht1, <- app_assoc.
      split; [reflexivity|]. apply Forall_app; split; assumption.
    + destruct (client (c w2)) as [cl|]; cbn [snd].
      * exists (e1 ++ e2 ++ [EvNewSession cl (NewSession E (trace w2) cl)]).
        unfold log; cbn [trace]. rewrite Ht2, Ht1, <- !app_assoc.
        split; [reflexivity|].
        repeat (apply Forall_app; split); try assumption. repeat constructor.
      * exists (e1 ++ e2). rewrite Ht2, Ht1, <- app_assoc.
        split; [reflexivity|]. apply Forall_app; split; assumption.
Qed.

(** [newSession] touches nothing but the trace and the two fields. *)
Lemma newSession_count_zero (E : Env) (p : Event -> bool) (w : World) :
  (forall ev, is_session_setup ev = true -> p ev = false) ->
  count p (since w (snd (newSession E w))) = 0.
Proof.
  intros Hp. destruct (newSession_setup E w) as (evs & Ht & Hall).
  rewrite (since_ext w _ evs Ht). apply count_setup_zero; assumption.
Qed.

Lemma since_trans (w w1 w2 : World) (e1 e2 : Trace) :
  trace w1 = trace w ++ e1 -> trace w2 = trace w1 ++ e2 ->
  since w w2 = since w w1 ++ since w1 w2.
Proof.
  intros H1 H2.
  rewrite (since_ext w w1 e1 H1), (since_ext w1 w2 e2 H2).
  apply since_ext. rewrite H2, H1, app_assoc. reflexivity.
Qed.

(* ================================================================== *)
(** * [Start] *)
(* ================================================================== *)

Section StartCommand.

Variable E : Env.

Lemma Start_goroutine_eq (s : Session) (cmd : RemoteCmd) (w : World) :
  Start_goroutine E s cmd w =
    let r := session_Wait E (trace w) s in
    (exited cmd (exit_status_of r),
     log w [EvWait s r; EvSetExited (exit_status_of r); EvSessionClose s]).
Proof.
  unfold Start_goroutine, session_Wait_call, SetExited, session_Close,
    call, emit, bind, ret, log, exited.
  cbn [trace c]. rewrite <- !app_assoc. reflexivity.
Qed.

Lemma Start_eq (cmd : RemoteCmd) (w : World) :
  Start E cmd w =
    match newSession E w with
    | (Err e, w1) => ((Some e, None), w1)
    | (Ok s, w1) =>
        let t1 := trace w1
                  ++ [EvSetStdio s (Stdin cmd) (Stdout cmd) (Stderr cmd)] in
        let pty := RequestPty E t1 s in
        match pty with
        | Some e => ((Some e, None), log w1 (start_events cmd s pty))
        | None =>
            let t2 := trace w1 ++ start_events cmd s None in
            let st := session_Start E t2 s (String.append (Command cmd) LF) in
            ((st,
              match st with
              | Some _ => None
              | None => Some (Start_goroutine E s cmd)
              end),
             log w1 (start_events cmd s None
                     ++ [EvStart s (String.append (Command cmd) LF) st]))
        end
    end.
Proof.
  unfold Start at 1. unfold bind at 1.
  destruct (newSession E w) as [[s|e] w1]; [|reflexivity].
  unfold session_RequestPty, session_Start_call, call, emit, bind, ret, log,
    start_events.
  cbn [trace c]. cbv zeta.
  destruct (RequestPty E _ s) as [e|] eqn:Hpty.
  - rewrite <- !app_assoc. reflexivity.
  - rewrite <- !app_assoc. cbn [app].
    destruct (session_Start E _ s _) as [e|]; cbn [trace c];
      rewrite <- ?app_assoc; reflexivity.
Qed.

Lemma Start_trace (cmd : RemoteCmd) (w : World) :
  exists evs rest,
    trace (snd (Start E cmd w)) = trace w ++ evs ++ rest
    /\ Forall (fun ev => is_session_setup ev = true) evs
    /\ Forall (fun ev => is_start_step ev = true) rest.
Proof.
  destruct (newSession_setup E w) as (evs & Ht & Hall).
  rewrite Start_eq.
  destruct (newSession E w) as [[s|e0] w1]; cbn [snd] in Ht; cbv zeta.
  - destruct (RequestPty E _ s) as [e1|];
      [|destruct (session_Start E _ s _) as [e2|]]; cbn [snd];
      unfold log; cbn [trace]; rewrite Ht, <- app_assoc;
      exists evs; eexists; (split; [reflexivity|]);
      (split; [exact Hall|]); repeat constructor.
  - exists evs, []. cbn [snd]. rewrite app_nil_r.
    split; [exact Ht|]. split; [exact Hall | constructor].
Qed.

Lemma Start_count_zero (p : Event -> bool) (cmd : RemoteCmd) (w : World) :
  (forall ev, is_session_setup ev = true -> p ev = false) ->
  (forall ev, is_start_step ev = true -> p ev = false) ->
  count p (since w (snd (Start E cmd w))) = 0.
Proof.
  intros H1 H2.
  destruct (Start_trace cmd w) as (evs & rest & Ht & Ha & Hb).
  rewrite (since_ext w _ (evs ++ rest) Ht), count_app.
  rewrite (count_class_zero _ p evs H1 Ha), (count_class_zero _ p rest H2 Hb).
  reflexivity.
Qed.

End StartCommand.

(** C4.  [Start] returns the error of the session, of the pty request or
    of the start of the process, and then launches no goroutine;  nothing
    in [Start] itself waits for the process or writes the completion slot.
    When all three succeed it returns no error and launches the goroutine,
    which waits, writes the exit status exactly once and then closes the
    session: the status the remote side reported when the error of the wait
    is an [ExitError], 0 when there is no error, 0 for any other error. *)
Theorem Start_contract (E : Env) (cmd : RemoteCmd) (w : World) :
  let run := Start E cmd w in
  (forall e, fst (fst run) = Some e -> snd (fst run) = None)
  /\ (fst (fst run) = None ->
      exists s, snd (fst run) = Some (Start_goroutine E s cmd))
  /\ (forall e w1, newSession E w = (Err e, w1) -> run = ((Some e, None), w1))
  /\ (forall s w1 e,
        newSession E w = (Ok s, w1) ->
        RequestPty E (trace w1 ++ [EvSetStdio s (Stdin cmd) (Stdout cmd) (Stderr cmd)]) s
          = Some e ->
        fst run = (Some e, None))
  /\ (forall s w1 e,
        newSession E w = (Ok s, w1) ->
        RequestPty E (trace w1 ++ [EvSetStdio s (Stdin cmd) (Stdout cmd) (Stderr cmd)]) s
          = None ->
        session_Start E (trace w1 ++ start_events cmd s None) s
          (String.append (Command cmd) LF) = Some e ->
        fst run = (Some e, None))
  /\ (forall s w1,
        newSession E w = (Ok s, w1) ->
        RequestPty E (trace w1 ++ [EvSetStdio s (Stdin cmd) (Stdout cmd) (Stderr cmd)]) s
          = None ->
        session_Start E (trace w1 ++ start_events cmd s None) s
          (String.append (Command cmd) LF) = None ->
        fst run = (None, Some (Start_goroutine E s cmd)))
  /\ count is_wait (since w (snd run)) = 0
  /\ count is_set_exited (since w (snd run)) = 0
  /\ (forall s w',
        let r := session_Wait E (trace w') s in
        Start_goroutine E s cmd w' =
          (exited cmd (exit_status_of r),
           log w' [EvWait s r; EvSetExited (exit_status_of r); EvSessionClose s]))
  /\ (forall status text, exit_status_of (Some (ExitError status text)) = status)
  /\ exit_status_of None = 0%Z
  /\ (forall e, is_exit_error e = false -> exit_status_of (Some e) = 0%Z).
Proof.
  intros run. subst run.
  repeat match goal with |- _ /\ _ => split end.
  - rewrite Start_eq.
    destruct (newSession E w) as [[s|e0] w1]; cbv zeta; [|reflexivity].
    destruct (RequestPty E _ s) as [e1|];
      [|destruct (session_Start E _ s _) as [e2|]]; cbn [fst snd];
      intros; (reflexivity || discriminate).
  - rewrite Start_eq.
    destruct (newSession E w) as [[s|e0] w1]; cbv zeta; [|discriminate].
    destruct (RequestPty E _ s) as [e1|];
      [|destruct (session_Start E _ s _) as [e2|]]; cbn [fst snd];
      intros; try discriminate.
    exists s. reflexivity.
  - intros e w1 Hn. rewrite Start_eq, Hn. reflexivity.
  - intros s w1 e Hn Hpty. rewrite Start_eq, Hn. cbv zeta. rewrite Hpty.
    reflexivity.
  - intros s w1 e Hn Hpty Hst. rewrite Start_eq, Hn. cbv zeta.
    rewrite Hpty, Hst. reflexivity.
  - intros s w1 Hn Hpty Hst. rewrite Start_eq, Hn. cbv zeta.
    rewrite Hpty, Hst. reflexivity.
  - apply Start_count_zero; intros [] H; (discriminate || reflexivity).
  - apply Start_count_zero; intros [] H; (discriminate || reflexivity).
  - intros s w'. apply Start_goroutine_eq.
  - reflexivity.
  - reflexivity.
  - intros e H. destruct e; try reflexivity. discriminate.
Qed.

Lemma Start_contract_witness :
  let run := Start env_exit_3 cmd_false empty_world in
  let done := Start_goroutine env_exit_3 3 cmd_false (snd run) in
  fst run = (None, Some (Start_goroutine env_exit_3 3 cmd_false))
  /\ ExitStatus (fst done) = 3%Z
  /\ since (snd run) (snd done)
     = [EvWait 3 (Some exit_3); EvSetExited 3; EvSessionClose 3].
Proof.
  destruct (Start_contract env_exit_3 cmd_false empty_world)
    as (_ & _ & _ & _ & _ & Hok & _ & _ & Hgo & _).
  split.
  - exact (Hok 3 (snd (newSession env_exit_3 empty_world)) eq_refl eq_refl eq_refl).
  - rewrite (Hgo 3 (snd (Start env_exit_3 cmd_false empty_world))).
    cbn [fst snd]. split; [reflexivity | apply since_log].
Defined.

(* ================================================================== *)
(** * Transfer callbacks *)
(* ================================================================== *)

Lemma transfer_nil (w : World) :
  exists evs, w = log w evs /\ Forall (fun ev => is_transfer ev = true) evs.
Proof. exists []. rewrite log_nil. split; [reflexivity | constructor]. Qed.

Lemma transfer_seq (w w1 w2 : World) :
  (exists e1, w1 = log w e1 /\ Forall (fun ev => is_transfer ev = true) e1) ->
  (exists e2, w2 = log w1 e2 /\ Forall (fun ev => is_transfer ev = true) e2) ->
  exists evs, w2 = log w evs /\ Forall (fun ev => is_transfer ev = true) evs.
Proof.
  intros (e1 & H1 & A1) (e2 & H2 & A2). exists (e1 ++ e2).
  subst. rewrite log_log. split; [reflexivity|].
  apply Forall_app; split; assumption.
Qed.

Lemma transfer_step (w : World) (ev : Event) :
  is_transfer ev = true ->
  exists evs, log w [ev] = log w evs
    /\ Forall (fun ev => is_transfer ev = true) evs.
Proof. intros H. exists [ev]. split; [reflexivity | repeat constructor; exact H]. Qed.

Lemma checkSCPStatus_transfer (r : bufio.Reader) (w : World) :
  exists evs, snd (checkSCPStatus r w) = log w evs
    /\ Forall (fun ev => is_transfer ev = true) evs.
Proof.
  unfold checkSCPStatus, r_ReadByte, r_ReadLine, bind, emit, ret.
  destruct (bufio.ReadByte r) as [[code e] r1]. cbn [fst snd trace c].
  destruct e as [e|].
  - eexists. split; [reflexivity | repeat constructor].
  - destruct (negb (Byte.eqb code x00)).
    + destruct (bufio.ReadLine r1) as [[[message p] e] r2].
      cbn [fst snd trace c].
      exists [EvReadByte code None; EvReadLine message e].
      split; [|repeat constructor].
      unfold log; cbn [trace c]. rewrite <- app_assoc.
      destruct e; reflexivity.
    + eexists. split; [reflexivity | repeat constructor].
Qed.

Lemma w_Write_transfer (E : Env) (wr : Writer) (p : list byte) (w : World) :
  exists evs, snd (w_Write E wr p w) = log w evs
    /\ Forall (fun ev => is_transfer ev = true) evs.
Proof.
  unfold w_Write, call. cbn [snd].
  eexists. split; [reflexivity | repeat constructor].
Qed.

Lemma scpUploadFile_transfer (E : Env) (dst : string) (src : Stream)
    (wr : Writer) (r : bufio.Reader) (w : World) :
  exists evs, snd (scpUploadFile E dst src wr r w) = log w evs
    /\ Forall (fun ev => is_transfer ev = true) evs.
Proof.
  unfold scpUploadFile.
  destruct (io_Copy_in src) as [inputBuf|e]; [|apply transfer_nil].
  unfold fmt_Fprintln, fmt_Fprint, io_Copy_out.
  unfold bind at 1.
  pose proof (w_Write_transfer E wr
                (list_byte_of_string
                   (Sprintln ["C0644"; itoa (List.length inputBuf); dst])) w) as H1.
  destruct (w_Write E wr _ w) as [x1 w1]. cbn [snd] in H1.
  unfold bind at 1.
  pose proof (checkSCPStatus_transfer r w1) as H2.
  destruct (checkSCPStatus r w1) as [[e2 r1] w2]. cbn [snd] in H2.
  pose proof (transfer_seq _ _ _ H1 H2) as H12.
  destruct e2 as [e2|]; [exact H12|].
  unfold bind at 1.
  assert (H3 : exists evs, snd (match inputBuf with
                                | [] => ret None
                                | _ :: _ => w_Write E wr inputBuf
                                end w2) = log w2 evs
                 /\ Forall (fun ev => is_transfer ev = true) evs).
  { destruct inputBuf; [apply transfer_nil | apply w_Write_transfer]. }
  destruct (match inputBuf with [] => ret None | _ :: _ => _ end w2) as [e3 w3].
  cbn [snd] in H3.
  pose proof (transfer_seq _ _ _ H12 H3) as H123.
  destruct e3 as [e3|]; [exact H123|].
  unfold bind at 1.
  pose proof (w_Write_transfer E wr
                (list_byte_of_string (String (ascii_of_byte x00) EmptyString)) w3)
    as H4.
  destruct (w_Write E wr _ w3) as [x4 w4]. cbn [snd] in H4.
  pose proof (transfer_seq _ _ _ H123 H4) as H1234.
  unfold bind at 1.
  pose proof (checkSCPStatus_transfer r1 w4) as H5.
  destruct (checkSCPStatus r1 w4) as [[e5 r2] w5]. cbn [snd] in H5.
  pose proof (transfer_seq _ _ _ H1234 H5) as Hall.
  destruct e5; exact Hall.
Qed.

Lemma scpUploadDir_transfer (E : Env) (root : string) (fs : list FileInfo)
    (wr : Writer) (r : bufio.Reader) (w : World) :
  exists evs, snd (scpUploadDir E root fs wr r w) = log w evs
    /\ Forall (fun ev => is_transfer ev = true) evs.
Proof.
  revert r w. induction fs as [|fi rest IH]; intros r w; cbn [scpUploadDir].
  - apply transfer_nil.
  - destruct (negb (IsDir fi)); [|apply IH].
    unfold os_Open_call, file_Close, call, emit.
    unfold bind at 1. cbv zeta. fold (log w [EvOpen (filepath_Join E root (Name fi))
                          (os_Open E (trace w) (filepath_Join E root (Name fi)))]).
    pose proof (transfer_step w (EvOpen (filepath_Join E root (Name fi))
                  (os_Open E (trace w) (filepath_Join E root (Name fi)))) eq_refl)
      as H1.
    destruct (os_Open E (trace w) _) as [f|e]; [|exact H1].
    unfold bind at 1.
    pose proof (scpUploadFile_transfer E (Name fi) (contents f) wr r
                  (log w [EvOpen (filepath_Join E root (Name fi)) (Ok f)])) as H2.
    destruct (scpUploadFile E (Name fi) (contents f) wr r _) as [[e2 r1] w2].
    cbn [snd] in H2.
    pose proof (transfer_seq _ _ _ H1 H2) as H12.
    unfold bind at 1. cbv zeta. fold (log w2 [EvFileClose f]).
    pose proof (transfer_seq _ _ _ H12 (transfer_step w2 (EvFileClose f) eq_refl))
      as H123.
    destruct e2 as [e2|]; [exact H123|].
    exact (transfer_seq _ _ _ H123 (IH r1 _)).
Qed.

Lemma scpUploadFile_transfer_only (E : Env) (dst : string) (src : Stream) :
  transfer_only (fun wr r => scpUploadFile E dst src wr r).
Proof. intros wr r w. apply scpUploadFile_transfer. Qed.

Lemma scpUploadDir_transfer_only (E : Env) (root : string) (fs : list FileInfo) :
  transfer_only (fun wr r => scpUploadDir E root fs wr r).
Proof. intros wr r w. apply scpUploadDir_transfer. Qed.

(* ================================================================== *)
(** * [scpSession] *)
(* ================================================================== *)

Section ScpSession.

Variable E : Env.
Variable scpCommand : string.
Variable f : Writer -> bufio.Reader -> M (option error * bufio.Reader).

(** [scpSession] once the stdin pipe is there, step by step. *)
Lemma scpSession_transfer_eq (s : Session) (wr : Writer) (w : World) :
  scpSession_transfer E s wr scpCommand f w =
    match StdoutPipe E (trace w) s with
    | Err e => ((Some e, Some wr), log w [EvStdoutPipe s (Err e)])
    | Ok stream =>
        let w1 := log w [EvStdoutPipe s (Ok stream); EvSetStderrBuffer s] in
        match session_Start E (trace w1) s scpCommand with
        | Some e => ((Some e, Some wr), log w1 [EvStart s scpCommand (Some e)])
        | None =>
            match f wr (bufio.NewReader stream)
                    (log w1 [EvStart s scpCommand None]) with
            | ((Some e, _), w2) => ((Some e, Some wr), w2)
            | ((None, _), w2) =>
                let wait := session_Wait E (trace w2 ++ [EvPipeClose wr]) s in
                ((wait_result wait, None),
                 log w2 [EvPipeClose wr; EvWait s wait])
            end
        end
    end.
Proof.
  unfold scpSession_transfer, session_StdoutPipe, session_Start_call,
    session_Wait_call, pipe_Close, call, emit, bind, ret, log.
  cbn [trace c fst snd].
  destruct (StdoutPipe E (trace w) s) as [stream|e]; [|reflexivity].
  cbn [trace c]. rewrite <- ?app_assoc. cbn [app].
  destruct (session_Start E _ s scpCommand) as [e|];
    cbn [trace c]; rewrite <- ?app_assoc; cbn [app]; [reflexivity|].
  destruct (f wr _ _) as [[[e|] r1] w2];
    cbn [trace c]; rewrite <- ?app_assoc; reflexivity.
Qed.

Lemma scpSession_eq (w : World) :
  scpSession E scpCommand f w =
    match newSession E w with
    | (Err e, w1) => (Some e, w1)
    | (Ok s, w1) =>
        match StdinPipe E (trace w1) s with
        | Err e => (Some e, log w1 [EvStdinPipe s (Err e); EvSessionClose s])
        | Ok wr =>
            let '((res, stdinW), w2) :=
              scpSession_transfer E s wr scpCommand f
                (log w1 [EvStdinPipe s (Ok wr)]) in
            (res, log w2 (match stdinW with
                          | Some wr' => [EvPipeClose wr']
                          | None => []
                          end ++ [EvSessionClose s]))
        end
    end.
Proof.
  unfold scpSession, session_StdinPipe, session_Close, deferred_pipe_close,
    pipe_Close, call, emit, bind, ret, log.
  destruct (newSession E w) as [[s|e] w1]; [|reflexivity].
  cbn [trace c].
  destruct (StdinPipe E (trace w1) s) as [wr|e];
    cbn [trace c]; rewrite <- ?app_assoc; [|reflexivity].
  destruct (scpSession_transfer E s wr scpCommand f _) as [[res v] w2].
  destruct v as [wr'|]; cbn [trace c app]; rewrite <- ?app_assoc; reflexivity.
Qed.

(** The run in which everything up to the callback went well. *)
Lemma scpSession_after_transfer (w w1 w2 : World) (s : Session) (wr : Writer)
    (stream : Stream) (fe : option error) (r' : bufio.Reader) :
  newSession E w = (Ok s, w1) ->
  StdinPipe E (trace w1) s = Ok wr ->
  StdoutPipe E (trace w1 ++ [EvStdinPipe s (Ok wr)]) s = Ok stream ->
  session_Start E (trace w1 ++ [EvStdinPipe s (Ok wr); EvStdoutPipe s (Ok stream);
                                EvSetStderrBuffer s]) s scpCommand = None ->
  f wr (bufio.NewReader stream) (before_transfer w1 s wr stream scpCommand)
    = ((fe, r'), w2) ->
  scpSession E scpCommand f w =
    match fe with
    | Some e => (Some e, log w2 [EvPipeClose wr; EvSessionClose s])
    | None =>
        let wait := session_Wait E (trace w2 ++ [EvPipeClose wr]) s in
        (wait_result wait,
         log w2 [EvPipeClose wr; EvWait s wait; EvSessionClose s])
    end.
Proof.
  intros Hn Hin Hout Hst Hf.
  rewrite scpSession_eq, Hn, Hin. cbv zeta.
  rewrite scpSession_transfer_eq.
  unfold before_transfer in Hf. unfold log in *. cbn [trace c] in *.
  rewrite Hout. cbv zeta. cbn [trace c].
  rewrite <- ?app_assoc. cbn [app]. rewrite Hst.
  rewrite Hf.
  destruct fe as [e|]; cbn [trace c app]; rewrite <- ?app_assoc; reflexivity.
Qed.

End ScpSession.

Lemma wait_result_127 (text : string) :
  wait_result (Some (ExitError 127 text)) = Some (errors_New scp_unavailable).
Proof. reflexivity. Qed.

Lemma wait_result_other (e : error) :
  (forall text, e <> ExitError 127 text) -> wait_result (Some e) = Some e.
Proof.
  intros H. destruct e as [| |s|status text|t]; try reflexivity.
  destruct status as [|p|p]; try reflexivity.
  repeat match goal with
         | q : positive |- _ => destruct q; try reflexivity
         end.
  exfalso. apply (H text). reflexivity.
Qed.

Section ScpSessionTrace.

Variable E : Env.
Variable scpCommand : string.
Variable f : Writer -> bufio.Reader -> M (option error * bufio.Reader).
Hypothesis f_transfers : transfer_only f.

Lemma transfer_is_step (evs : Trace) :
  Forall (fun ev => is_transfer ev = true) evs ->
  Forall (fun ev => is_session_step ev = true) evs.
Proof.
  intros H. eapply Forall_impl; [|exact H].
  intros ev Hev. destruct ev; try discriminate; reflexivity.
Qed.

Lemma scpSession_transfer_trace (s : Session) (wr : Writer) (w : World) :
  exists evs,
    Forall (fun ev => is_session_step ev = true) evs
    /\ ((exists e, scpSession_transfer E s wr scpCommand f w
                   = ((Some e, Some wr), log w evs))
        \/ (exists wait, scpSession_transfer E s wr scpCommand f w
                   = ((wait_result wait, None),
                      log w (evs ++ [EvPipeClose wr; EvWait s wait])))).
Proof.
  rewrite scpSession_transfer_eq.
  destruct (StdoutPipe E (trace w) s) as [stream|e].
  2:{ eexists. split; [|left; exists e; reflexivity]. repeat constructor. }
  cbv zeta.
  destruct (session_Start E _ s scpCommand) as [e|].
  { eexists. split; [|left; exists e; rewrite log_log; reflexivity].
    repeat constructor. }
  destruct (f_transfers wr (bufio.NewReader stream)
              (log (log w [EvStdoutPipe s (Ok stream); EvSetStderrBuffer s])
                   [EvStart s scpCommand None])) as (evs & Hf & Hall).
  destruct (f wr _ _) as [[fe r1] w2]. cbn [snd] in Hf. subst w2.
  rewrite !log_log.
  exists ([EvStdoutPipe s (Ok stream); EvSetStderrBuffer s]
          ++ [EvStart s scpCommand None] ++ evs).
  split.
  { repeat (apply Forall_app; split); try (repeat constructor).
    apply transfer_is_step. exact Hall. }
  destruct fe as [e|].
  - left. exists e. reflexivity.
  - right. eexists. rewrite <- ?app_assoc. reflexivity.
Qed.

End ScpSessionTrace.

Lemma setup_counts (evs : Trace) :
  Forall (fun ev => is_session_setup ev = true) evs ->
  count is_stdin_pipe evs = 0
  /\ count is_pipe_close evs = 0
  /\ count is_session_close evs = 0
  /\ count is_wait evs = 0.
Proof.
  intros H. repeat split;
    (apply (count_class_zero is_session_setup); [|exact H]);
    intros [] Hev; (discriminate || reflexivity).
Qed.

Lemma step_counts (evs : Trace) :
  Forall (fun ev => is_session_step ev = true) evs ->
  count is_stdin_pipe evs = 0
  /\ count is_pipe_close evs = 0
  /\ count is_session_close evs = 0
  /\ count is_wait evs = 0.
Proof.
  intros H. repeat split;
    (apply (count_class_zero is_session_step); [|exact H]);
    intros [] Hev; (discriminate || reflexivity).
Qed.

(** C9.  In every run of [scpSession] whose callback only transfers, the
    stdin pipe, once it is there, is closed exactly once and the session,
    once it is there, is closed exactly once, as the last thing that
    happens:  when an error ends the transfer early the (deferred) close of
    the pipe comes right before the close of the session;  on the path
    without such an error the pipe is closed before the wait and is not
    closed again.  Where there is no session or no pipe, none is closed. *)
Theorem scpSession_closes_once (E : Env) (scpCommand : string)
    (f : Writer -> bufio.Reader -> M (option error * bufio.Reader)) (w : World) :
  transfer_only f ->
  let run := scpSession E scpCommand f w in
  let evs := since w (snd run) in
  (forall e w1, newSession E w = (Err e, w1) ->
     fst run = Some e
     /\ count is_stdin_pipe evs = 0
     /\ count is_pipe_close evs = 0
     /\ count is_session_close evs = 0)
  /\ (forall s w1 e,
        newSession E w = (Ok s, w1) -> StdinPipe E (trace w1) s = Err e ->
        fst run = Some e
        /\ count is_stdin_pipe evs = 0
        /\ count is_pipe_close evs = 0
        /\ count is_session_close evs = 1)
  /\ (forall s w1 wr,
        newSession E w = (Ok s, w1) -> StdinPipe E (trace w1) s = Ok wr ->
        count is_stdin_pipe evs = 1
        /\ count is_pipe_close evs = 1
        /\ count is_session_close evs = 1
        /\ exists before mid,
             evs = before ++ [EvPipeClose wr] ++ mid ++ [EvSessionClose s]
             /\ ((mid = [] /\ exists e, fst run = Some e)
                 \/ (exists wait, mid = [EvWait s wait]
                                  /\ fst run = wait_result wait))).
Proof.
  intros Hf run evs. subst evs run.
  destruct (newSession_setup E w) as (evs0 & Ht0 & Hall0).
  destruct (setup_counts evs0 Hall0) as (Z1 & Z2 & Z3 & _).
  rewrite scpSession_eq.
  split; [|split].
  - intros e w1 Hn. rewrite Hn in *. cbn [fst snd] in *.
    rewrite (since_ext w w1 evs0 Ht0). auto.
  - intros s w1 e Hn Hin. rewrite Hn in *. cbn [snd] in Ht0. rewrite Hin.
    cbn [fst snd].
    rewrite (since_ext w _ (evs0 ++ [EvStdinPipe s (Err e); EvSessionClose s]))
      by (unfold log; cbn [trace]; rewrite Ht0, app_assoc; reflexivity).
    rewrite !count_app, Z1, Z2, Z3. repeat split.
  - intros s w1 wr Hn Hin. rewrite Hn in *. cbn [snd] in Ht0. rewrite Hin.
    cbv zeta.
    destruct (scpSession_transfer_trace E scpCommand f Hf s wr
                (log w1 [EvStdinPipe s (Ok wr)]))
      as (steps & Hsteps & [(e & Hrun)|(wait & Hrun)]);
      destruct (step_counts steps Hsteps) as (S1 & S2 & S3 & _);
      rewrite Hrun; cbn [fst snd].
    + rewrite (since_ext w _
                 ((evs0 ++ [EvStdinPipe s (Ok wr)] ++ steps)
                  ++ [EvPipeClose wr] ++ [] ++ [EvSessionClose s]))
        by (unfold log; cbn [trace app]; rewrite Ht0, <- !app_assoc; reflexivity).
      rewrite !count_app, Z1, Z2, Z3, S1, S2, S3.
      repeat split.
      exists (evs0 ++ [EvStdinPipe s (Ok wr)] ++ steps), [].
      split; [reflexivity|]. left. split; [reflexivity|]. exists e. reflexivity.
    + rewrite (since_ext w _
                 ((evs0 ++ [EvStdinPipe s (Ok wr)] ++ steps)
                  ++ [EvPipeClose wr] ++ [EvWait s wait] ++ [EvSessionClose s]))
        by (unfold log; cbn [trace app]; rewrite Ht0, <- !app_assoc; reflexivity).
      rewrite !count_app, Z1, Z2, Z3, S1, S2, S3.
      repeat split.
      exists (evs0 ++ [EvStdinPipe s (Ok wr)] ++ steps), [EvWait s wait].
      split; [reflexivity|]. right. exists wait. split; reflexivity.
Qed.

Lemma scpSession_closes_once_witness :
  let run := Upload env_rejecting "motd" hello empty_world in
  fst run = Some (errors_New "disk full")
  /\ count is_pipe_close (since empty_world (snd run)) = 1
  /\ count is_session_close (since empty_world (snd run)) = 1.
Proof.
  destruct (scpSession_closes_once env_rejecting "scp -vt motd"
              (fun wr r => scpUploadFile env_rejecting "motd" hello wr r)
              empty_world
              (scpUploadFile_transfer_only env_rejecting "motd" hello))
    as (_ & _ & H).
  destruct (H 3 (snd (newSession env_rejecting empty_world)) 4 eq_refl eq_refl)
    as (_ & Hp & Hs & _).
  split; [reflexivity|]. split; [exact Hp | exact Hs].
Defined.

(** What [scpSession] returns once its callback has run.  After a
    callback without error the result is decided by [session.Wait()]:  an
    [ExitError] with status 127 gives the fixed message that SCP is not
    properly installed (the standard error output is only logged and plays
    no part), any other error is returned as it is, and no error gives
    success.  After a callback that failed, [session.Wait()] is not
    reached. *)
Theorem scpSession_exit_status (E : Env) (scpCommand : string)
    (f : Writer -> bufio.Reader -> M (option error * bufio.Reader))
    (w w1 w2 : World) (s : Session) (wr : Writer) (stream : Stream)
    (fe : option error) (r' : bufio.Reader) :
  newSession E w = (Ok s, w1) ->
  StdinPipe E (trace w1) s = Ok wr ->
  StdoutPipe E (trace w1 ++ [EvStdinPipe s (Ok wr)]) s = Ok stream ->
  session_Start E (trace w1 ++ [EvStdinPipe s (Ok wr); EvStdoutPipe s (Ok stream);
                                EvSetStderrBuffer s]) s scpCommand = None ->
  f wr (bufio.NewReader stream) (before_transfer w1 s wr stream scpCommand)
    = ((fe, r'), w2) ->
  let run := scpSession E scpCommand f w in
  let wait := session_Wait E (trace w2 ++ [EvPipeClose wr]) s in
  (fe = None ->
     (forall text, wait = Some (ExitError 127 text) ->
        fst run = Some (errors_New scp_unavailable))
     /\ (forall e, wait = Some e -> (forall text, e <> ExitError 127 text) ->
        fst run = Some e)
     /\ (wait = None -> fst run = None)
     /\ snd run = log w2 [EvPipeClose wr; EvWait s wait; EvSessionClose s])
  /\ (forall e, fe = Some e ->
        fst run = Some e
        /\ snd run = log w2 [EvPipeClose wr; EvSessionClose s]).
Proof.
  intros Hn Hin Hout Hst Hf run wait. subst run wait.
  rewrite (scpSession_after_transfer E scpCommand f w w1 w2 s wr stream fe r'
             Hn Hin Hout Hst Hf).
  split.
  - intros ->. cbv zeta. cbn [fst snd].
    split; [intros text ->; apply wait_result_127|].
    split; [intros e -> He; apply wait_result_other; exact He|].
    split; [intros ->; reflexivity | reflexivity].
  - intros e ->. split; reflexivity.
Qed.

Lemma scpSession_exit_status_witness :
  fst (Upload env_exit_127_late "motd" hello empty_world)
  = Some (errors_New scp_unavailable).
Proof.
  destruct (scpSession_exit_status env_exit_127_late "scp -vt motd"
              (fun wr r => scpUploadFile env_exit_127_late "motd" hello wr r)
              empty_world
              (snd (newSession env_exit_127_late empty_world))
              (snd (scpUploadFile env_exit_127_late "motd" hello 4
                      (bufio.NewReader (mkStream [x00; x00] EOF))
                      (before_transfer (snd (newSession env_exit_127_late empty_world))
                         3 4 (mkStream [x00; x00] EOF) "scp -vt motd")))
              3 4 (mkStream [x00; x00] EOF) None (reader_of [])
              eq_refl eq_refl eq_refl eq_refl eq_refl) as [Hok _].
  destruct (Hok eq_refl) as (H127 & _).
  exact (H127 _ eq_refl).
Defined.

(** Two runs in which the transfer fails before the wait.  A sink that
    rejects the header and exits with status 1 gives the rejection;  a host
    without [scp], whose shell exits with status 127 and whose sink never
    answers, gives [io.EOF];  in both runs [session.Wait()] is never
    called. *)
Lemma scpSession_transfer_error_comes_first :
  session_Wait env_rejecting [] 3 = Some exit_1
  /\ fst (Upload env_rejecting "motd" hello empty_world)
     = Some (errors_New "disk full")
  /\ count is_wait (trace (snd (Upload env_rejecting "motd" hello empty_world))) = 0
  /\ session_Wait env_no_scp [] 3 = Some exit_127
  /\ fst (Upload env_no_scp "motd" hello empty_world) = Some EOF
  /\ count is_wait (trace (snd (Upload env_no_scp "motd" hello empty_world))) = 0.
Proof. repeat split. Qed.

(** C8.  The code misses what the claim, and the comment in the code, say.
    On a host without [scp] the remote shell exits with status 127 and the
    sink sends no acknowledgement.  [session.Wait()] would return the
    [ExitError] with status 127, of which [scpSession] makes the fixed
    message;  but the transfer callback fails first, with [io.EOF] for the
    acknowledgement that does not come, and [scpSession] returns that error
    at once:  the stdin pipe and the session are closed, [session.Wait()] is
    never called, and the caller gets [io.EOF] in place of the message that
    SCP is not properly installed. *)
Theorem Upload_without_scp_returns_EOF :
  (forall t, session_Wait env_no_scp t 3 = Some exit_127)
  /\ wait_result (Some exit_127) = Some (errors_New scp_unavailable)
  /\ Upload env_no_scp "motd" hello empty_world =
       (Some EOF,
        mkWorld (mkComm (Some 2) (Some 1))
          [EvConnection (Ok 1); EvClient 1 (Ok 2); EvNewSession 2 (Ok 3);
           EvStdinPipe 3 (Ok 4); EvStdoutPipe 3 (Ok (mkStream [] EOF));
           EvSetStderrBuffer 3; EvStart 3 "scp -vt motd" None;
           EvWrite 4 (bytes "C0644 5 motd" ++ [x0a]) None;
           EvReadByte x00 (Some EOF);
           EvPipeClose 4; EvSessionClose 3])
  /\ fst (Upload env_no_scp "motd" hello empty_world)
     <> Some (errors_New scp_unavailable).
Proof.
  split; [intros t; reflexivity|].
  split; [reflexivity|].
  split; [reflexivity|].
  discriminate.
Qed.

(* ================================================================== *)
(** * [scpUploadDir] *)
(* ================================================================== *)

Lemma opened_paths_app (t1 t2 : Trace) :
  opened_paths (t1 ++ t2) = opened_paths t1 ++ opened_paths t2.
Proof. unfold opened_paths. apply flat_map_app. Qed.

Lemma written_payload (wr : Writer) (content : list byte) :
  written wr (payload_events wr content) = content.
Proof.
  destruct content; [reflexivity|].
  cbn [payload_events written]. rewrite Nat.eqb_refl, app_nil_r. reflexivity.
Qed.

Lemma opened_payload (wr : Writer) (content : list byte) :
  opened_paths (payload_events wr content) = [].
Proof. destruct content; reflexivity. Qed.

Lemma written_upload (path name : string) (f : File) (wr : Writer) :
  written wr (upload_events path name f wr)
  = file_record name (st_data (contents f)).
Proof.
  unfold upload_events, file_record.
  rewrite !written_app, written_payload.
  cbn [written]. rewrite !Nat.eqb_refl. cbn [app].
  rewrite app_nil_r. reflexivity.
Qed.

Lemma opened_upload (path name : string) (f : File) (wr : Writer) :
  opened_paths (upload_events path name f wr) = [path].
Proof.
  unfold upload_events. rewrite !opened_paths_app, opened_payload. reflexivity.
Qed.

Section UploadDirCallback.

Variable E : Env.
Variable root : string.
Variable wr : Writer.

(** Directories among the entries are passed over without any effect. *)
Lemma scpUploadDir_skips_dirs (fs : list FileInfo) (r : bufio.Reader) (w : World) :
  scpUploadDir E root fs wr r w = scpUploadDir E root (filter regular fs) wr r w.
Proof.
  revert r w. induction fs as [|fi rest IH]; intros r w; [reflexivity|].
  cbn [scpUploadDir filter]. unfold regular at 1.
  destruct (negb (IsDir fi)) eqn:Hreg; [|apply IH].
  cbn [scpUploadDir]. rewrite Hreg.
  unfold bind.
  destruct (os_Open_call E _ w) as [[f|e] w1]; [|reflexivity].
  destruct (scpUploadFile E _ _ wr r w1) as [[e r1] w2].
  destruct (file_Close f w2) as [u w3].
  destruct e; [reflexivity | apply IH].
Qed.

Variable file_of : FileInfo -> File.
Hypothesis writes_succeed : forall t p, Write E t wr p = None.

(** The run over entries whose files can be opened and read, against a
    sink that acknowledges everything. *)
Lemma scpUploadDir_run (fs : list FileInfo) (rest : list byte) :
  (forall t fi, In fi fs -> IsDir fi = false ->
     os_Open E t (filepath_Join E root (Name fi)) = Ok (file_of fi)) ->
  (forall fi, In fi fs -> IsDir fi = false ->
     st_err (contents (file_of fi)) = EOF) ->
  forall (r : bufio.Reader) (w : World),
  bufio.data r = repeat x00 (2 * List.length (filter regular fs)) ++ rest ->
  scpUploadDir E root fs wr r w =
    ((None, with_data r rest),
     log w (flat_map (fun fi => upload_events (filepath_Join E root (Name fi))
                                  (Name fi) (file_of fi) wr)
              (filter regular fs))).
Proof.
  induction fs as [|fi fs' IH]; intros Hopen Hread r w Hd.
  - cbn [scpUploadDir filter flat_map List.length Nat.mul Nat.add repeat app] in *.
    rewrite log_nil. unfold ret, with_data. rewrite <- Hd.
    destruct r; reflexivity.
  - cbn [scpUploadDir filter] in Hd |- *.
    assert (Hreg : regular fi = negb (IsDir fi)) by reflexivity.
    rewrite Hreg in Hd |- *.
    destruct (IsDir fi) eqn:Hdir; cbn [negb] in *.
    + apply IH; [intros t fj Hin; apply Hopen; right; exact Hin
                |intros fj Hin; apply Hread; right; exact Hin
                |exact Hd].
    + cbn [List.length] in Hd.
      replace (2 * S (List.length (filter regular fs')))
        with (S (S (2 * List.length (filter regular fs')))) in Hd by lia.
      cbn [repeat app] in Hd.
      unfold os_Open_call, file_Close, call, emit.
      unfold bind at 1. cbv zeta.
      rewrite (Hopen (trace w) fi (or_introl eq_refl) Hdir).
      unfold bind at 1.
      pose proof (Hread fi (or_introl eq_refl) Hdir) as Heof.
      destruct (contents (file_of fi)) as [content err] eqn:Hc.
      cbn [st_err] in Heof. subst err.
      rewrite (scpUploadFile_run E (Name fi) content wr r _ _ writes_succeed Hd).
      unfold bind at 1. cbv zeta.
      rewrite (IH (fun t fj Hin => Hopen t fj (or_intror Hin))
                  (fun fj Hin => Hread fj (or_intror Hin))
                  (with_data r (repeat x00 (2 * List.length (filter regular fs'))
                                ++ rest)) _ eq_refl).
      cbn [flat_map]. unfold upload_events at 2. rewrite Hc. cbn [st_data].
      unfold log, with_data. cbn [trace c bufio.err bufio.size].
      rewrite <- !app_assoc. reflexivity.
Qed.

End UploadDirCallback.

Lemma opened_uploads (E : Env) (root : string) (file_of : FileInfo -> File)
    (wr : Writer) (fs : list FileInfo) :
  opened_paths (flat_map (fun fi => upload_events (filepath_Join E root (Name fi))
                                      (Name fi) (file_of fi) wr) fs)
  = map (fun fi => filepath_Join E root (Name fi)) fs.
Proof.
  induction fs as [|fi fs IH]; [reflexivity|].
  cbn [flat_map map]. rewrite opened_paths_app, opened_upload, IH. reflexivity.
Qed.

Lemma written_uploads (E : Env) (root : string) (file_of : FileInfo -> File)
    (wr : Writer) (fs : list FileInfo) :
  written wr (flat_map (fun fi => upload_events (filepath_Join E root (Name fi))
                                    (Name fi) (file_of fi) wr) fs)
  = flat_map (fun fi => file_record (Name fi) (st_data (contents (file_of fi)))) fs.
Proof.
  induction fs as [|fi fs IH]; [reflexivity|].
  cbn [flat_map]. rewrite written_app, written_upload, IH. reflexivity.
Qed.

(** [scpSession] uses its callback only by calling it. *)
Lemma scpSession_ext (E : Env) (scpCommand : string)
    (f g : Writer -> bufio.Reader -> M (option error * bufio.Reader)) (w : World) :
  (forall wr r w', f wr r w' = g wr r w') ->
  scpSession E scpCommand f w = scpSession E scpCommand g w.
Proof.
  intros Hfg. rewrite !scpSession_eq.
  destruct (newSession E w) as [[s|e] w1]; [|reflexivity].
  destruct (StdinPipe E (trace w1) s) as [wr|e]; [|reflexivity].
  rewrite !scpSession_transfer_eq.
  destruct (StdoutPipe E _ s) as [stream|e]; [|reflexivity].
  cbv zeta.
  destruct (session_Start E _ s scpCommand) as [e|]; [reflexivity|].
  rewrite Hfg. reflexivity.
Qed.

(* ================================================================== *)
(** * [UploadDir] *)
(* ================================================================== *)

Lemma UploadDir_eq (E : Env) (dst src : string) (excl : list string) (w : World) :
  UploadDir E dst src excl w =
    match os_Open E (trace w) src with
    | Err e => (Some e, log w [EvOpen src (Err e)])
    | Ok f =>
        match Readdir E (trace w ++ [EvOpen src (Ok f)]) f with
        | Err e =>
            (Some e, log w [EvOpen src (Ok f); EvReaddir f (Err e); EvFileClose f])
        | Ok entries =>
            let '(res, w') :=
              scpSession E (String.append "scp -rvt " dst)
                (fun wr r => scpUploadDir E src entries wr r)
                (log w [EvOpen src (Ok f); EvReaddir f (Ok entries)]) in
            (res, log w' [EvFileClose f])
        end
    end.
Proof.
  unfold UploadDir, os_Open_call, file_Readdir, file_Close, call, emit, bind, ret, log.
  cbn [trace c].
  destruct (os_Open E (trace w) src) as [f|e]; [|reflexivity].
  cbn [trace c].
  destruct (Readdir E _ f) as [entries|e];
    cbn [trace c]; rewrite <- ?app_assoc; [|reflexivity].
  cbn [app].
  destruct (scpSession E _ _ _) as [res w']. reflexivity.
Qed.

(** C7.  [UploadDir] uploads the entries of the listing of the source
    directory that are not directories, in the order of the listing, each
    by [scpUploadFile] under the entry's own name, and passes over the
    directories without any effect:  the run is the run on the listing
    without its directories.  Against a sink that acknowledges everything
    the callback opens exactly the files of those entries and writes
    exactly their records, header, content and NUL byte, one after the
    other:  no file below a subdirectory is opened and no [D] or [E]
    record is written. *)
Theorem UploadDir_flat (E : Env) (dst src : string) (excl : list string)
    (w : World) (d : File) (entries : list FileInfo) :
  os_Open E (trace w) src = Ok d ->
  Readdir E (trace w ++ [EvOpen src (Ok d)]) d = Ok entries ->
  UploadDir E dst src excl w =
    (let '(res, w') :=
       scpSession E (String.append "scp -rvt " dst)
         (fun wr r => scpUploadDir E src (filter regular entries) wr r)
         (log w [EvOpen src (Ok d); EvReaddir d (Ok entries)]) in
     (res, log w' [EvFileClose d]))
  /\ (forall wr r w0,
        scpUploadDir E src entries wr r w0
        = scpUploadDir E src (filter regular entries) wr r w0)
  /\ (forall wr (file_of : FileInfo -> File) rest r w0,
        (forall t p, Write E t wr p = None) ->
        (forall t fi, In fi entries -> IsDir fi = false ->
           os_Open E t (filepath_Join E src (Name fi)) = Ok (file_of fi)) ->
        (forall fi, In fi entries -> IsDir fi = false ->
           st_err (contents (file_of fi)) = EOF) ->
        bufio.data r
          = repeat x00 (2 * List.length (filter regular entries)) ++ rest ->
        let run := scpUploadDir E src entries wr r w0 in
        fst run = (None, with_data r rest)
        /\ since w0 (snd run)
           = flat_map (fun fi => upload_events (filepath_Join E src (Name fi))
                                   (Name fi) (file_of fi) wr)
               (filter regular entries)
        /\ opened_paths (since w0 (snd run))
           = map (fun fi => filepath_Join E src (Name fi)) (filter regular entries)
        /\ written wr (since w0 (snd run))
           = flat_map (fun fi => file_record (Name fi)
                                   (st_data (contents (file_of fi))))
               (filter regular entries)).
Proof.
  intros Hopen Hdir.
  split; [|split].
  - rewrite UploadDir_eq, Hopen, Hdir.
    rewrite (scpSession_ext E _ _
               (fun wr r => scpUploadDir E src (filter regular entries) wr r));
      [reflexivity|].
    intros wr r w'. apply scpUploadDir_skips_dirs.
  - intros wr r w0. apply scpUploadDir_skips_dirs.
  - intros wr file_of rest r w0 Hw Hfiles Hread Hd run. subst run.
    rewrite (scpUploadDir_run E src wr file_of Hw entries rest Hfiles Hread r w0 Hd).
    cbn [fst snd]. rewrite since_log.
    split; [reflexivity|]. split; [reflexivity|].
    split; [apply opened_uploads | apply written_uploads].
Qed.

Lemma UploadDir_flat_witness :
  let run := UploadDir env_dir "/tmp" "src" [] empty_world in
  fst run = None
  /\ opened_paths (trace (snd run)) = ["src"; "src/a.txt"]
  /\ written 4 (trace (snd run)) = file_record "a.txt" (bytes "A")
  /\ (let up := scpUploadDir env_dir "src" entries_src 4
                  (reader_of [x00; x00]) empty_world in
      fst up = (None, reader_of [])
      /\ opened_paths (since empty_world (snd up)) = ["src/a.txt"]
      /\ written 4 (since empty_world (snd up)) = file_record "a.txt" (bytes "A")).
Proof.
  destruct (UploadDir_flat env_dir "/tmp" "src" [] empty_world dir_src entries_src
              eq_refl eq_refl) as (Hrun & _ & Hup).
  split; [rewrite Hrun; reflexivity|].
  split; [rewrite Hrun; reflexivity|].
  split; [rewrite Hrun; reflexivity|].
  destruct (Hup 4 (fun _ => file_a) [] (reader_of [x00; x00]) empty_world)
    as (H1 & _ & H3 & H4).
  - reflexivity.
  - intros t fi [<-|[<-|[]]] H; [reflexivity | discriminate].
  - intros fi _ _. reflexivity.
  - reflexivity.
  - split; [exact H1|]. split; [exact H3 | exact H4].
Defined.

(** C10.  When the source directory cannot be opened, or its entries cannot
    be read, [UploadDir] returns that error:  no session is opened, no
    remote command is started, nothing but the local directory has been
    touched, and the [conn] and [client] fields are what they were. *)
Theorem UploadDir_local_failure (E : Env) (dst src : string)
    (excl : list string) (w : World) :
  let run := UploadDir E dst src excl w in
  (forall e, os_Open E (trace w) src = Err e ->
     fst run = Some e
     /\ since w (snd run) = [EvOpen src (Err e)]
     /\ count is_remote (since w (snd run)) = 0
     /\ c (snd run) = c w)
  /\ (forall d e,
        os_Open E (trace w) src = Ok d ->
        Readdir E (trace w ++ [EvOpen src (Ok d)]) d = Err e ->
        fst run = Some e
        /\ since w (snd run)
           = [EvOpen src (Ok d); EvReaddir d (Err e); EvFileClose d]
        /\ count is_remote (since w (snd run)) = 0
        /\ c (snd run) = c w).
Proof.
  intros run. subst run. rewrite UploadDir_eq. split.
  - intros e ->. cbn [fst snd]. rewrite since_log. repeat split.
  - intros d e -> ->. cbn [fst snd]. rewrite since_log. repeat split.
Qed.

Lemma UploadDir_local_failure_witness :
  (let run := UploadDir env_ok "/tmp" "src" [] stale_world in
   fst run = Some (ForeignError "no such file or directory")
   /\ count is_remote (since stale_world (snd run)) = 0
   /\ c (snd run) = c stale_world)
  /\ (let run := UploadDir env_dir "/tmp" "src/a.txt" [] stale_world in
      fst run = Some not_a_directory
      /\ count is_remote (since stale_world (snd run)) = 0
      /\ c (snd run) = c stale_world).
Proof.
  split.
  - destruct (proj1 (UploadDir_local_failure env_ok "/tmp" "src" [] stale_world)
                (ForeignError "no such file or directory") eq_refl)
      as (H1 & _ & H3 & H4).
    split; [exact H1|]. split; [exact H3 | exact H4].
  - destruct (proj2 (UploadDir_local_failure env_dir "/tmp" "src/a.txt" []
                       stale_world)
                file_a not_a_directory eq_refl eq_refl)
      as (H1 & _ & H3 & H4).
    split; [exact H1|]. split; [exact H3 | exact H4].
Defined.

(* ================================================================== *)
(** * Whole runs *)
(* ================================================================== *)

(** [Upload] of five bytes to a host where everything works. *)
Example Upload_run :
  Upload env_ok "motd" hello empty_world =
    (None,
     mkWorld (mkComm (Some 2) (Some 1))
       [EvConnection (Ok 1); EvClient 1 (Ok 2); EvNewSession 2 (Ok 3);
        EvStdinPipe 3 (Ok 4);
        EvStdoutPipe 3 (Ok (mkStream [x00; x00] EOF));
        EvSetStderrBuffer 3; EvStart 3 "scp -vt motd" None;
        EvWrite 4 (bytes "C0644 5 motd" ++ [x0a]) None; EvReadByte x00 None;
        EvWrite 4 (bytes "hello") None;
        EvWrite 4 [x00] None; EvReadByte x00 None;
        EvPipeClose 4; EvWait 3 None; EvSessionClose 3]).
Proof. reflexivity. Qed.

(** [UploadDir] of a path that is no directory. *)
Example UploadDir_of_a_file :
  let run := UploadDir env_dir "/tmp" "src/a.txt" [] empty_world in
  fst run = Some not_a_directory
  /\ trace (snd run)
     = [EvOpen "src/a.txt" (Ok file_a); EvReaddir file_a (Err not_a_directory);
        EvFileClose file_a].
Proof. split; reflexivity. Qed.

(** A stale client: one failed attempt, one reconnect, one retry. *)
Example newSession_run :
  newSession env_stale stale_world =
    (Ok 3,
     mkWorld (mkComm (Some 2) (Some 1))
       [EvNewSession 0 (Err connection_lost); EvConnClose 0;
        EvConnection (Ok 1); EvClient 1 (Ok 2); EvNewSession 2 (Ok 3)]).
Proof. reflexivity. Qed.

(* ================================================================== *)
(** * Further properties: the connection *)
(* ================================================================== *)

(** X1.  A [reconnect] that succeeds leaves the communicator with the
    connection the factory returned and the client the handshake returned,
    both set;  what it did is: close the connection it found, if any, ask
    the factory once, hand the new connection to the handshake once. *)
Theorem reconnect_success_state (E : Env) (w w' : World) :
  reconnect E w = (None, w') ->
  exists k cl,
    c w' = mkComm (Some cl) (Some k)
    /\ since w w' = closing (conn (c w)) ++ [EvConnection (Ok k); EvClient k (Ok cl)].
Proof. apply reconnect_succeeded. Qed.

Lemma reconnect_success_state_witness :
  c (snd (reconnect env_stale stale_world)) = mkComm (Some 2) (Some 1)
  /\ since stale_world (snd (reconnect env_stale stale_world))
     = [EvConnClose 0; EvConnection (Ok 1); EvClient 1 (Ok 2)].
Proof.
  destruct (reconnect_success_state env_stale stale_world
              (snd (reconnect env_stale stale_world)) eq_refl)
    as (k & cl & Hc & Hs).
  rewrite Hc in *. rewrite Hs. clear Hs.
  assert (Hk : mkComm (Some cl) (Some k) = mkComm (Some 2) (Some 1))
    by (rewrite <- Hc; reflexivity).
  inversion Hk; subst. split; reflexivity.
Defined.

(** X2.  Whatever the outcome, [reconnect] closes the connection it found,
    if there was one, before anything else, and closes no other:  the
    connection it has just made is not closed when the handshake fails.
    The client it found is dropped:  the client field afterwards is nil or
    the client of the handshake of this very call. *)
Theorem reconnect_closes_only_the_old (E : Env) (w : World) :
  let run := reconnect E w in
  exists rest,
    since w (snd run) = closing (conn (c w)) ++ rest
    /\ count is_conn_close rest = 0
    /\ count is_connection rest = 1
    /\ count is_handshake rest <= 1
    /\ (forall cl, client (c (snd run)) = Some cl ->
          exists k, In (EvClient k (Ok cl)) rest).
Proof.
  intros run. subst run. rewrite reconnect_eq. cbv zeta.
  destruct (Connection E _) as [k|e1];
    [destruct (ssh_Client E _ k) as [cl|e2]|]; cbn [snd c client].
  - exists [EvConnection (Ok k); EvClient k (Ok cl)].
    split; [apply since_ext; cbn [trace]; rewrite <- !app_assoc; reflexivity|].
    repeat split; try (unfold count; simpl; lia).
    intros cl' H. inversion H; subst. exists k. right. left. reflexivity.
  - exists [EvConnection (Ok k); EvClient k (Err e2)].
    split; [apply since_ext; cbn [trace]; rewrite <- !app_assoc; reflexivity|].
    repeat split; try (unfold count; simpl; lia).
    intros cl' H. discriminate H.
  - exists [EvConnection (Err e1)].
    split; [apply since_ext; cbn [trace]; rewrite <- !app_assoc; reflexivity|].
    repeat split; try (unfold count; simpl; lia).
    intros cl' H. discriminate H.
Qed.

Lemma reconnect_closes_only_the_old_witness :
  exists rest,
    since stale_world (snd (reconnect env_no_handshake stale_world))
    = [EvConnClose 0] ++ rest
    /\ count is_conn_close rest = 0
    /\ client (c (snd (reconnect env_no_handshake stale_world))) = None.
Proof.
  destruct (reconnect_closes_only_the_old env_no_handshake stale_world)
    as (rest & H1 & H2 & _).
  exists rest. split; [exact H1|]. split; [exact H2 | reflexivity].
Defined.

(** X3.  [New] returns a communicator exactly when it returns no error,
    and that communicator holds a connection and a client.  [New] asks the
    factory once and closes nothing:  when the handshake fails, the
    connection it made is given up without being closed. *)
Theorem New_outcome (E : Env) (w : World) :
  let run := New E w in
  (snd (fst run) = None <-> exists cm, fst (fst run) = Some cm)
  /\ (forall cm, fst (fst run) = Some cm ->
        exists k cl, cm = mkComm (Some cl) (Some k) /\ c (snd run) = cm)
  /\ count is_conn_close (since w (snd run)) = 0
  /\ count is_connection (since w (snd run)) = 1.
Proof.
  intros run. subst run.
  unfold New, set_conn, set_client, get_comm, bind, ret. cbn [c conn client trace].
  rewrite reconnect_eq. cbv zeta. cbn [c conn client trace closing].
  rewrite app_nil_r.
  destruct (Connection E (trace w)) as [k|e1];
    [destruct (ssh_Client E _ k) as [cl|e2]|]; cbn [fst snd c].
  - split; [split; [intros _; eexists; reflexivity | reflexivity]|].
    split; [intros cm H; inversion H; subst; exists k, cl; split; reflexivity|].
    rewrite (since_ext w _ [EvConnection (Ok k); EvClient k (Ok cl)])
      by (cbn [trace]; rewrite <- app_assoc; reflexivity).
    split; reflexivity.
  - split; [split; [discriminate | intros [cm H]; discriminate H]|].
    split; [intros cm H; discriminate H|].
    rewrite (since_ext w _ [EvConnection (Ok k); EvClient k (Err e2)])
      by (cbn [trace]; rewrite <- app_assoc; reflexivity).
    split; reflexivity.
  - split; [split; [discriminate | intros [cm H]; discriminate H]|].
    split; [intros cm H; discriminate H|].
    rewrite (since_ext w _ [EvConnection (Err e1)]) by reflexivity.
    split; reflexivity.
Qed.

Lemma New_outcome_witness :
  fst (New env_ok empty_world) = (Some (mkComm (Some 2) (Some 1)), None)
  /\ fst (New env_no_handshake empty_world) = (None, Some handshake_failed)
  /\ count is_conn_close
       (since empty_world (snd (New env_no_handshake empty_world))) = 0.
Proof.
  split; [reflexivity|]. split; [reflexivity|].
  exact (proj1 (proj2 (proj2 (New_outcome env_no_handshake empty_world)))).
Defined.

Lemma newSession_opened (E : Env) (w w' : World) (s : Session) :
  newSession E w = (Ok s, w') ->
  exists cl before,
    client (c w') = Some cl
    /\ since w w' = before ++ [EvNewSession cl (Ok s)].
Proof.
  intros Hrun.
  destruct (first_open_cases E w) as [(cl & s0 & Hcl & Hs)|(w1 & Hf)].
  - rewrite (newSession_first_ok E w cl s0 Hcl Hs) in Hrun.
    inversion Hrun; subst. exists cl, [].
    split; [exact Hcl | apply since_log].
  - destruct (first_open_failed_trace E w w1 Hf) as (e1 & Ht1 & _).
    rewrite (newSession_retry_eq E w w1 Hf) in Hrun.
    destruct (reconnect_setup E w1) as (e2 & Ht2 & _).
    destruct (reconnect E w1) as [[e|] w2]; [discriminate Hrun|].
    cbn [snd] in Ht2.
    destruct (client (c w2)) as [cl|] eqn:Hcl; [|discriminate Hrun].
    inversion Hrun as [[Hs Hw]]. exists cl, (e1 ++ e2).
    split; [exact Hcl|].
    apply since_ext. unfold log; cbn [trace].
    rewrite Hs, Ht2, Ht1, <- !app_assoc. reflexivity.
Qed.

(** X4.  When [newSession] returns a session, the communicator holds a
    client, the session is one that this client opened, and opening it was
    the last thing that happened. *)
Theorem newSession_session_of_client (E : Env) (w w' : World) (s : Session) :
  newSession E w = (Ok s, w') ->
  exists cl before,
    client (c w') = Some cl
    /\ since w w' = before ++ [EvNewSession cl (Ok s)].
Proof. apply newSession_opened. Qed.

Lemma newSession_session_of_client_witness :
  exists cl before,
    client (c (snd (newSession env_stale stale_world))) = Some cl
    /\ since stale_world (snd (newSession env_stale stale_world))
       = before ++ [EvNewSession cl (Ok 3)].
Proof.
  exact (newSession_session_of_client env_stale stale_world
           (snd (newSession env_stale stale_world)) 3 eq_refl).
Defined.

(* ================================================================== *)
(** * Further properties: the upload of one file *)
(* ================================================================== *)

Lemma scpUploadFile_channel (E : Env) (dst : string) (src : Stream)
    (wr : Writer) (r : bufio.Reader) (w : World) :
  exists evs,
    snd (scpUploadFile E dst src wr r w) = log w evs
    /\ Forall (fun ev => is_channel_io ev = true) evs
    /\ count is_write evs <= 3
    /\ count is_read_byte evs <= 2.
Proof.
  unfold scpUploadFile, checkSCPStatus, r_ReadByte, r_ReadLine, fmt_Fprintln,
    fmt_Fprint, io_Copy_out, w_Write, call, emit, bind, ret.
  destruct (io_Copy_in src) as [inputBuf|e].
  2:{ exists []. rewrite log_nil.
      split; [reflexivity|]. split; [constructor|].
      unfold count; simpl; lia. }
  repeat first
    [ progress cbn [fst snd trace c]
    | match goal with
      | |- context [bufio.ReadByte ?x] =>
          destruct (bufio.ReadByte x) as [[? [?|]] ?]
      | |- context [bufio.ReadLine ?x] =>
          destruct (bufio.ReadLine x) as [[[? ?] [?|]] ?]
      | |- context [negb ?b] => destruct (negb b)
      | |- context [match ?l with [] => _ | _ :: _ => _ end] => destruct l
      | |- context [match Write E ?t ?x ?p with _ => _ end] =>
          destruct (Write E t x p)
      end ];
    (eexists; split;
     [unfold log; cbn [snd trace c]; rewrite <- ?app_assoc; cbn [app]; reflexivity|];
     split; [repeat constructor | unfold count; simpl; lia]).
Qed.

(** X5.  Whatever the collaborators do, [scpUploadFile] only talks on the
    channel:  it writes to the pipe at most three times (header, payload,
    terminator), reads at most two status bytes, does nothing else, and
    leaves the fields of the communicator alone. *)
Theorem scpUploadFile_channel_discipline (E : Env) (dst : string) (src : Stream)
    (wr : Writer) (r : bufio.Reader) (w : World) :
  let run := scpUploadFile E dst src wr r w in
  c (snd run) = c w
  /\ exists evs,
       trace (snd run) = trace w ++ evs
       /\ Forall (fun ev => is_channel_io ev = true) evs
       /\ count is_write evs <= 3
       /\ count is_read_byte evs <= 2.
Proof.
  intros run. subst run.
  destruct (scpUploadFile_channel E dst src wr r w) as (evs & H & Hrest).
  rewrite H. split; [reflexivity|]. exists evs. split; [reflexivity | exact Hrest].
Qed.

Section UploadFileErrors.

Variable E : Env.
Variable dst : string.
Variable wr : Writer.

(** The payload arrives and the sink rejects it. *)
Lemma scpUploadFile_rejected_late (content : list byte) (r : bufio.Reader)
  (b : byte) (m rest : list byte) (w : World) :
(forall t p, Write E t wr p = None) ->
bufio.data r = x00 :: b :: m ++ x0a :: rest -> b <> x00 ->
~ In x0a m -> List.length m < bufio.size r ->
scpUploadFile E dst (mkStream content EOF) wr r w =
  ((Some (errors_New (string_of_list_byte (chomp_CR m))), with_data r rest),
   log w ([EvWrite wr (file_header (List.length content) dst) None;
           EvReadByte x00 None]
          ++ payload_events wr content
          ++ [EvWrite wr [x00] None; EvReadByte b None;
              EvReadLine (chomp_CR m) None])).
Proof.
intros Hw Hd Hb Hin Hlen.
unfold scpUploadFile, fmt_Fprintln, fmt_Fprint, io_Copy_out, w_Write,
  call, bind, ret.
cbn [io_Copy_in st_err st_data fst snd trace c].
rewrite Sprintln_header, Hw.
rewrite (checkSCPStatus_zero r (b :: m ++ x0a :: rest) _ Hd).
destruct content as [|b0 content'];
  cbn [log trace c payload_events]; rewrite !Hw;
  rewrite (checkSCPStatus_reject (with_data r (b :: m ++ x0a :: rest)) b m rest _
             eq_refl Hb Hin Hlen);
  unfold log, with_data; cbn [trace c bufio.err bufio.size app];
  repeat rewrite <- app_assoc; reflexivity.
Qed.

(** The pipe fails under the payload. *)
Lemma scpUploadFile_write_failed (src : Stream) (content : list byte)
  (r : bufio.Reader) (rest : list byte) (w : World) (e : error) :
io_Copy_in src = Ok content -> content <> [] ->
bufio.data r = x00 :: rest ->
let header := file_header (List.length content) dst in
let h := Write E (trace w) wr header in
Write E (trace w ++ [EvWrite wr header h; EvReadByte x00 None]) wr content
  = Some e ->
scpUploadFile E dst src wr r w =
  ((Some e, with_data r rest),
   log w [EvWrite wr header h; EvReadByte x00 None; EvWrite wr content (Some e)]).
Proof.
intros Hsrc Hne Hd header h Hfail. subst header h.
unfold scpUploadFile, fmt_Fprintln, io_Copy_out, w_Write, call, bind, ret.
rewrite Hsrc. cbn [fst snd trace c].
rewrite Sprintln_header.
rewrite (checkSCPStatus_zero r rest _ Hd).
destruct content as [|b0 content']; [contradiction|].
unfold log; cbn [trace c]. rewrite <- !app_assoc. cbn [app].
rewrite Hfail. reflexivity.
Qed.

End UploadFileErrors.

(** X6.  When the sink acknowledges the header and rejects the payload,
    the whole record (header, content, NUL byte) has been written by the
    time the upload fails with the sink's message. *)
Theorem scpUploadFile_payload_rejected (E : Env) (n : string)
    (content : list byte) (wr : Writer) (r : bufio.Reader) (b : byte)
    (m rest : list byte) (w : World) :
  (forall t p, Write E t wr p = None) ->
  bufio.data r = x00 :: b :: m ++ x0a :: rest -> b <> x00 ->
  ~ In x0a m -> List.length m < bufio.size r ->
  let run := scpUploadFile E n (mkStream content EOF) wr r w in
  fst run = (Some (errors_New (string_of_list_byte (chomp_CR m))), with_data r rest)
  /\ written wr (since w (snd run)) = file_record n content.
Proof.
  intros Hw Hd Hb Hin Hlen run. subst run.
  rewrite (scpUploadFile_rejected_late E n wr content r b m rest w Hw Hd Hb Hin Hlen).
  cbn [fst snd]. split; [reflexivity|].
  rewrite since_log, !written_app, written_payload.
  cbn [written]. rewrite !Nat.eqb_refl. cbn [app]. rewrite app_nil_r.
  reflexivity.
Qed.

Lemma scpUploadFile_payload_rejected_witness :
  let run := scpUploadFile env_ok "motd" hello 4
               (reader_of (x00 :: rejection x02 disk_full)) empty_world in
  fst run = (Some (errors_New "disk full"), reader_of [])
  /\ written 4 (since empty_world (snd run)) = file_record "motd" (bytes "hello").
Proof.
  destruct (scpUploadFile_payload_rejected env_ok "motd" (bytes "hello") 4
              (reader_of (x00 :: rejection x02 disk_full)) x02 disk_full []
              empty_world) as [H1 H2].
  - reflexivity.
  - reflexivity.
  - discriminate.
  - vm_compute. intuition discriminate.
  - vm_compute. lia.
  - split; [exact H1 | exact H2].
Defined.

(** X7.  A payload that the pipe does not take ends the upload with the
    error of that write:  the terminator byte is not written and no second
    acknowledgement is read.  (Whether the header's write had succeeded
    plays no part.) *)
Theorem scpUploadFile_payload_write_fails (E : Env) (n : string) (src : Stream)
    (content : list byte) (wr : Writer) (r : bufio.Reader) (rest : list byte)
    (w : World) (e : error) :
  io_Copy_in src = Ok content -> content <> [] ->
  bufio.data r = x00 :: rest ->
  Write E (trace w ++ [EvWrite wr (file_header (List.length content) n)
                         (Write E (trace w) wr (file_header (List.length content) n));
                       EvReadByte x00 None]) wr content = Some e ->
  let run := scpUploadFile E n src wr r w in
  fst run = (Some e, with_data r rest)
  /\ count is_write (since w (snd run)) = 2
  /\ count is_read_byte (since w (snd run)) = 1
  /\ ~ In (EvWrite wr [x00] None) (since w (snd run)).
Proof.
  intros Hsrc Hne Hd Hfail run. subst run.
  rewrite (scpUploadFile_write_failed E n wr src content r rest w e Hsrc Hne Hd Hfail).
  cbn [fst snd]. rewrite since_log.
  split; [reflexivity|]. split; [reflexivity|]. split; [reflexivity|].
  intros [H|[H|[H|[]]]]; discriminate H.
Qed.

Lemma scpUploadFile_payload_write_fails_witness :
  let run := scpUploadFile env_pipe_breaks "motd" hello 4
               (reader_of [x00; x00]) empty_world in
  fst run = (Some broken_pipe, reader_of [x00])
  /\ count is_write (since empty_world (snd run)) = 2.
Proof.
  destruct (scpUploadFile_payload_write_fails env_pipe_breaks "motd" hello
              (bytes "hello") 4 (reader_of [x00; x00]) [x00] empty_world
              broken_pipe) as (H1 & H2 & _).
  - reflexivity.
  - discriminate.
  - reflexivity.
  - reflexivity.
  - split; [exact H1 | exact H2].
Defined.

(** X8.  The errors of the writes of the header and of the terminator are
    never looked at:  when the sink acknowledges twice and the payload's
    write does not fail (there is none for an empty file), the upload
    reports success whatever those two writes answered. *)
Theorem scpUploadFile_control_writes_unchecked (E : Env) (n : string)
    (src : Stream) (content : list byte) (wr : Writer) (r : bufio.Reader)
    (rest : list byte) (w : World) :
  io_Copy_in src = Ok content ->
  bufio.data r = x00 :: x00 :: rest ->
  content = []
  \/ Write E (trace w ++ [EvWrite wr (file_header (List.length content) n)
                            (Write E (trace w) wr
                               (file_header (List.length content) n));
                          EvReadByte x00 None]) wr content = None ->
  fst (scpUploadFile E n src wr r w) = (None, with_data r rest).
Proof.
  intros Hsrc Hd Hpay.
  unfold scpUploadFile, fmt_Fprintln, fmt_Fprint, io_Copy_out, w_Write,
    call, bind, ret.
  rewrite Hsrc. cbn [fst snd trace c].
  rewrite Sprintln_header.
  rewrite (checkSCPStatus_zero r (x00 :: rest) _ Hd).
  destruct content as [|b0 content'].
  - cbn [log trace c].
    rewrite (checkSCPStatus_zero (with_data r (x00 :: rest)) rest _ eq_refl).
    reflexivity.
  - destruct Hpay as [Hnil|Hpay]; [discriminate Hnil|].
    unfold log at 1; cbn [trace c]. rewrite <- !app_assoc. cbn [app].
    rewrite Hpay. cbn [trace c].
    rewrite (checkSCPStatus_zero (with_data r (x00 :: rest)) rest _ eq_refl).
    reflexivity.
Qed.

Lemma scpUploadFile_control_writes_unchecked_witness :
  let run := scpUploadFile env_pipe_breaks "empty" (mkStream [] EOF) 4
               (reader_of [x00; x00]) empty_world in
  fst run = (None, reader_of [])
  /\ written 4 (trace (snd run)) = file_header 0 "empty".
Proof.
  split.
  - exact (scpUploadFile_control_writes_unchecked env_pipe_breaks "empty"
             (mkStream [] EOF) [] 4 (reader_of [x00; x00]) [] empty_world
             eq_refl eq_refl (or_introl eq_refl)).
  - reflexivity.
Defined.

(* ================================================================== *)
(** * Further properties: the status byte *)
(* ================================================================== *)

(** X9.  [checkSCPStatus] reports success exactly when the byte it read is
    zero:  on any other byte, and on a stream on which no byte can be read,
    it returns an error, whatever follows. *)
Theorem checkSCPStatus_success_iff (r : bufio.Reader) (w : World) :
  fst (fst (checkSCPStatus r w)) = None
  <-> exists rest, bufio.data r = x00 :: rest.
Proof.
  destruct (bufio.data r) as [|b rest] eqn:Hd.
  - rewrite (checkSCPStatus_empty r w Hd). cbn [fst].
    split; [discriminate | intros [rest' H]; discriminate H].
  - destruct (Byte.byte_eq_dec b x00) as [->|Hb].
    + rewrite (checkSCPStatus_zero r rest w Hd). cbn [fst].
      split; [intros _; exists rest; reflexivity | reflexivity].
    + rewrite (checkSCPStatus_nonzero r b rest w Hd Hb).
      destruct (bufio.ReadLine _) as [[[message p] err] r2]. cbn [fst].
      split; [discriminate|].
      intros [rest' H]. inversion H. contradiction.
Qed.

Lemma checkSCPStatus_cases (r : bufio.Reader) (w : World) :
  (exists rest, bufio.data r = x00 :: rest
     /\ checkSCPStatus r w = ((None, with_data r rest), log w [EvReadByte x00 None]))
  \/ (exists e r' evs, checkSCPStatus r w = ((Some e, r'), log w evs)).
Proof.
  destruct (bufio.data r) as [|b rest] eqn:Hd.
  - right. rewrite (checkSCPStatus_empty r w Hd). eauto.
  - destruct (Byte.byte_eq_dec b x00) as [->|Hb].
    + left. exists rest. split; [reflexivity | apply checkSCPStatus_zero; exact Hd].
    + right. rewrite (checkSCPStatus_nonzero r b rest w Hd Hb).
      destruct (bufio.ReadLine _) as [[[message p] err] r2]. eauto.
Qed.

Lemma checkSCPStatus_success_iff_witness :
  fst (fst (checkSCPStatus (reader_of [x00; x07]) empty_world)) = None
  /\ ~ fst (fst (checkSCPStatus (reader_of [x02]) empty_world)) = None.
Proof.
  split.
  - apply (proj2 (checkSCPStatus_success_iff (reader_of [x00; x07]) empty_world)).
    exists [x07]. reflexivity.
  - intros H.
    destruct (proj1 (checkSCPStatus_success_iff (reader_of [x02]) empty_world) H)
      as [rest Hd].
    discriminate Hd.
Defined.

(** X10.  [scpUploadFile] returns no error only if the content could be
    read to its end and the sink acknowledged twice with a zero byte;  it
    has then read exactly these two bytes from the sink. *)
Theorem scpUploadFile_success_means_acknowledged (E : Env) (n : string)
    (src : Stream) (wr : Writer) (r : bufio.Reader) (w : World) :
  fst (fst (scpUploadFile E n src wr r w)) = None ->
  exists content rest,
    io_Copy_in src = Ok content
    /\ bufio.data r = x00 :: x00 :: rest
    /\ snd (fst (scpUploadFile E n src wr r w)) = with_data r rest.
Proof.
  unfold scpUploadFile, fmt_Fprintln, fmt_Fprint, io_Copy_out, w_Write,
    call, bind, ret.
  destruct (io_Copy_in src) as [content|e]; [|discriminate].
  cbn [fst snd trace c].
  match goal with
  | |- context [checkSCPStatus r ?W] =>
      destruct (checkSCPStatus_cases r W)
        as [(d1 & Hd & Heq)|(e & r' & evs & Heq)]; rewrite Heq
  end; [|discriminate].
  assert (Hsecond : forall w2,
             fst (fst (let (a, w1) := checkSCPStatus (with_data r d1) w2 in
                       (let '(err, r2) := a in
                        match err with
                        | Some e => fun w0 : World => (Some e, r2, w0)
                        | None => fun w0 : World => (None, r2, w0)
                        end) w1)) = None ->
             exists rest, d1 = x00 :: rest
               /\ snd (fst (let (a, w1) := checkSCPStatus (with_data r d1) w2 in
                            (let '(err, r2) := a in
                             match err with
                             | Some e => fun w0 : World => (Some e, r2, w0)
                             | None => fun w0 : World => (None, r2, w0)
                             end) w1)) = with_data r rest).
  { intros w2.
    destruct (checkSCPStatus_cases (with_data r d1) w2)
      as [(d2 & Hd2 & Heq2)|(e & r' & evs & Heq2)]; rewrite Heq2;
      [|discriminate].
    intros _. exists d2. split; [exact Hd2 | reflexivity]. }
  destruct content as [|b0 content'].
  - intros H. destruct (Hsecond _ H) as (rest & Hd1 & Hr).
    exists [], rest. split; [reflexivity|]. split; [rewrite Hd, Hd1; reflexivity|].
    exact Hr.
  - cbn [fst snd trace c].
    destruct (Write E _ wr (b0 :: content')) as [e|]; [discriminate|].
    intros H. destruct (Hsecond _ H) as (rest & Hd1 & Hr).
    exists (b0 :: content'), rest.
    split; [reflexivity|]. split; [rewrite Hd, Hd1; reflexivity|].
    exact Hr.
Qed.

Lemma scpUploadFile_success_means_acknowledged_witness :
  exists content rest,
    io_Copy_in hello = Ok content
    /\ bufio.data (reader_of [x00; x00; x07]) = x00 :: x00 :: rest
    /\ snd (fst (scpUploadFile env_ok "motd" hello 4
                   (reader_of [x00; x00; x07]) empty_world))
       = with_data (reader_of [x00; x00; x07]) rest.
Proof.
  exact (scpUploadFile_success_means_acknowledged env_ok "motd" hello 4
           (reader_of [x00; x00; x07]) empty_world eq_refl).
Defined.

(* ================================================================== *)
(** * Further properties: the upload of a directory *)
(* ================================================================== *)

(** X11.  Uploading a listing is uploading its first part and then, if
    that went well, the rest, from where the first part left the channel;
    when an entry fails, the error is returned and the entries after it are
    not touched. *)
Theorem scpUploadDir_app (E : Env) (root : string) (fs1 fs2 : list FileInfo)
    (wr : Writer) (r : bufio.Reader) (w : World) :
  scpUploadDir E root (fs1 ++ fs2) wr r w =
    let '((err, r1), w1) := scpUploadDir E root fs1 wr r w in
    match err with
    | Some e => ((Some e, r1), w1)
    | None => scpUploadDir E root fs2 wr r1 w1
    end.
Proof.
  revert r w. induction fs1 as [|fi fs1 IH]; intros r w; [reflexivity|].
  cbn [app scpUploadDir].
  destruct (negb (IsDir fi)); [|apply IH].
  unfold bind.
  destruct (os_Open_call E _ w) as [[f|e] w1]; [|reflexivity].
  destruct (scpUploadFile E _ _ wr r w1) as [[e r1] w2].
  destruct (file_Close f w2) as [u w3].
  destruct e; [reflexivity | apply IH].
Qed.



Lemma open_files_app (stack : list File) (t1 t2 : Trace) :
  open_files stack (t1 ++ t2) =
    match open_files stack t1 with
    | Some stack' => open_files stack' t2
    | None => None
    end.
Proof.
  revert stack. induction t1 as [|ev t1 IH]; intros stack; [reflexivity|].
  destruct ev; cbn [app open_files]; try apply IH.
  - destruct r; apply IH.
  - destruct stack as [|g stack']; [reflexivity|].
    destruct (File_eq_dec f g); [apply IH | reflexivity].
Qed.

Lemma open_files_neutral (stack : list File) (t : Trace) :
  Forall (fun ev => no_file_event ev = true) t ->
  open_files stack t = Some stack.
Proof.
  intros H. induction H as [|ev t Hev _ IH]; [reflexivity|].
  destruct ev; cbn [open_files]; try exact IH.
  - destruct r; [discriminate Hev | exact IH].
  - discriminate Hev.
Qed.

Lemma open_files_scope (stack : list File) (p : string) (f : File) (t : Trace) :
  Forall (fun ev => no_file_event ev = true) t ->
  open_files stack ([EvOpen p (Ok f)] ++ t ++ [EvFileClose f]) = Some stack.
Proof.
  intros H. cbn [app open_files].
  rewrite open_files_app, (open_files_neutral (f :: stack) t H).
  cbn [open_files].
  destruct (File_eq_dec f f) as [_|Hne]; [reflexivity | contradiction].
Qed.

Lemma channel_no_file (evs : Trace) :
  Forall (fun ev => is_channel_io ev = true) evs ->
  Forall (fun ev => no_file_event ev = true) evs.
Proof.
  intros H. eapply Forall_impl; [|exact H].
  intros ev Hev. destruct ev; try discriminate; reflexivity.
Qed.

Lemma session_no_file (evs : Trace) :
  Forall (fun ev => is_session_event ev = true) evs ->
  Forall (fun ev => no_file_event ev = true) evs.
Proof.
  intros H. eapply Forall_impl; [|exact H].
  intros ev Hev. destruct ev; try discriminate; reflexivity.
Qed.

Lemma scpUploadDir_scoped (E : Env) (root : string) (fs : list FileInfo)
    (wr : Writer) (r : bufio.Reader) (w : World) :
  exists evs,
    snd (scpUploadDir E root fs wr r w) = log w evs
    /\ forall stack, open_files stack evs = Some stack.
Proof.
  revert r w. induction fs as [|fi rest IH]; intros r w; cbn [scpUploadDir].
  - exists []. rewrite log_nil. split; reflexivity.
  - destruct (negb (IsDir fi)); [|apply IH].
    unfold os_Open_call, file_Close, call, emit, bind. cbv zeta.
    destruct (os_Open E (trace w) _) as [f|e].
    2:{ eexists. split; [reflexivity|]. reflexivity. }
    fold (log w [EvOpen (filepath_Join E root (Name fi)) (Ok f)]).
    destruct (scpUploadFile_channel E (Name fi) (contents f) wr r
                (log w [EvOpen (filepath_Join E root (Name fi)) (Ok f)]))
      as (e1 & H1 & Hio & _).
    apply channel_no_file in Hio.
    destruct (scpUploadFile E (Name fi) (contents f) wr r _) as [[e2 r1] w2].
    cbn [snd] in H1. subst w2.
    fold (log (log (log w [EvOpen (filepath_Join E root (Name fi)) (Ok f)]) e1)
              [EvFileClose f]).
    rewrite !log_log.
    destruct e2 as [e2|].
    + eexists. split; [reflexivity|].
      intros stack. apply open_files_scope. exact Hio.
    + destruct (IH r1 (log w ([EvOpen (filepath_Join E root (Name fi)) (Ok f)]
                               ++ e1 ++ [EvFileClose f]))) as (e3 & H3 & Hb).
      rewrite H3, log_log. eexists. split; [reflexivity|].
      intros stack.
      rewrite open_files_app, (open_files_scope stack _ f e1 Hio). apply Hb.
Qed.


(* ================================================================== *)
(** * Further properties: the transfer session *)
(* ================================================================== *)

Lemma setup_is_session_event (evs : Trace) :
  Forall (fun ev => is_session_setup ev = true) evs ->
  Forall (fun ev => is_session_event ev = true) evs.
Proof.
  intros H. eapply Forall_impl; [|exact H].
  intros ev Hev. destruct ev; try discriminate; reflexivity.
Qed.

(** The trace of [scpSession]: events of the session, then what the
    callback did, if it was called, then events of the session again. *)
Lemma scpSession_callback_events (E : Env) (scpCommand : string)
    (f : Writer -> bufio.Reader -> M (option error * bufio.Reader)) (w : World) :
  transfer_only f ->
  exists pre mid post,
    trace (snd (scpSession E scpCommand f w)) = trace w ++ pre ++ mid ++ post
    /\ Forall (fun ev => is_session_event ev = true) pre
    /\ Forall (fun ev => is_session_event ev = true) post
    /\ (mid = [] \/ exists wr r w0, mid = since w0 (snd (f wr r w0))).
Proof.
  intros Hf.
  destruct (newSession_setup E w) as (evs0 & Ht0 & Hall0).
  apply setup_is_session_event in Hall0.
  rewrite scpSession_eq.
  destruct (newSession E w) as [[s|e] w1]; cbn [snd] in Ht0.
  2:{ exists evs0, [], []. cbn [snd app]. rewrite app_nil_r.
      split; [exact Ht0|]. split; [exact Hall0|]. split; [constructor | left; reflexivity]. }
  destruct (StdinPipe E (trace w1) s) as [wr|e].
  2:{ exists (evs0 ++ [EvStdinPipe s (Err e); EvSessionClose s]), [], [].
      cbn [snd app]. rewrite app_nil_r. unfold log; cbn [trace].
      split; [rewrite Ht0, app_assoc; reflexivity|].
      split; [apply Forall_app; split; [exact Hall0 | repeat constructor]|].
      split; [constructor | left; reflexivity]. }
  cbv zeta. rewrite scpSession_transfer_eq.
  destruct (StdoutPipe E _ s) as [stream|e].
  2:{ exists (evs0 ++ [EvStdinPipe s (Ok wr); EvStdoutPipe s (Err e);
                       EvPipeClose wr; EvSessionClose s]), [], [].
      cbn [snd app]. rewrite app_nil_r. unfold log; cbn [trace].
      split; [rewrite Ht0, <- !app_assoc; reflexivity|].
      split; [apply Forall_app; split; [exact Hall0 | repeat constructor]|].
      split; [constructor | left; reflexivity]. }
  cbv zeta.
  destruct (session_Start E _ s scpCommand) as [e|].
  { exists (evs0 ++ [EvStdinPipe s (Ok wr); EvStdoutPipe s (Ok stream);
                     EvSetStderrBuffer s; EvStart s scpCommand (Some e);
                     EvPipeClose wr; EvSessionClose s]), [], [].
    cbn [snd app]. rewrite app_nil_r. unfold log; cbn [trace].
    split; [rewrite Ht0, <- !app_assoc; reflexivity|].
    split; [apply Forall_app; split; [exact Hall0 | repeat constructor]|].
    split; [constructor | left; reflexivity]. }
  match goal with
  | |- context [f wr ?R ?W] =>
      destruct (Hf wr R W) as (evs_f & Hfe & _);
      assert (Hmid : exists wr' r' w0, evs_f = since w0 (snd (f wr' r' w0)))
        by (exists wr, R, W; rewrite Hfe, since_log; reflexivity);
      destruct (f wr R W) as [[fe r1] w5] eqn:Hfeq
  end.
  cbn [snd] in Hfe. subst w5.
  exists (evs0 ++ [EvStdinPipe s (Ok wr); EvStdoutPipe s (Ok stream);
                   EvSetStderrBuffer s; EvStart s scpCommand None]), evs_f.
  destruct fe as [e|].
  - exists [EvPipeClose wr; EvSessionClose s].
    cbn [snd]. unfold log; cbn [trace].
    split; [rewrite Ht0, <- !app_assoc; reflexivity|].
    split; [apply Forall_app; split; [exact Hall0 | repeat constructor]|].
    split; [repeat constructor|].
    right. exact Hmid.
  - eexists [EvPipeClose wr; EvWait s _; EvSessionClose s].
    cbn [snd]. unfold log; cbn [trace].
    split; [rewrite Ht0, <- !app_assoc; reflexivity|].
    split; [apply Forall_app; split; [exact Hall0 | repeat constructor]|].
    split; [repeat constructor|].
    right. exact Hmid.
Qed.

Lemma session_event_counts (evs : Trace) :
  Forall (fun ev => is_session_event ev = true) evs ->
  count is_opened evs = 0 /\ count is_file_close evs = 0 /\ count is_write evs = 0.
Proof.
  intros H. repeat split;
    (apply (count_class_zero is_session_event); [|exact H]);
    intros [] Hev; (discriminate || reflexivity).
Qed.

(** X13.  Whatever the collaborators do, [UploadDir] closes every local
    file it has opened, that very file:  the files of the directory each
    before the next is opened, the source directory last;  every [Close]
    closes the file opened last and still open, and none is left open when
    [UploadDir] returns. *)
Theorem UploadDir_closes_its_files (E : Env) (dst src : string)
    (excl : list string) (w : World) :
  let run := UploadDir E dst src excl w in
  open_files [] (since w (snd run)) = Some []
  /\ (forall d, os_Open E (trace w) src = Ok d ->
        exists inner,
          since w (snd run) = [EvOpen src (Ok d)] ++ inner ++ [EvFileClose d]
          /\ forall stack, open_files stack inner = Some stack).
Proof.
  intros run. subst run. rewrite UploadDir_eq.
  destruct (os_Open E (trace w) src) as [d|e].
  2:{ cbn [snd]. rewrite since_log. split; [reflexivity|].
      intros d H. discriminate H. }
  assert (Hgoal : forall inner w',
             trace w' = trace w ++ [EvOpen src (Ok d)] ++ inner ++ [EvFileClose d] ->
             (forall stack, open_files stack inner = Some stack) ->
             open_files [] (since w w') = Some []
             /\ (forall d0, Ok d = Ok d0 ->
                   exists inner0,
                     since w w' = [EvOpen src (Ok d0)] ++ inner0 ++ [EvFileClose d0]
                     /\ forall stack, open_files stack inner0 = Some stack)).
  { intros inner w' Ht Hin. rewrite (since_ext w w' _ Ht).
    split.
    - cbn [app open_files]. rewrite open_files_app, Hin. cbn [open_files].
      destruct (File_eq_dec d d) as [_|Hne]; [reflexivity | contradiction].
    - intros d0 Hd. inversion Hd; subst d0. exists inner.
      split; [reflexivity | exact Hin]. }
  destruct (Readdir E _ d) as [entries|e].
  2:{ cbn [snd]. apply (Hgoal [EvReaddir d (Err e)]); [reflexivity|].
      intros stack. reflexivity. }
  destruct (scpSession_callback_events E (String.append "scp -rvt " dst)
              (fun wr r => scpUploadDir E src entries wr r)
              (log w [EvOpen src (Ok d); EvReaddir d (Ok entries)])
              (scpUploadDir_transfer_only E src entries))
    as (pre & mid & post & Ht & Hpre & Hpost & Hmid).
  destruct (scpSession E _ _ _) as [res w']. cbn [snd] in *.
  apply (Hgoal ([EvReaddir d (Ok entries)] ++ pre ++ mid ++ post)).
  - unfold log in *; cbn [trace] in *. rewrite Ht, <- !app_assoc. reflexivity.
  - intros stack. cbn [app open_files].
    assert (Hm : open_files stack mid = Some stack).
    { destruct Hmid as [->|(wr & r & w0 & ->)]; [reflexivity|].
      destruct (scpUploadDir_scoped E src entries wr r w0) as (evs & H & Hs).
      rewrite H, since_log. apply Hs. }
    rewrite open_files_app.
    rewrite (open_files_neutral stack pre (session_no_file pre Hpre)).
    rewrite open_files_app, Hm.
    apply (open_files_neutral stack post (session_no_file post Hpost)).
Qed.

Lemma UploadDir_closes_its_files_witness :
  exists inner,
    since empty_world (snd (UploadDir env_dir "/tmp" "src" [] empty_world))
    = [EvOpen "src" (Ok dir_src)] ++ inner ++ [EvFileClose dir_src]
    /\ forall stack, open_files stack inner = Some stack.
Proof.
  exact (proj2 (UploadDir_closes_its_files env_dir "/tmp" "src" [] empty_world)
           dir_src eq_refl).
Defined.

Lemma wait_result_none (err : option error) :
  wait_result err = None -> err = None.
Proof.
  destruct err as [e|]; [|reflexivity].
  destruct e as [| |s|status text|t]; try discriminate.
  destruct (Z.eq_dec status 127) as [->|Hne]; [discriminate|].
  rewrite wait_result_other; [discriminate|].
  intros text' H. inversion H. contradiction.
Qed.

(** X14.  [scpSession] returns no error only if its callback returned no
    error and [session.Wait()], called after the stdin pipe was closed,
    returned no error;  closing the session is then the last thing it
    did. *)
Theorem scpSession_success_means_waited (E : Env) (scpCommand : string)
    (f : Writer -> bufio.Reader -> M (option error * bufio.Reader)) (w : World) :
  fst (scpSession E scpCommand f w) = None ->
  exists s wr w2,
    snd (scpSession E scpCommand f w)
    = log w2 [EvPipeClose wr; EvWait s None; EvSessionClose s]
    /\ exists r0 w0 r', f wr r0 w0 = ((None, r'), w2).
Proof.
  rewrite scpSession_eq.
  destruct (newSession E w) as [[s|e] w1]; [|discriminate].
  destruct (StdinPipe E (trace w1) s) as [wr|e]; [|discriminate].
  cbv zeta. rewrite scpSession_transfer_eq.
  destruct (StdoutPipe E _ s) as [stream|e]; [|discriminate].
  cbv zeta.
  destruct (session_Start E _ s scpCommand) as [e|]; [discriminate|].
  match goal with
  | |- context [f wr ?R ?W] =>
      assert (Hex : forall fe r' w2, f wr R W = ((fe, r'), w2) ->
                      exists r0 w0, f wr r0 w0 = ((fe, r'), w2))
        by (intros fe r' w2 H; exists R, W; exact H);
      destruct (f wr R W) as [[fe r1] w2]
  end.
  specialize (Hex fe r1 w2 eq_refl).
  destruct fe as [e|]; [discriminate|].
  cbn [fst snd]. intros Hwait. apply wait_result_none in Hwait.
  rewrite Hwait. exists s, wr, w2.
  split; [rewrite log_log; reflexivity|].
  destruct Hex as (r0 & w0 & H). exists r0, w0, r1. exact H.
Qed.

Lemma scpSession_success_means_waited_witness :
  exists s wr w2,
    snd (Upload env_ok "motd" hello empty_world)
    = log w2 [EvPipeClose wr; EvWait s None; EvSessionClose s]
    /\ exists r0 w0 r',
         scpUploadFile env_ok "motd" hello wr r0 w0 = ((None, r'), w2).
Proof.
  exact (scpSession_success_means_waited env_ok "scp -vt motd"
           (fun wr r => scpUploadFile env_ok "motd" hello wr r)
           empty_world eq_refl).
Defined.

(** X15.  When the stdout pipe cannot be had or the sink cannot be
    started, [scpSession] returns that error without calling its callback:
    nothing is written to the sink;  the stdin pipe and the session are
    closed. *)
Theorem scpSession_sink_not_started (E : Env) (scpCommand : string)
    (f : Writer -> bufio.Reader -> M (option error * bufio.Reader))
    (w w1 : World) (s : Session) (wr : Writer) :
  newSession E w = (Ok s, w1) ->
  StdinPipe E (trace w1) s = Ok wr ->
  (forall e,
     StdoutPipe E (trace w1 ++ [EvStdinPipe s (Ok wr)]) s = Err e ->
     scpSession E scpCommand f w =
       (Some e, log w1 [EvStdinPipe s (Ok wr); EvStdoutPipe s (Err e);
                        EvPipeClose wr; EvSessionClose s]))
  /\ (forall stream e,
        StdoutPipe E (trace w1 ++ [EvStdinPipe s (Ok wr)]) s = Ok stream ->
        session_Start E (trace w1 ++ [EvStdinPipe s (Ok wr);
                                      EvStdoutPipe s (Ok stream);
                                      EvSetStderrBuffer s]) s scpCommand = Some e ->
        scpSession E scpCommand f w =
          (Some e, log w1 [EvStdinPipe s (Ok wr); EvStdoutPipe s (Ok stream);
                           EvSetStderrBuffer s; EvStart s scpCommand (Some e);
                           EvPipeClose wr; EvSessionClose s])).
Proof.
  intros Hn Hin. split.
  - intros e Hout. rewrite scpSession_eq, Hn, Hin. cbv zeta.
    rewrite scpSession_transfer_eq.
    unfold log at 1 2. cbn [trace c]. rewrite Hout.
    rewrite !log_log. reflexivity.
  - intros stream e Hout Hst. rewrite scpSession_eq, Hn, Hin. cbv zeta.
    rewrite scpSession_transfer_eq.
    unfold log at 1 2 3 4. cbn [trace c]. rewrite Hout. cbv zeta.
    unfold log at 1 2. cbn [trace c]. rewrite <- app_assoc. cbn [app].
    rewrite Hst. unfold log. cbn [trace c]. rewrite <- !app_assoc. reflexivity.
Qed.

Lemma scpSession_sink_not_started_witness :
  Upload env_no_start "motd" hello empty_world =
    (Some start_refused,
     log (snd (newSession env_no_start empty_world))
       [EvStdinPipe 3 (Ok 4); EvStdoutPipe 3 (Ok (mkStream [x00; x00] EOF));
        EvSetStderrBuffer 3; EvStart 3 "scp -vt motd" (Some start_refused);
        EvPipeClose 4; EvSessionClose 3]).
Proof.
  exact (proj2 (scpSession_sink_not_started env_no_start "scp -vt motd"
                  (fun wr r => scpUploadFile env_no_start "motd" hello wr r)
                  empty_world (snd (newSession env_no_start empty_world)) 3 4
                  eq_refl eq_refl)
           (mkStream [x00; x00] EOF) start_refused eq_refl eq_refl).
Defined.

(* ================================================================== *)
(** * Further properties: [Upload] *)
(* ================================================================== *)

(** X16.  On a session whose sink starts and acknowledges twice, [Upload]
    starts the sink as ["scp -vt "] followed by the directory of the path
    (with forward slashes), sends exactly one file record, named after the
    base of the path, closes the stdin pipe, waits, and returns what the
    wait gives. *)
Theorem Upload_sends_one_record (E : Env) (path : string) (content : list byte)
    (w w1 : World) (s : Session) (wr : Writer) (rest : list byte)
    (stream_err : error) :
  let scpCommand :=
    String.append "scp -vt " (filepath_ToSlash E (filepath_Dir E path)) in
  let stream := mkStream (x00 :: x00 :: rest) stream_err in
  let name := filepath_Base E path in
  newSession E w = (Ok s, w1) ->
  StdinPipe E (trace w1) s = Ok wr ->
  StdoutPipe E (trace w1 ++ [EvStdinPipe s (Ok wr)]) s = Ok stream ->
  session_Start E (trace w1 ++ [EvStdinPipe s (Ok wr); EvStdoutPipe s (Ok stream);
                                EvSetStderrBuffer s]) s scpCommand = None ->
  (forall t p, Write E t wr p = None) ->
  let run := Upload E path (mkStream content EOF) w in
  exists wait,
    fst run = wait_result wait
    /\ since w1 (snd run) =
         [EvStdinPipe s (Ok wr); EvStdoutPipe s (Ok stream);
          EvSetStderrBuffer s; EvStart s scpCommand None;
          EvWrite wr (file_header (List.length content) name) None;
          EvReadByte x00 None]
         ++ payload_events wr content
         ++ [EvWrite wr [x00] None; EvReadByte x00 None;
             EvPipeClose wr; EvWait s wait; EvSessionClose s]
    /\ written wr (since w1 (snd run)) = file_record name content.
Proof.
  intros scpCommand stream name Hn Hin Hout Hst Hw run. subst run.
  unfold Upload. fold scpCommand. fold name.
  pose proof (scpUploadFile_run E name content wr (bufio.NewReader stream) rest
                (before_transfer w1 s wr stream scpCommand) Hw eq_refl) as Hf.
  rewrite (scpSession_after_transfer E scpCommand
             (fun w0 stdoutR => scpUploadFile E name (mkStream content EOF) w0 stdoutR)
             w w1 _ s wr stream None _ Hn Hin Hout Hst Hf).
  cbv zeta. eexists. split; [reflexivity|].
  cbn [snd]. unfold before_transfer. rewrite !log_log.
  rewrite since_log.
  split; [rewrite <- !app_assoc; reflexivity|].
  rewrite !written_app, written_payload. cbn [written].
  rewrite !Nat.eqb_refl. cbn [app]. rewrite !app_nil_r.
  unfold file_record. reflexivity.
Qed.

Lemma Upload_sends_one_record_witness :
  let run := Upload env_ok "motd" hello empty_world in
  exists wait,
    fst run = wait_result wait
    /\ written 4 (since (snd (newSession env_ok empty_world)) (snd run))
       = file_record "motd" (bytes "hello").
Proof.
  destruct (Upload_sends_one_record env_ok "motd" (bytes "hello") empty_world
              (snd (newSession env_ok empty_world)) 3 4 [] EOF
              eq_refl eq_refl eq_refl eq_refl (fun _ _ => eq_refl))
    as (wait & H1 & _ & H3).
  exists wait. split; [exact H1 | exact H3].
Defined.

(** X17.  When the input of [Upload] cannot be read to its end, [Upload]
    returns the error of the read:  the sink has been started, but not a
    byte is written to it and nothing is read from it;  the stdin pipe and
    the session are closed and the exit status is not waited for. *)
Theorem Upload_unreadable_input (E : Env) (path : string) (input : Stream)
    (e : error) (w w1 : World) (s : Session) (wr : Writer) (stream : Stream) :
  let scpCommand :=
    String.append "scp -vt " (filepath_ToSlash E (filepath_Dir E path)) in
  io_Copy_in input = Err e ->
  newSession E w = (Ok s, w1) ->
  StdinPipe E (trace w1) s = Ok wr ->
  StdoutPipe E (trace w1 ++ [EvStdinPipe s (Ok wr)]) s = Ok stream ->
  session_Start E (trace w1 ++ [EvStdinPipe s (Ok wr); EvStdoutPipe s (Ok stream);
                                EvSetStderrBuffer s]) s scpCommand = None ->
  Upload E path input w =
    (Some e,
     log w1 [EvStdinPipe s (Ok wr); EvStdoutPipe s (Ok stream);
             EvSetStderrBuffer s; EvStart s scpCommand None;
             EvPipeClose wr; EvSessionClose s]).
Proof.
  intros scpCommand Hsrc Hn Hin Hout Hst.
  unfold Upload. fold scpCommand.
  assert (Hf : scpUploadFile E (filepath_Base E path) input wr
                 (bufio.NewReader stream) (before_transfer w1 s wr stream scpCommand)
               = ((Some e, bufio.NewReader stream),
                  before_transfer w1 s wr stream scpCommand)).
  { unfold scpUploadFile. rewrite Hsrc. reflexivity. }
  rewrite (scpSession_after_transfer E scpCommand
             (fun w0 stdoutR => scpUploadFile E (filepath_Base E path) input w0 stdoutR)
             w w1 _ s wr stream (Some e) _ Hn Hin Hout Hst Hf).
  unfold before_transfer. rewrite log_log. reflexivity.
Qed.

Lemma Upload_unreadable_input_witness :
  fst (Upload env_ok "motd" broken_input empty_world) = Some read_failed
  /\ count is_write (trace (snd (Upload env_ok "motd" broken_input empty_world))) = 0.
Proof.
  rewrite (Upload_unreadable_input env_ok "motd" broken_input read_failed
             empty_world (snd (newSession env_ok empty_world)) 3 4
             (mkStream [x00; x00] EOF) eq_refl eq_refl eq_refl eq_refl eq_refl).
  split; reflexivity.
Defined.

(* ================================================================== *)
(** * Further properties: [Start] *)
(* ================================================================== *)

(** X18.  [Start] itself never closes a session:  when it has got a
    session and then fails, because the pty is refused or the command
    cannot be started, it returns the error and the session stays open. *)
Theorem Start_leaves_session_open (E : Env) (cmd : RemoteCmd) (w : World) :
  let run := Start E cmd w in
  count is_session_close (since w (snd run)) = 0
  /\ (forall s w1 e,
        newSession E w = (Ok s, w1) -> fst (fst run) = Some e ->
        snd (fst run) = None
        /\ exists cl, In (EvNewSession cl (Ok s)) (since w (snd run))).
Proof.
  intros run. subst run. split.
  - apply Start_count_zero; intros [] H; (discriminate || reflexivity).
  - intros s w1 e Hn Herr.
    destruct (newSession_opened E w w1 s Hn) as (cl & before & _ & Hs).
    destruct (newSession_setup E w) as (evs0 & Ht0 & _).
    rewrite Hn in Ht0. cbn [snd] in Ht0.
    rewrite (since_ext w w1 evs0 Ht0) in Hs. subst evs0.
    rewrite Start_eq in *. rewrite Hn in *. cbv zeta in *.
    destruct (RequestPty E _ s) as [e1|];
      [|destruct (session_Start E _ s _) as [e2|]]; cbn [fst snd] in *;
      try discriminate Herr.
    + split; [reflexivity|]. exists cl.
      rewrite (since_ext w _ ((before ++ [EvNewSession cl (Ok s)])
                              ++ start_events cmd s (Some e1)))
        by (unfold log; cbn [trace]; rewrite Ht0, <- !app_assoc; reflexivity).
      apply in_or_app. left. apply in_or_app. right. left. reflexivity.
    + split; [reflexivity|]. exists cl.
      rewrite (since_ext w _ ((before ++ [EvNewSession cl (Ok s)])
                              ++ start_events cmd s None
                              ++ [EvStart s (String.append (Command cmd) LF) (Some e2)]))
        by (unfold log; cbn [trace]; rewrite Ht0, <- !app_assoc; reflexivity).
      apply in_or_app. left. apply in_or_app. right. left. reflexivity.
Qed.

Lemma Start_leaves_session_open_witness :
  let run := Start env_no_pty cmd_false empty_world in
  fst run = (Some pty_refused, None)
  /\ count is_session_close (since empty_world (snd run)) = 0
  /\ exists cl, In (EvNewSession cl (Ok 3)) (since empty_world (snd run)).
Proof.
  destruct (Start_leaves_session_open env_no_pty cmd_false empty_world)
    as [H0 H].
  destruct (H 3 (snd (newSession env_no_pty empty_world)) pty_refused
              eq_refl eq_refl) as [_ Hin].
  split; [reflexivity|]. split; [exact H0 | exact Hin].
Defined.

(* ================================================================== *)
(** * Further properties: a message longer than the buffer *)
(* ================================================================== *)

Lemma ReadLine_long (r : bufio.Reader) (m rest : list byte) :
  bufio.data r = m ++ rest ->
  List.length m = bufio.size r ->
  ~ In x0a m -> bufio.ends_with_CR m = false ->
  bufio.ReadLine r = ((m, true, None), with_data r rest).
Proof.
  intros Hd Hlen Hin Hcr.
  unfold bufio.ReadLine, bufio.ReadSlice.
  rewrite Hd, <- Hlen.
  rewrite firstn_app, Nat.sub_diag, firstn_all. cbn [firstn]. rewrite app_nil_r.
  rewrite <- (firstn_all m) at 1. rewrite index_LF_none by exact Hin.
  replace (List.length m <=? List.length (m ++ rest))%nat with true
    by (symmetry; apply Nat.leb_le; rewrite length_app; lia).
  rewrite Hcr. unfold bufio.advance, with_data.
  rewrite Hd, skipn_app, Nat.sub_diag, skipn_all. reflexivity.
Qed.

(** X19.  The message of a rejection is read with one [ReadLine] whose
    [isPrefix] is ignored:  of a message that does not fit the reader's
    buffer only the first buffer-full becomes the text of the error, and the
    rest of the line stays unread on the stream. *)
Theorem checkSCPStatus_long_message_cut (r : bufio.Reader) (b : byte)
    (m rest : list byte) (w : World) :
  bufio.data r = b :: m ++ rest -> b <> x00 ->
  List.length m = bufio.size r ->
  ~ In x0a m -> bufio.ends_with_CR m = false ->
  checkSCPStatus r w =
    ((Some (errors_New (string_of_list_byte m)), with_data r rest),
     log w [EvReadByte b None; EvReadLine m None]).
Proof.
  intros Hd Hb Hlen Hin Hcr.
  rewrite (checkSCPStatus_nonzero r b (m ++ rest) w Hd Hb).
  rewrite (ReadLine_long (with_data r (m ++ rest)) m rest eq_refl Hlen Hin Hcr).
  reflexivity.
Qed.

Lemma checkSCPStatus_long_message_cut_witness :
  checkSCPStatus (small_reader (x01 :: long_message ++ [x0a])) empty_world =
    ((Some (errors_New "no space left on"), small_reader (bytes " device" ++ [x0a])),
     log empty_world [EvReadByte x01 None; EvReadLine (bytes "no space left on") None]).
Proof.
  exact (checkSCPStatus_long_message_cut
           (small_reader (x01 :: long_message ++ [x0a])) x01
           (bytes "no space left on") (bytes " device" ++ [x0a]) empty_world
           eq_refl ltac:(discriminate) eq_refl
           ltac:(vm_compute; intuition discriminate) eq_refl).
Defined.

(* ================================================================== *)
(** * Further properties: reconnecting again *)
(* ================================================================== *)

(** X20.  A connection that [reconnect] got from the factory is closed by
    the next [reconnect], first thing, whether the handshake on it had
    succeeded or failed. *)
Theorem reconnect_closes_what_the_last_made (E : Env) (w : World) (k : Conn) :
  In (EvConnection (Ok k)) (since w (snd (reconnect E w))) ->
  exists rest,
    since (snd (reconnect E w)) (snd (reconnect E (snd (reconnect E w))))
    = EvConnClose k :: rest.
Proof.
  intros Hin.
  assert (Hk : conn (c (snd (reconnect E w))) = Some k).
  { rewrite reconnect_eq in *. cbv zeta in *.
    destruct (Connection E _) as [k1|e1] eqn:Hc.
    - assert (k1 = k).
      { destruct (ssh_Client E _ k1) as [cl|e2]; cbn [snd] in Hin;
          rewrite (since_ext w _ (closing (conn (c w)) ++ [EvConnection (Ok k1)] ++ [_]))
            in Hin by (cbn [trace]; rewrite <- !app_assoc; reflexivity);
          apply in_app_or in Hin; destruct Hin as [Hin|[Hin|[Hin|[]]]];
          try discriminate Hin; try (inversion Hin; reflexivity);
          destruct (conn (c w)); cbn [closing] in Hin;
          try destruct Hin as [Hin|[]]; try discriminate Hin; try contradiction. }
      subst k1. destruct (ssh_Client E _ k); reflexivity.
    - cbn [snd] in Hin.
      rewrite (since_ext w _ (closing (conn (c w)) ++ [EvConnection (Err e1)]))
        in Hin by (cbn [trace]; rewrite <- !app_assoc; reflexivity).
      apply in_app_or in Hin. destruct Hin as [Hin|[Hin|[]]]; [|discriminate Hin].
      destruct (conn (c w)); cbn [closing] in Hin;
        try destruct Hin as [Hin|[]]; try discriminate Hin; contradiction. }
  destruct (reconnect_setup E (snd (reconnect E w))) as (evs & Ht & _).
  remember (snd (reconnect E w)) as w1 eqn:Hw1.
  clear Hin Hw1.
  rewrite reconnect_eq. cbv zeta. rewrite Hk. cbn [closing].
  destruct (Connection E _) as [k2|e2];
    [destruct (ssh_Client E _ k2) as [cl|e3]|]; cbn [snd];
    eexists; apply since_ext; cbn [trace]; rewrite <- !app_assoc; reflexivity.
Qed.

Lemma reconnect_closes_what_the_last_made_witness :
  exists rest,
    since (snd (reconnect env_no_handshake empty_world))
      (snd (reconnect env_no_handshake (snd (reconnect env_no_handshake empty_world))))
    = EvConnClose 1 :: rest.
Proof.
  apply (reconnect_closes_what_the_last_made env_no_handshake empty_world 1).
  left. reflexivity.
Defined.

(* ================================================================== *)
(** * Further properties: [scpWalkFn] *)
(* ================================================================== *)

Section WalkFnProperties.

Variable E : Env.
Variable filepath_Rel : string -> string -> result string.
Variable filepath_Walk :
string -> WalkFunc -> bufio.Reader -> M (option error * bufio.Reader).
Variable self : string -> string -> string -> Writer -> WalkFunc.

Lemma Sprintln_dir_header (name : string) :
list_byte_of_string (Sprintln ["D0755 0"; name]) = dir_header name.
Proof.
unfold dir_header. cbn [Sprintln].
fold (bytes (String.append "D0755 0" (String.append " " (String.append name LF)))).
rewrite !bytes_app. reflexivity.
Qed.

(** X21.  Called on a directory other than the one being walked,
  [scpWalkFn] first writes the record ["D0755 0 <name>\n"], named after
  the base of the path relative to the source.  If the sink does not
  acknowledge it, the error is returned and the directory is not walked;
  if the walk of the directory fails, its error is returned and no end
  record is written;  only after a walk without error is ["E\n"] written,
  and the result is the sink's answer to it. *)
Theorem scpWalkFn_directory (cur dst src path relPath : string) (wr : Writer)
  (info : FileInfo) (r : bufio.Reader) (w : World) :
String.eqb path cur = false ->
filepath_Rel src path = Ok relPath ->
IsDir info = true ->
let run := scpWalkFn E filepath_Rel filepath_Walk self cur dst src wr
             path info None r w in
let header := dir_header (filepath_Base E relPath) in
let w1 := log w [EvWrite wr header (Write E (trace w) wr header)] in
(forall b m rest,
   bufio.data r = b :: m ++ x0a :: rest -> b <> x00 ->
   ~ In x0a m -> List.length m < bufio.size r ->
   run = ((Some (errors_New (string_of_list_byte (chomp_CR m))), with_data r rest),
          log w1 [EvReadByte b None; EvReadLine (chomp_CR m) None]))
/\ (forall rest, bufio.data r = x00 :: rest ->
    let w2 := log w1 [EvReadByte x00 None] in
    let walked := filepath_Walk path (self path dst src wr) (with_data r rest) w2 in
    (forall e, fst (fst walked) = Some e -> run = walked)
    /\ (fst (fst walked) = None ->
        run = checkSCPStatus (snd (fst walked))
                (log (snd walked)
                   [EvWrite wr dir_end
                      (Write E (trace (snd walked)) wr dir_end)]))).
Proof.
intros Hcur Hrel Hdir run header w1. subst run header w1.
unfold scpWalkFn. rewrite Hcur, Hrel, Hdir.
unfold fmt_Fprintln, w_Write, call, bind, ret. cbn [fst snd trace c].
rewrite Sprintln_dir_header.
fold (log w [EvWrite wr (dir_header (filepath_Base E relPath))
               (Write E (trace w) wr (dir_header (filepath_Base E relPath)))]).
split.
- intros b m rest Hd Hb Hin Hlen.
  rewrite (checkSCPStatus_reject r b m rest _ Hd Hb Hin Hlen). reflexivity.
- intros rest Hd. cbv zeta.
  rewrite (checkSCPStatus_zero r rest _ Hd).
  destruct (filepath_Walk path _ _ _) as [[[e|] r2] w3]; cbn [fst snd].
  + split; [intros e' _; reflexivity | discriminate].
  + split; [discriminate|]. intros _. reflexivity.
Qed.

(** X22.  Called on an entry that is no directory, [scpWalkFn] opens the
  path, uploads the file under the base of its path relative to the
  source, and closes the file whether or not the upload succeeded;  when
  the file cannot be opened nothing is written. *)
Theorem scpWalkFn_file (cur dst src path relPath : string) (wr : Writer)
  (info : FileInfo) (r : bufio.Reader) (w : World) :
String.eqb path cur = false ->
filepath_Rel src path = Ok relPath ->
IsDir info = false ->
let run := scpWalkFn E filepath_Rel filepath_Walk self cur dst src wr
             path info None r w in
(forall e, os_Open E (trace w) path = Err e ->
   run = ((Some e, r), log w [EvOpen path (Err e)]))
/\ (forall f, os_Open E (trace w) path = Ok f ->
    let up := scpUploadFile E (filepath_Base E relPath) (contents f) wr r
                (log w [EvOpen path (Ok f)]) in
    run = (fst up, log (snd up) [EvFileClose f])
    /\ exists evs,
         snd up = log w ([EvOpen path (Ok f)] ++ evs)
         /\ Forall (fun ev => is_channel_io ev = true) evs).
Proof.
intros Hcur Hrel Hdir run. subst run.
unfold scpWalkFn. rewrite Hcur, Hrel, Hdir.
unfold os_Open_call, file_Close, call, emit, bind, ret. cbv zeta.
split.
- intros e Ho. rewrite Ho. reflexivity.
- intros f Ho. rewrite Ho.
  fold (log w [EvOpen path (Ok f)]).
  destruct (scpUploadFile_channel E (filepath_Base E relPath) (contents f) wr r
              (log w [EvOpen path (Ok f)])) as (evs & H & Hio & _).
  destruct (scpUploadFile E _ _ wr r _) as [[err r1] w2].
  cbn [fst snd] in *. subst w2.
  split; [reflexivity|]. exists evs.
  split; [|exact Hio].
  rewrite log_log. reflexivity.
Qed.

End WalkFnProperties.

Lemma scpWalkFn_directory_witness :
  let run := scpWalkFn_2 env_ok "src" "/tmp" "src" 4 "src/sub"
               (mkFileInfo "sub" true) None (reader_of [x00; x00]) empty_world in
  fst run = (None, reader_of [])
  /\ written 4 (trace (snd run)) = dir_header "sub" ++ dir_end.
Proof.
  destruct (scpWalkFn_directory env_ok rel_below walk_empty_dir
              (scpWalkFn env_ok rel_below walk_empty_dir
                 (fun _ _ _ _ _ _ _ r => ret (None, r)))
              "src" "/tmp" "src" "src/sub" "sub" 4 (mkFileInfo "sub" true)
              (reader_of [x00; x00]) empty_world eq_refl eq_refl eq_refl)
    as [_ H].
  destruct (H [x00] eq_refl) as [_ Hok].
  unfold scpWalkFn_2. rewrite (Hok eq_refl).
  split; reflexivity.
Defined.

Lemma scpWalkFn_file_witness :
  let run := scpWalkFn_2 env_dir "src" "/tmp" "src" 4 "src/a.txt"
               (mkFileInfo "a.txt" false) None (reader_of [x00; x00]) empty_world in
  fst run = (None, reader_of [])
  /\ written 4 (trace (snd run)) = file_record "a.txt" (bytes "A")
  /\ count is_opened (trace (snd run)) = count is_file_close (trace (snd run)).
Proof.
  destruct (scpWalkFn_file env_dir rel_below walk_empty_dir
              (scpWalkFn env_dir rel_below walk_empty_dir
                 (fun _ _ _ _ _ _ _ r => ret (None, r)))
              "src" "/tmp" "src" "src/a.txt" "a.txt" 4 (mkFileInfo "a.txt" false)
              (reader_of [x00; x00]) empty_world eq_refl eq_refl eq_refl)
    as [_ H].
  destruct (H file_a eq_refl) as [Hrun _].
  unfold scpWalkFn_2. rewrite Hrun.
  split; [reflexivity|]. split; reflexivity.
Defined.
